(** * WooMetrics: the scrape-and-aggregate pipeline of the WooCommerce exporter

    A shallow embedding of [src/services/woocommerce-client.js] (the store
    client), of the metrics collector (class [MetricsCollector]), of the
    store configuration (class [StoreConfig]) and of the start-up, the
    collection entry points and the POST routes of [src/app.js], together
    with the properties of the specification that concern them and further
    properties of the code.

    How the program is read:

    - Asynchronous functions are written in a state-and-exception monad: a
      rejected promise is a thrown value, [await] is sequencing,
      [try]/[catch] and [Promise.allSettled] are combinators.  The state
      holds the prom-client registry (the only object that is shared), the
      trace of upstream requests, the log, the number of clock readings
      taken so far and the time of the last collection.
    - The upstream store is a function from requests to responses, and the
      wall clock a sequence of readings; both are arbitrary.
    - Promises that JavaScript runs concurrently are run one after the
      other, in the order in which they are started.  The reductions of one
      store write to label sets of their own, and so do different stores.
    - Gauge values are JavaScript numbers.  Their arithmetic, [parseFloat]
      and the [Date] methods are parameters ([JsRuntime]); counts, counter
      cells, timestamps in milliseconds and the integers read by [parseInt]
      are exact integers.
    - The records of the REST API are typed after its schema; a field whose
      absence or type matters to the code is a [JsVal] or an option.  The
      status of a record is a string used as a key of a plain object, with
      what this means for a status named like a member of
      [Object.prototype]: its count is not a number, and prom-client
      refuses to set a gauge to it.
    - Of a call to the logger the level and the message are kept.
    - The environment is a finite map from variable names to strings.  The
      [while (true)] loop of the loader is run for a bounded number of
      rounds, which is shown to be enough for every environment.
    - The map of clients is the list of its entries in insertion order; the
      constructor of the REST client library is a parameter. *)

From Stdlib Require Import ZArith List String Ascii Lia.
From stdpp Require Import gmap strings list pretty.
From Equations Require Import Equations.

Open Scope string_scope.
Open Scope Z_scope.

(** ** JavaScript values and the coercions the code relies on *)

Module Js.

(** The values a JSON field of the REST API can hold.  Numbers are the
    integers (stock quantities, line quantities and product ids are integer
    fields of the WooCommerce schema). *)
Inductive JsVal : Type :=
  | JUndefined
  | JNull
  | JBool (b : bool)
  | JNum (n : Z)
  | JStr (s : string).

(** [StrWhiteSpaceChar], restricted to the one-byte code points. *)
Definition is_space (a : ascii) : bool :=
  let n := nat_of_ascii a in
  ((n =? 32) || (n =? 9) || (n =? 10) || (n =? 11) || (n =? 12) || (n =? 13))%nat.

Fixpoint skip_spaces (s : string) : string :=
  match s with
  | String a r => if is_space a then skip_spaces r else s
  | EmptyString => s
  end.

(** The value of a digit in the given radix, if it is one. *)
Definition digit_value (radix : Z) (a : ascii) : option Z :=
  let n := Z.of_nat (nat_of_ascii a) in
  let v := if (48 <=? n) && (n <=? 57) then Some (n - 48)
           else if (97 <=? n) && (n <=? 122) then Some (n - 87)
           else if (65 <=? n) && (n <=? 90) then Some (n - 55)
           else None in
  match v with
  | Some d => if d <? radix then Some d else None
  | None => None
  end.

(** Longest prefix of digits: [acc] is [None] until a digit was read. *)
Fixpoint read_digits (radix : Z) (s : string) (acc : option Z) : option Z :=
  match s with
  | String a r =>
      match digit_value radix a with
      | Some d => read_digits radix r (Some (default 0 acc * radix + d))
      | None => acc
      end
  | EmptyString => acc
  end.

Definition strip_hex_prefix (s : string) : option string :=
  match s with
  | String "0" (String "x" r) => Some r
  | String "0" (String "X" r) => Some r
  | _ => None
  end.

(** [parseInt(s)] with no radix argument; [None] is NaN. *)
Definition parseInt_string (s : string) : option Z :=
  let s1 := skip_spaces s in
  let '(sign, s2) :=
    match s1 with
    | String "-" r => (-1, r)
    | String "+" r => (1, r)
    | _ => (1, s1)
    end in
  let mag :=
    match strip_hex_prefix s2 with
    | Some r => read_digits 16 r None
    | None => read_digits 10 s2 None
    end in
  (fun m => sign * m) <$> mag.

(** [parseInt(v)]: the argument is first converted to a string, so
    [undefined], [null] and booleans give NaN.  The model is exact for
    integers and digit strings below 2^53 in magnitude and for white space
    up to U+007F: past that JavaScript rounds, prints a number from 1e21 on
    with an exponent before it parses it, and skips white space such as
    U+00A0, which the model does not. *)
Definition parseInt (v : JsVal) : option Z :=
  match v with
  | JNum n => Some n
  | JStr s => parseInt_string s
  | JUndefined | JNull | JBool _ => None
  end.

(** [parseInt(v) || 0]: NaN and 0 are falsy. *)
Definition parseInt_or_0 (v : JsVal) : Z :=
  match parseInt v with
  | Some n => if n =? 0 then 0 else n
  | None => 0
  end.

(** Truthiness, as [if (v)] and [v && ...] test it. *)
Definition truthy (v : JsVal) : bool :=
  match v with
  | JUndefined | JNull => false
  | JBool b => b
  | JNum n => negb (n =? 0)
  | JStr s => negb (String.eqb s "")
  end.

End Js.

Import Js.

(** ** Data model: what the REST API returns and what the store is *)

(** One entry of [order.line_items].  [item.product_id.toString()] throws a
    TypeError when the field is missing: [li_product_id = None]. *)
Record LineItem : Type := {
  li_product_id : option Z;
  li_name : string;
  li_quantity : JsVal;
}.

Record Order : Type := {
  order_status : string;
  order_date_created : JsVal;
  order_total : JsVal;
  order_line_items : option (list LineItem);
}.

Record Product : Type := {
  product_status : string;
  product_stock_quantity : JsVal;
  product_stock_status : string;
  product_manage_stock : JsVal;
}.

(** Only the number of customers of a page is ever looked at. *)
Record Customer : Type := { customer_id : Z }.

(** A store of the configuration (the fields the pipeline reads). *)
Record StoreConfig : Type := {
  id : string;
  name : string;
  url : string;
  currency : string;
  enabled : bool;
  scrapeInterval : Z;
}.

(** The query parameters of a request; an absent key is [None]. *)
Record Params : Type := {
  page : option nat;
  per_page : option nat;
  after : option Z;
}.

Definition no_params : Params := {| page := None; per_page := None; after := None |}.

(** Object spread [{ ...a, ...b }]: the keys of [b] win. *)
Definition spread (a b : Params) : Params :=
  {| page := match page b with Some x => Some x | None => page a end;
     per_page := match per_page b with Some x => Some x | None => per_page a end;
     after := match after b with Some x => Some x | None => after a end |}.

(** A thrown value: an [Error] with its message. *)
Record Error : Type := { message : string }.

Inductive Result (A : Type) : Type :=
  | Ok (a : A)
  | Throw (e : Error).
Arguments Ok {A} a.
Arguments Throw {A} e.

(** The upstream store behind [this.api.get(endpoint, params)].  Within one
    collection of a store no request is issued twice, so a response that
    depends on the request alone loses no behaviour. *)
Record Upstream : Type := {
  get_orders : Params -> Result (list Order);
  get_products : Params -> Result (list Product);
  get_customers : Params -> Result (list Customer);
  get_system_status : Result unit;
}.

Record WooCommerceClient : Type := {
  storeConfig : StoreConfig;
  api : Upstream;
}.

Definition storeId (c : WooCommerceClient) : string := id (storeConfig c).
Definition storeName (c : WooCommerceClient) : string := name (storeConfig c).

Inductive Endpoint : Type := EOrders | EProducts | ECustomers | ESystemStatus.

(** An upstream call as it leaves the client: store, endpoint, parameters. *)
Record Request : Type := {
  req_store : string;
  req_endpoint : Endpoint;
  req_params : Params;
}.

Inductive Level : Type := Debug | Info | Warn | LError.

(** ** The numeric runtime

    Gauge values are JavaScript numbers.  Their arithmetic, [parseFloat] and
    the [Date] methods are kept abstract: every statement below holds for any
    implementation of them. *)
Class JsRuntime (num : Type) : Type := {
  of_Z : Z -> num;
  nadd : num -> num -> num;
  ndiv : num -> num -> num;
  (** [false] on NaN, [+0] and [-0] *)
  num_truthy : num -> bool;
  parseFloat : JsVal -> num;
  toFixed2 : num -> string;
  (** [new Date(v).getTime()]; [None] is an invalid date *)
  Date_parse : JsVal -> option Z;
  toDateString : option Z -> string;
  getFullYear : option Z -> string;
  (** [String(d.getMonth() + 1).padStart(2, '0')] *)
  getMonth1 : option Z -> string;
}.

(** ** The prom-client registry

    A gauge or counter keeps one cell per label set; a cell is created by the
    first write and stays until the metric is reset.  A sample is addressed
    by the metric name and the label values in the order of [labelNames]. *)
Definition SampleKey : Type := string * list string.

Record Registry (num : Type) : Type := {
  gauges : gmap (string * list string) num;
  counters : gmap (string * list string) N;
}.
Arguments gauges {num} r.
Arguments counters {num} r.

Definition empty_registry {num : Type} : Registry num :=
  {| gauges := ∅; counters := ∅ |}.

(** [gauge.set(labels, v)] *)
Definition registry_set {num : Type} (k : SampleKey) (v : num) (r : Registry num) : Registry num :=
  {| gauges := <[k := v]> (gauges r); counters := counters r |}.

(** [counter.inc(labels)] *)
Definition registry_inc {num : Type} (k : SampleKey) (r : Registry num) : Registry num :=
  {| gauges := gauges r;
     counters := <[k := (default 0%N (counters r !! k) + 1)%N]> (counters r) |}.

(** A sample of the exposition: a gauge cell or a counter cell. *)
Inductive Sample (num : Type) : Type :=
  | GaugeSample (k : SampleKey) (v : num)
  | CounterSample (k : SampleKey) (n : N).
Arguments GaugeSample {num} k v.
Arguments CounterSample {num} k n.

(** [register.metrics()]: every cell of every metric is rendered (the text
    syntax of a line is not modelled). *)
Definition render {num : Type} (r : Registry num) : list (Sample num) :=
  (uncurry GaugeSample <$> map_to_list (gauges r))
  ++ (uncurry CounterSample <$> map_to_list (counters r)).

(** ** The monad of asynchronous code *)

Record State (num : Type) : Type := {
  register : Registry num;
  requests : list Request;
  logs : list (Level * string);
  ticks : nat;
  lastCollectionTime : option Z;
}.
Arguments register {num} s.
Arguments requests {num} s.
Arguments logs {num} s.
Arguments ticks {num} s.
Arguments lastCollectionTime {num} s.

Definition M (num A : Type) : Type := State num -> Result A * State num.

Section Monad.
Context {num : Type}.

Definition ret {A : Type} (a : A) : M num A := fun s => (Ok a, s).

Definition throw {A : Type} (e : Error) : M num A := fun s => (Throw e, s).

Definition bind {A B : Type} (m : M num A) (k : A -> M num B) : M num B :=
  fun s => match m s with
           | (Ok a, s1) => k a s1
           | (Throw e, s1) => (Throw e, s1)
           end.

(** [try { body } catch (error) { handler }] *)
Definition try_catch {A : Type} (body : M num A) (handler : Error -> M num A) : M num A :=
  fun s => match body s with
           | (Ok a, s1) => (Ok a, s1)
           | (Throw e, s1) => handler e s1
           end.

(** One element of [Promise.allSettled]: the outcome is kept, never thrown. *)
Definition settle {A : Type} (m : M num A) : M num (Result A) :=
  fun s => match m s with (r, s1) => (Ok r, s1) end.

Definition modify (f : State num -> State num) : M num unit :=
  fun s => (Ok tt, f s).

Definition logger (l : Level) (msg : string) : M num unit :=
  modify (fun s => {| register := register s; requests := requests s;
                      logs := logs s ++ [(l, msg)]; ticks := ticks s;
                      lastCollectionTime := lastCollectionTime s |}).

Definition record_request (r : Request) : M num unit :=
  modify (fun s => {| register := register s; requests := requests s ++ [r];
                      logs := logs s; ticks := ticks s;
                      lastCollectionTime := lastCollectionTime s |}).

Definition update_register (f : Registry num -> Registry num) : M num unit :=
  modify (fun s => {| register := f (register s); requests := requests s;
                      logs := logs s; ticks := ticks s;
                      lastCollectionTime := lastCollectionTime s |}).

Definition gauge_set (metric : string) (labels : list string) (v : num) : M num unit :=
  update_register (registry_set (metric, labels) v).

Definition counter_inc (metric : string) (labels : list string) : M num unit :=
  update_register (registry_inc (metric, labels)).

(** [Date.now()] and [new Date()]: the next reading of the wall clock. *)
Definition Date_now (clock : nat -> Z) : M num Z :=
  fun s => (Ok (clock (ticks s)),
            {| register := register s; requests := requests s; logs := logs s;
               ticks := S (ticks s); lastCollectionTime := lastCollectionTime s |}).

(** [xs.forEach(f)] *)
Fixpoint forEach {A : Type} (f : A -> M num unit) (xs : list A) : M num unit :=
  match xs with
  | [] => ret tt
  | x :: rest => bind (f x) (fun _ => forEach f rest)
  end.

End Monad.

#[global] Instance M_ret {num : Type} : MRet (M num) := @ret num.
#[global] Instance M_bind {num : Type} : MBind (M num) := fun A B k m => bind m k.

(** ** [src/services/woocommerce-client.js] *)

Module Client.
Section Client.
Context {num : Type}.

(** [this.api.get(endpoint, params)] on each endpoint: the request is
    issued, then the promise resolves with [response.data] or rejects. *)
Definition of_result {A : Type} (r : Result A) : M num A :=
  match r with Ok a => mret a | Throw e => throw e end.

Definition api_get_orders (c : WooCommerceClient) (p : Params) : M num (list Order) :=
  record_request {| req_store := storeId c; req_endpoint := EOrders; req_params := p |};;
  of_result (get_orders (api c) p).

Definition api_get_products (c : WooCommerceClient) (p : Params) : M num (list Product) :=
  record_request {| req_store := storeId c; req_endpoint := EProducts; req_params := p |};;
  of_result (get_products (api c) p).

Definition api_get_customers (c : WooCommerceClient) (p : Params) : M num (list Customer) :=
  record_request {| req_store := storeId c; req_endpoint := ECustomers; req_params := p |};;
  of_result (get_customers (api c) p).

Definition api_get_system_status (c : WooCommerceClient) : M num unit :=
  record_request {| req_store := storeId c; req_endpoint := ESystemStatus;
                    req_params := no_params |};;
  of_result (get_system_status (api c)).

(** [{ per_page: 100, page: 1, ...params }] *)
Definition defaultParams (params : Params) : Params :=
  spread {| page := Some 1%nat; per_page := Some 100%nat; after := None |} params.

(** [{ ...params, page, per_page: 100 }] *)
Definition pageParams (params : Params) (pg : nat) : Params :=
  spread params {| page := Some pg; per_page := Some 100%nat; after := None |}.

Definition pretty_len {A : Type} (l : list A) : string := pretty (length l).

Definition getOrders (c : WooCommerceClient) (params : Params) : M num (list Order) :=
  try_catch
    (logger Debug ("Fetching orders for store " +:+ storeId c);;
     data ← api_get_orders c (defaultParams params);
     logger Debug ("Retrieved " +:+ pretty_len data +:+ " orders for store " +:+ storeId c);;
     mret data)
    (fun error =>
       logger LError ("Error fetching orders for store " +:+ storeId c +:+ ":");;
       throw error).

Definition getProducts (c : WooCommerceClient) (params : Params) : M num (list Product) :=
  try_catch
    (logger Debug ("Fetching products for store " +:+ storeId c);;
     data ← api_get_products c (defaultParams params);
     logger Debug ("Retrieved " +:+ pretty_len data +:+ " products for store " +:+ storeId c);;
     mret data)
    (fun error =>
       logger LError ("Error fetching products for store " +:+ storeId c +:+ ":");;
       throw error).

Definition getCustomers (c : WooCommerceClient) (params : Params) : M num (list Customer) :=
  try_catch
    (logger Debug ("Fetching customers for store " +:+ storeId c);;
     data ← api_get_customers c (defaultParams params);
     logger Debug ("Retrieved " +:+ pretty_len data +:+ " customers for store " +:+ storeId c);;
     mret data)
    (fun error =>
       logger LError ("Error fetching customers for store " +:+ storeId c +:+ ":");;
       throw error).

(** The [while (hasMore)] loop of [getAllOrders], entered with the current
    [page] and [allOrders].  [hasMore] turns false on an empty page; the
    [break] is taken when the incremented page exceeds 100.  The loop ends
    because [page] grows towards that limit. *)
Equations? getAllOrders_loop (c : WooCommerceClient) (params : Params) (pg : nat)
    (allOrders : list Order) (s : State num) : Result (list Order) * State num
    by wf (101 - pg)%nat lt :=
  getAllOrders_loop c params pg allOrders s with getOrders c (pageParams params pg) s := {
    | (Throw e, s1) => (Throw e, s1)
    | (Ok orders, s1) with Nat.eqb (length orders) 0 := {
      | true => (Ok allOrders, s1)
      | false with le_lt_dec (pg + 1) 100 := {
        | left _ => getAllOrders_loop c params (pg + 1)%nat (allOrders ++ orders)%list s1
        | right _ =>
            (logger Warn ("Reached page limit (100) for orders in store " +:+ storeId c);;
             mret (allOrders ++ orders)%list) s1 } } }.
Proof. lia. Qed.

Definition getAllOrders (c : WooCommerceClient) (params : Params) : M num (list Order) :=
  try_catch
    (allOrders ← getAllOrders_loop c params 1%nat [];
     logger Info ("Retrieved total of " +:+ pretty_len allOrders
                  +:+ " orders for store " +:+ storeId c);;
     mret allOrders)
    (fun error =>
       logger LError ("Error fetching all orders for store " +:+ storeId c +:+ ":");;
       throw error).

Equations? getAllProducts_loop (c : WooCommerceClient) (params : Params) (pg : nat)
    (allProducts : list Product) (s : State num) : Result (list Product) * State num
    by wf (101 - pg)%nat lt :=
  getAllProducts_loop c params pg allProducts s with getProducts c (pageParams params pg) s := {
    | (Throw e, s1) => (Throw e, s1)
    | (Ok products, s1) with Nat.eqb (length products) 0 := {
      | true => (Ok allProducts, s1)
      | false with le_lt_dec (pg + 1) 100 := {
        | left _ => getAllProducts_loop c params (pg + 1)%nat (allProducts ++ products)%list s1
        | right _ =>
            (logger Warn ("Reached page limit (100) for products in store " +:+ storeId c);;
             mret (allProducts ++ products)%list) s1 } } }.
Proof. lia. Qed.

Definition getAllProducts (c : WooCommerceClient) (params : Params) : M num (list Product) :=
  try_catch
    (allProducts ← getAllProducts_loop c params 1%nat [];
     logger Info ("Retrieved total of " +:+ pretty_len allProducts
                  +:+ " products for store " +:+ storeId c);;
     mret allProducts)
    (fun error =>
       logger LError ("Error fetching all products for store " +:+ storeId c +:+ ":");;
       throw error).

(** [testConnection]: the rejection of the status call is caught and turned
    into [false]. *)
Definition testConnection (c : WooCommerceClient) : M num bool :=
  try_catch
    (logger Info ("Testing connection for store " +:+ storeId c);;
     api_get_system_status c;;
     logger Info ("Connection test successful for store " +:+ storeId c);;
     mret true)
    (fun error =>
       logger LError ("Connection test failed for store " +:+ storeId c +:+ ":");;
       mret false).

Definition getStoreInfo (c : WooCommerceClient) : StoreConfig := storeConfig c.

End Client.
End Client.

(** ** The metrics collector (class [MetricsCollector]) *)

Module Collector.

(** The metric names of [initializeMetrics]. *)
Definition totalOrdersGauge : string := "woocommerce_total_orders".
Definition ordersByStatusGauge : string := "woocommerce_orders_by_status".
Definition totalRevenueGauge : string := "woocommerce_total_revenue".
Definition revenueTodayGauge : string := "woocommerce_revenue_today".
Definition revenueThisMonthGauge : string := "woocommerce_revenue_this_month".
Definition totalProductsGauge : string := "woocommerce_total_products".
Definition lowStockProductsGauge : string := "woocommerce_low_stock_products".
Definition outOfStockProductsGauge : string := "woocommerce_out_of_stock_products".
Definition totalCustomersGauge : string := "woocommerce_total_customers".
Definition averageOrderValueGauge : string := "woocommerce_average_order_value".
Definition pendingOrdersGauge : string := "woocommerce_pending_orders".
Definition failedOrdersGauge : string := "woocommerce_failed_orders".
Definition processingOrdersGauge : string := "woocommerce_processing_orders".
Definition topProductsSoldGauge : string := "woocommerce_top_products_sold".
Definition lastScrapeSuccessGauge : string := "woocommerce_last_scrape_success".
Definition scrapeErrorsCounter : string := "woocommerce_scrape_errors_total".
Definition scrapeDurationGauge : string := "woocommerce_scrape_duration_seconds".
Definition apiResponseTimeGauge : string := "woocommerce_api_response_time_seconds".

(** *** [statusCounts], a plain object

    [statusCounts] is created as [{}]: it inherits the members of
    [Object.prototype], and a status named like one of them reads the
    inherited member where any other status reads [undefined]. *)

(** The names of the members of [Object.prototype]. *)
Definition Object_prototype_keys : list string :=
  ["constructor"; "__defineGetter__"; "__defineSetter__"; "hasOwnProperty";
   "__lookupGetter__"; "__lookupSetter__"; "isPrototypeOf"; "propertyIsEnumerable";
   "toString"; "valueOf"; "__proto__"; "toLocaleString"].

Definition inherited (k : string) : bool := bool_decide (k ∈ Object_prototype_keys).

(** What a read of [statusCounts] gives when it is not [undefined]: a
    number; the text of an inherited member followed by [ones] characters
    ["1"] (the text itself depends on the engine); or an inherited member,
    which is a function or, for [__proto__], [Object.prototype]. *)
Inductive CountVal : Type :=
  | Count (n : nat)
  | Text (ones : nat)
  | Member.

(** The own properties of [statusCounts], in the order of their creation. *)
Abbreviation StatusCounts := (list (string * CountVal)) (only parsing).

Fixpoint own (statusCounts : StatusCounts) (k : string) : option CountVal :=
  match statusCounts with
  | [] => None
  | (k', v) :: rest => if String.eqb k' k then Some v else own rest k
  end.

(** [statusCounts[k]]; [None] is [undefined]. *)
Definition get (statusCounts : StatusCounts) (k : string) : option CountVal :=
  match own statusCounts k with
  | Some v => Some v
  | None => if inherited k then Some Member else None
  end.

(** [v || 0]: [undefined] and 0 are falsy; a function, an object and a
    string that is not empty are truthy. *)
Definition or_0 (v : option CountVal) : CountVal :=
  match v with
  | None | Some (Count O) => Count 0
  | Some v => v
  end.

(** [v + 1]: a number is incremented; anything else is converted to a
    string, to which ["1"] is appended. *)
Definition plus_1 (v : CountVal) : CountVal :=
  match v with
  | Count n => Count (n + 1)
  | Text ones => Text (S ones)
  | Member => Text 1
  end.

Fixpoint put_own (k : string) (v : CountVal) (statusCounts : StatusCounts) : StatusCounts :=
  match statusCounts with
  | [] => [(k, v)]
  | (k', v') :: rest =>
      if String.eqb k' k then (k, v) :: rest else (k', v') :: put_own k v rest
  end.

(** [statusCounts[k] = v] for a number or a string [v]: the setter of
    [__proto__] ignores such a value; any other key is an own property,
    updated in place or created last. *)
Definition put (k : string) (v : CountVal) (statusCounts : StatusCounts) : StatusCounts :=
  if String.eqb k "__proto__" then statusCounts else put_own k v statusCounts.

(** [statusCounts[status] = (statusCounts[status] || 0) + 1] *)
Definition count_status (status : string) (statusCounts : StatusCounts) : StatusCounts :=
  put status (plus_1 (or_0 (get statusCounts status))) statusCounts.

(** [statusCounts[k] || 0] *)
Definition count_of (statusCounts : StatusCounts) (k : string) : CountVal :=
  or_0 (get statusCounts k).

(** The value of a string of decimal digits. *)
Fixpoint decimal (s : string) (acc : N) : option N :=
  match s with
  | EmptyString => Some acc
  | String a r =>
      let n := N.of_nat (nat_of_ascii a) in
      if ((48 <=? n) && (n <=? 57))%N then decimal r (10 * acc + (n - 48))%N else None
  end.

(** A property key that is a canonical array index: the decimal numeral of
    an integer below 2^32 - 1. *)
Definition array_index (k : string) : option N :=
  match decimal k 0 with
  | Some n => if (n <? 4294967295)%N && String.eqb (pretty n) k then Some n else None
  | None => None
  end.

Fixpoint insert_by_index (e : N * (string * CountVal)) (l : list (N * (string * CountVal)))
    : list (N * (string * CountVal)) :=
  match l with
  | [] => [e]
  | y :: r => if (y.1 <? e.1)%N then y :: insert_by_index e r else e :: l
  end.

(** [Object.entries(statusCounts)]: the index keys in ascending order, then
    the other keys in creation order. *)
Definition status_entries (statusCounts : StatusCounts) : StatusCounts :=
  ((foldr insert_by_index []
      (omap (fun e => (fun i => (i, e)) <$> array_index e.1) statusCounts)).*2
   ++ filter (fun e => array_index e.1 = None) statusCounts)%list.

(** An entry of [productSales]: the key is the product id (its decimal
    string in the source), the value is [{ name, quantity }]. *)
Record Sale : Type := { sale_id : Z; sale_name : string; sale_quantity : Z }.

(** [productSales], in the order in which the keys were created.
    The first sight of a product creates [{ name, quantity: 0 }]; then
    [quantity += quantity] in every case. *)
Fixpoint add_sale (pid : Z) (pname : string) (qty : Z) (productSales : list Sale) : list Sale :=
  match productSales with
  | [] => [ {| sale_id := pid; sale_name := pname; sale_quantity := 0 + qty |} ]
  | e :: rest =>
      if sale_id e =? pid
      then {| sale_id := pid; sale_name := sale_name e;
              sale_quantity := sale_quantity e + qty |} :: rest
      else e :: add_sale pid pname qty rest
  end.

(** A property key that is a canonical array index. *)
Definition is_index_key (k : Z) : bool := (0 <=? k) && (k <? 4294967295).

Fixpoint insert_by_key (e : Sale) (l : list Sale) : list Sale :=
  match l with
  | [] => [e]
  | y :: r => if sale_id y <? sale_id e then y :: insert_by_key e r else e :: l
  end.

(** [Object.entries(productSales)]: the index keys in ascending order, then
    the other keys in creation order. *)
Definition Object_entries (productSales : list Sale) : list Sale :=
  (foldr insert_by_key [] (filter (fun e => is_index_key (sale_id e) = true) productSales)
   ++ filter (fun e => is_index_key (sale_id e) = false) productSales)%list.

(** [.sort(([,a], [,b]) => b.quantity - a.quantity)]: a stable sort by
    descending quantity. *)
Fixpoint insert_by_quantity (e : Sale) (l : list Sale) : list Sale :=
  match l with
  | [] => [e]
  | y :: r => if sale_quantity e <? sale_quantity y
              then y :: insert_by_quantity e r else e :: l
  end.

Definition sort_by_quantity (l : list Sale) : list Sale := foldr insert_by_quantity [] l.

(** [Object.entries(productSales).sort(...).slice(0, 10)] *)
Definition topProducts (productSales : list Sale) : list Sale :=
  take 10 (sort_by_quantity (Object_entries productSales)).

(** *** Local variables of the product reduction *)

Definition lowStockThreshold : Z := 10.

Record ProductAcc : Type := {
  pa_statusCounts : StatusCounts;
  pa_lowStockCount : nat;
  pa_outOfStockCount : nat;
}.

(** The body of [products.forEach]. *)
Definition process_product (acc : ProductAcc) (product : Product) : ProductAcc :=
  let status := product_status product in
  let stockQuantity := parseInt_or_0 (product_stock_quantity product) in
  let stockStatus := product_stock_status product in
  let statusCounts := count_status status (pa_statusCounts acc) in
  if String.eqb stockStatus "outofstock" || (stockQuantity =? 0)
  then {| pa_statusCounts := statusCounts;
          pa_lowStockCount := pa_lowStockCount acc;
          pa_outOfStockCount := S (pa_outOfStockCount acc) |}
  else if truthy (product_manage_stock product) && (stockQuantity <=? lowStockThreshold)
  then {| pa_statusCounts := statusCounts;
          pa_lowStockCount := S (pa_lowStockCount acc);
          pa_outOfStockCount := pa_outOfStockCount acc |}
  else {| pa_statusCounts := statusCounts;
          pa_lowStockCount := pa_lowStockCount acc;
          pa_outOfStockCount := pa_outOfStockCount acc |}.

Definition product_acc0 : ProductAcc :=
  {| pa_statusCounts := []; pa_lowStockCount := 0; pa_outOfStockCount := 0 |}.

Definition process_products (products : list Product) : ProductAcc :=
  fold_left process_product products product_acc0.

Section Collector.
Context `{RT : JsRuntime num}.
Variable clock : nat -> Z.

(** *** Local variables of the order reduction *)

Record OrderAcc : Type := {
  oa_statusCounts : StatusCounts;
  oa_totalRevenue : num;
  oa_revenueToday : num;
  oa_revenueThisMonth : num;
  oa_totalOrderValue : num;
  oa_productSales : list Sale;
}.

Definition order_acc0 : OrderAcc :=
  {| oa_statusCounts := []; oa_totalRevenue := of_Z 0; oa_revenueToday := of_Z 0;
     oa_revenueThisMonth := of_Z 0; oa_totalOrderValue := of_Z 0; oa_productSales := [] |}.

(** [parseFloat(order.total) || 0] *)
Definition parseFloat_or_0 (v : JsVal) : num :=
  let x := parseFloat v in if num_truthy x then x else of_Z 0.

(** The body of [order.line_items.forEach]; a missing [product_id] throws. *)
Definition process_item (productSales : list Sale) (item : LineItem) : Result (list Sale) :=
  match li_product_id item with
  | None => Throw {| message := "Cannot read properties of undefined (reading 'toString')" |}
  | Some pid => Ok (add_sale pid (li_name item) (parseInt_or_0 (li_quantity item)) productSales)
  end.

Fixpoint process_items (productSales : list Sale) (items : list LineItem) : Result (list Sale) :=
  match items with
  | [] => Ok productSales
  | item :: rest =>
      match process_item productSales item with
      | Ok productSales1 => process_items productSales1 rest
      | Throw e => Throw e
      end
  end.

(** The body of [orders.forEach]. *)
Definition process_order (today thisMonth : string) (acc : OrderAcc) (order : Order)
    : Result OrderAcc :=
  let status := order_status order in
  let orderDate := Date_parse (order_date_created order) in
  let orderDateString := toDateString orderDate in
  let orderMonth := getFullYear orderDate +:+ "-" +:+ getMonth1 orderDate in
  let orderTotal := parseFloat_or_0 (order_total order) in
  let statusCounts := count_status status (oa_statusCounts acc) in
  let completed := String.eqb status "completed" in
  let totalRevenue :=
    if completed then nadd (oa_totalRevenue acc) orderTotal else oa_totalRevenue acc in
  let totalOrderValue :=
    if completed then nadd (oa_totalOrderValue acc) orderTotal else oa_totalOrderValue acc in
  let revenueToday :=
    if completed && String.eqb orderDateString today
    then nadd (oa_revenueToday acc) orderTotal else oa_revenueToday acc in
  let revenueThisMonth :=
    if completed && String.eqb orderMonth thisMonth
    then nadd (oa_revenueThisMonth acc) orderTotal else oa_revenueThisMonth acc in
  match
    match order_line_items order with
    | Some items => process_items (oa_productSales acc) items
    | None => Ok (oa_productSales acc)
    end
  with
  | Ok productSales =>
      Ok {| oa_statusCounts := statusCounts; oa_totalRevenue := totalRevenue;
            oa_revenueToday := revenueToday; oa_revenueThisMonth := revenueThisMonth;
            oa_totalOrderValue := totalOrderValue; oa_productSales := productSales |}
  | Throw e => Throw e
  end.

Fixpoint process_orders (today thisMonth : string) (acc : OrderAcc) (orders : list Order)
    : Result OrderAcc :=
  match orders with
  | [] => Ok acc
  | order :: rest =>
      match process_order today thisMonth acc order with
      | Ok acc1 => process_orders today thisMonth acc1 rest
      | Throw e => Throw e
      end
  end.

Definition of_nat (n : nat) : num := of_Z (Z.of_nat n).

(** [completedOrders > 0 ? totalOrderValue / completedOrders : 0], where
    [completedOrders] is [statusCounts['completed'] || 0]; a value that is
    not a number compares as NaN. *)
Definition avgOrderValue (acc : OrderAcc) : num :=
  let completedOrders := count_of (oa_statusCounts acc) "completed" in
  match completedOrders with
  | Count n =>
      if (0 <? n)%nat then ndiv (oa_totalOrderValue acc) (of_nat n) else of_Z 0
  | Text _ | Member => of_Z 0
  end.

(** [(Date.now() - start) / 1000] *)
Definition seconds_since (start now : Z) : num := ndiv (of_Z (now - start)) (of_Z 1000).

(** The [TypeError] of prom-client for a value whose [typeof] is not
    ['number'] (the message goes on with the text of the value). *)
Definition not_a_number : Error := {| message := "Value is not a valid number" |}.

(** [gauge.set(labels, v)] for a [v] read from [statusCounts]. *)
Definition gauge_set_count (metric : string) (labels : list string) (v : CountVal)
    : M num unit :=
  match v with
  | Count n => gauge_set metric labels (of_nat n)
  | Text _ | Member => throw not_a_number
  end.

(** The gauge writes of the order reduction, once the orders are reduced. *)
Definition write_order_metrics (storeId storeName currency : string) (n_orders : nat)
    (acc : OrderAcc) : M num unit :=
  gauge_set totalOrdersGauge [storeId; storeName; "all"; currency] (of_nat n_orders);;
  forEach (fun '(status, count) =>
             gauge_set_count ordersByStatusGauge [storeId; storeName; status; currency] count)
          (status_entries (oa_statusCounts acc));;
  gauge_set_count pendingOrdersGauge [storeId; storeName]
                  (count_of (oa_statusCounts acc) "pending");;
  gauge_set_count failedOrdersGauge [storeId; storeName]
                  (count_of (oa_statusCounts acc) "failed");;
  gauge_set_count processingOrdersGauge [storeId; storeName]
                  (count_of (oa_statusCounts acc) "processing");;
  gauge_set totalRevenueGauge [storeId; storeName; currency; "all_time"] (oa_totalRevenue acc);;
  gauge_set revenueTodayGauge [storeId; storeName; currency] (oa_revenueToday acc);;
  gauge_set revenueThisMonthGauge [storeId; storeName; currency] (oa_revenueThisMonth acc);;
  gauge_set averageOrderValueGauge [storeId; storeName; currency; "all_time"]
            (avgOrderValue acc);;
  forEach (fun e =>
             gauge_set topProductsSoldGauge
                       [storeId; storeName; pretty (sale_id e); sale_name e]
                       (of_Z (sale_quantity e)))
          (topProducts (oa_productSales acc)).

Definition ninety_days_ms : Z := 90 * 24 * 60 * 60 * 1000.

Definition collectOrderMetrics (c : WooCommerceClient) : M num unit :=
  let storeInfo := Client.getStoreInfo c in
  let storeId := id storeInfo in
  let storeName := name storeInfo in
  let currency := currency storeInfo in
  apiStartTime ← Date_now clock;
  try_catch
    (logger Debug ("Collecting order metrics for store " +:+ storeId);;
     now0 ← Date_now clock;
     orders ← Client.getAllOrders c
       {| page := None; per_page := None; after := Some (now0 - ninety_days_ms) |};
     now1 ← Date_now clock;
     gauge_set apiResponseTimeGauge [storeId; storeName; "orders"]
               (seconds_since apiStartTime now1);;
     d1 ← Date_now clock;
     let today := toDateString (Some d1) in
     d2 ← Date_now clock;
     d3 ← Date_now clock;
     let thisMonth := getFullYear (Some d2) +:+ "-" +:+ getMonth1 (Some d3) in
     acc ← Client.of_result (process_orders today thisMonth order_acc0 orders);
     write_order_metrics storeId storeName currency (length orders) acc;;
     logger Debug ("Order metrics collected for store " +:+ storeId +:+ ": "
                   +:+ pretty (length orders) +:+ " orders, $"
                   +:+ toFixed2 (oa_totalRevenue acc) +:+ " revenue"))
    (fun error =>
       logger LError ("Error collecting order metrics for store " +:+ storeId +:+ ":");;
       counter_inc scrapeErrorsCounter [storeId; storeName; "orders"];;
       throw error).

Definition write_product_metrics (storeId storeName : string) (n_products : nat)
    (acc : ProductAcc) : M num unit :=
  gauge_set totalProductsGauge [storeId; storeName; "all"] (of_nat n_products);;
  forEach (fun '(status, count) =>
             gauge_set_count totalProductsGauge [storeId; storeName; status] count)
          (status_entries (pa_statusCounts acc));;
  gauge_set lowStockProductsGauge [storeId; storeName; pretty lowStockThreshold]
            (of_nat (pa_lowStockCount acc));;
  gauge_set outOfStockProductsGauge [storeId; storeName] (of_nat (pa_outOfStockCount acc)).

Definition collectProductMetrics (c : WooCommerceClient) : M num unit :=
  let storeInfo := Client.getStoreInfo c in
  let storeId := id storeInfo in
  let storeName := name storeInfo in
  apiStartTime ← Date_now clock;
  try_catch
    (logger Debug ("Collecting product metrics for store " +:+ storeId);;
     products ← Client.getAllProducts c no_params;
     now1 ← Date_now clock;
     gauge_set apiResponseTimeGauge [storeId; storeName; "products"]
               (seconds_since apiStartTime now1);;
     let acc := process_products products in
     write_product_metrics storeId storeName (length products) acc;;
     logger Debug ("Product metrics collected for store " +:+ storeId +:+ ": "
                   +:+ pretty (length products) +:+ " products, "
                   +:+ pretty (pa_lowStockCount acc) +:+ " low stock, "
                   +:+ pretty (pa_outOfStockCount acc) +:+ " out of stock"))
    (fun error =>
       logger LError ("Error collecting product metrics for store " +:+ storeId +:+ ":");;
       counter_inc scrapeErrorsCounter [storeId; storeName; "products"];;
       throw error).

(** The [while (hasMore && page <= 10)] loop of the customer reduction,
    entered with the current [page] and [totalCustomers]. *)
Equations? customers_loop (c : WooCommerceClient) (pg : nat) (totalCustomers : nat)
    (s : State num) : Result nat * State num by wf (11 - pg)%nat lt :=
  customers_loop c pg totalCustomers s with le_lt_dec pg 10 := {
    | right _ => (Ok totalCustomers, s)
    | left _ with Client.getCustomers c
                    {| page := Some pg; per_page := Some 100%nat; after := None |} s := {
      | (Throw e, s1) => (Throw e, s1)
      | (Ok pageCustomers, s1) with Nat.eqb (length pageCustomers) 0 := {
        | true => (Ok totalCustomers, s1)
        | false => customers_loop c (pg + 1)%nat
                                  (totalCustomers + length pageCustomers)%nat s1 } } }.
Proof. lia. Qed.

(** The inner [try] block of the customer reduction: the walk over the
    pages of 100 customers. *)
Definition count_all_customers (c : WooCommerceClient) : M num nat :=
  allCustomers ← Client.getCustomers c
    {| page := None; per_page := Some 100%nat; after := None |};
  if Nat.eqb (length allCustomers) 100
  then customers_loop c 2%nat (length allCustomers)
  else mret (length allCustomers).

Definition collectCustomerMetrics (c : WooCommerceClient) : M num unit :=
  let storeInfo := Client.getStoreInfo c in
  let storeId := id storeInfo in
  let storeName := name storeInfo in
  apiStartTime ← Date_now clock;
  try_catch
    (logger Debug ("Collecting customer metrics for store " +:+ storeId);;
     customers ← Client.getCustomers c
       {| page := None; per_page := Some 1%nat; after := None |};
     now1 ← Date_now clock;
     gauge_set apiResponseTimeGauge [storeId; storeName; "customers"]
               (seconds_since apiStartTime now1);;
     totalCustomers ← try_catch
       (count_all_customers c)
       (fun error =>
          logger Warn ("Could not get full customer count for store " +:+ storeId
                       +:+ ", using partial count");;
          mret (length customers));
     gauge_set totalCustomersGauge [storeId; storeName] (of_nat totalCustomers);;
     logger Debug ("Customer metrics collected for store " +:+ storeId +:+ ": "
                   +:+ pretty totalCustomers +:+ " customers"))
    (fun error =>
       logger LError ("Error collecting customer metrics for store " +:+ storeId +:+ ":");;
       counter_inc scrapeErrorsCounter [storeId; storeName; "customers"];;
       throw error).

(** [Promise.allSettled] over the three reductions.  Each reduction writes
    label sets of its own (its gauges, its [endpoint] and its [error_type]),
    so the registry does not depend on how the three interleave at their
    awaits; they are run here in the order in which they are started. *)
Definition allSettled3 (c : WooCommerceClient) : M num (list (Result unit)) :=
  r1 ← settle (collectOrderMetrics c);
  r2 ← settle (collectProductMetrics c);
  r3 ← settle (collectCustomerMetrics c);
  mret [r1; r2; r3].

Definition collectStoreMetrics (c : WooCommerceClient) : M num unit :=
  startTime ← Date_now clock;
  let storeInfo := Client.getStoreInfo c in
  let storeId := id storeInfo in
  let storeName := name storeInfo in
  try_catch
    (logger Info ("Starting metrics collection for store: " +:+ storeName
                  +:+ " (" +:+ storeId +:+ ")");;
     allSettled3 c;;
     now1 ← Date_now clock;
     gauge_set lastScrapeSuccessGauge [storeId; storeName] (of_Z (now1 `div` 1000));;
     now2 ← Date_now clock;
     let duration := seconds_since startTime now2 in
     gauge_set scrapeDurationGauge [storeId; storeName] duration;;
     logger Info ("Completed metrics collection for store: " +:+ storeName
                  +:+ " (" +:+ storeId +:+ ") in " +:+ toFixed2 duration +:+ "s"))
    (fun error =>
       logger LError ("Error collecting metrics for store " +:+ storeId +:+ ":");;
       counter_inc scrapeErrorsCounter [storeId; storeName; "general"];;
       throw error).

(** [getMetrics]: the exposition of the registry. *)
Definition getMetrics : M num (list (Sample num)) :=
  fun s => (Ok (render (register s)), s).

(** [clearMetrics]: [register.clear()] drops every metric, and
    [initializeMetrics] declares them again with no cell. *)
Definition clearMetrics : M num unit :=
  update_register (fun _ => empty_registry);;
  logger Info "All metrics cleared and reinitialized".

End Collector.
End Collector.

(** ** The collection entry points of [src/app.js] *)

Module App.
Section App.
Context `{RT : JsRuntime num}.
Variable clock : nat -> Z.

(** What the per-store promise of [collectAllMetrics] resolves to. *)
Record CollectionResult : Type := {
  cr_storeId : string;
  cr_success : bool;
  cr_error : option string;
}.

(** The async arrow mapped over [this.storeClients.entries()]. *)
Definition collect_one (entry : string * WooCommerceClient) : M num CollectionResult :=
  let '(storeId, client) := entry in
  try_catch
    (Collector.collectStoreMetrics clock client;;
     mret {| cr_storeId := storeId; cr_success := true; cr_error := None |})
    (fun error =>
       logger LError ("Metrics collection failed for store " +:+ storeId +:+ ":");;
       mret {| cr_storeId := storeId; cr_success := false;
               cr_error := Some (message error) |}).

(** [await Promise.allSettled(collectionPromises)], the stores being taken
    in the order of the map. *)
Fixpoint allSettled (storeClients : list (string * WooCommerceClient))
    : M num (list (Result CollectionResult)) :=
  match storeClients with
  | [] => mret []
  | entry :: rest =>
      r ← settle (collect_one entry);
      rs ← allSettled rest;
      mret (r :: rs)
  end.

(** [r.status === 'fulfilled' && r.value.success] *)
Definition is_completed (r : Result CollectionResult) : bool :=
  match r with Ok v => cr_success v | Throw _ => false end.

Definition set_lastCollectionTime (t : Z) : M num unit :=
  modify (fun s => {| register := register s; requests := requests s; logs := logs s;
                      ticks := ticks s; lastCollectionTime := Some t |}).

Definition collectAllMetrics (storeClients : list (string * WooCommerceClient)) : M num unit :=
  startTime ← Date_now clock;
  logger Info "Starting metrics collection for all stores";;
  if Nat.eqb (length storeClients) 0
  then logger Warn "No store clients available for metrics collection"
  else
    results ← allSettled storeClients;
    let completed := length (filter (fun r => is_completed r = true) results) in
    let failed := (length results - completed)%nat in
    now1 ← Date_now clock;
    let duration := Collector.seconds_since startTime now1 in
    now2 ← Date_now clock;
    set_lastCollectionTime now2;;
    logger Info ("Metrics collection completed: " +:+ pretty completed +:+ " successful, "
                 +:+ pretty failed +:+ " failed in " +:+ toFixed2 duration +:+ "s");;
    if (0 <? failed)%nat
    then logger Warn (pretty failed +:+ " stores failed during metrics collection")
    else mret tt.

(** [collectStoreMetrics(storeId)]: the single-store variant. *)
Definition collectStoreMetrics (storeClients : list (string * WooCommerceClient))
    (storeId : string) : M num unit :=
  match snd <$> list_find (fun e => fst e = storeId) storeClients with
  | None => throw {| message := "Store " +:+ storeId +:+ " not found or not initialized" |}
  | Some (_, client) =>
      logger Info ("Starting metrics collection for store: " +:+ storeId);;
      Collector.collectStoreMetrics clock client;;
      logger Info ("Metrics collection completed for store: " +:+ storeId)
  end.

End App.
End App.

(** ** The store configuration (class [StoreConfig], [src/config/stores.config.js]) *)

Module Config.

(** [process.env]: a variable that is not set reads [undefined]. *)
Definition Env : Type := gmap string string.

(** A store configuration object, as [loadStoreConfigurations] builds it. *)
Record Store : Type := {
  id : string;
  name : string;
  url : string;
  consumerKey : string;
  consumerSecret : string;
  enabled : bool;
  scrapeInterval : Z;
  currency : string;
  timeout : Z;
  maxRetries : Z;
}.

(** [process.env[`STORE${storeIndex}${suffix}`]] *)
Definition env_key (storeIndex : nat) (suffix : string) : string :=
  "STORE" +:+ pretty storeIndex +:+ suffix.

(** Truthiness of a variable: [undefined] and the empty string are falsy. *)
Definition is_set (v : option string) : bool :=
  match v with
  | None => false
  | Some s => negb (String.eqb s "")
  end.

(** [v || d] for a variable [v] *)
Definition or_default (v : option string) (d : string) : string :=
  if is_set v then default "" v else d.

(** [parseInt(v) || d] for a variable [v]: [undefined], a string that does
    not parse and 0 give [d]. *)
Definition parseInt_or (v : option string) (d : Z) : Z :=
  match v with
  | None => d
  | Some s =>
      match parseInt (JStr s) with
      | Some n => if n =? 0 then d else n
      | None => d
      end
  end.

(** The object literal of the loop body. *)
Definition store_of_env (env : Env) (storeIndex : nat)
    (storeUrl consumerKey consumerSecret : string) : Store :=
  {| id := "store" +:+ pretty storeIndex;
     name := or_default (env !! env_key storeIndex "_NAME") ("Store " +:+ pretty storeIndex);
     url := storeUrl;
     consumerKey := consumerKey;
     consumerSecret := consumerSecret;
     enabled := match env !! env_key storeIndex "_ENABLED" with
                | Some v => negb (String.eqb v "false")
                | None => true
                end;
     scrapeInterval := parseInt_or (env !! env_key storeIndex "_SCRAPE_INTERVAL") 300000;
     currency := or_default (env !! env_key storeIndex "_CURRENCY") "USD";
     timeout := parseInt_or (env !! env_key storeIndex "_TIMEOUT") 30000;
     maxRetries := parseInt_or (env !! env_key storeIndex "_MAX_RETRIES") 3 |}.

(** The [while (true)] loop of [loadStoreConfigurations], run for at most
    [fuel] rounds; [None] when the rounds are used up before the [break]. *)
Fixpoint loadStoreConfigurations_loop (env : Env) (fuel storeIndex : nat)
    (stores : list Store) : option (list Store) :=
  match fuel with
  | O => None
  | S fuel' =>
      let storeUrl := env !! env_key storeIndex "_URL" in
      let consumerKey := env !! env_key storeIndex "_CONSUMER_KEY" in
      let consumerSecret := env !! env_key storeIndex "_CONSUMER_SECRET" in
      if negb (is_set storeUrl) || negb (is_set consumerKey) || negb (is_set consumerSecret)
      then Some stores
      else
        let store := store_of_env env storeIndex (default "" storeUrl)
                       (default "" consumerKey) (default "" consumerSecret) in
        loadStoreConfigurations_loop env fuel' (S storeIndex) (stores ++ [store])
  end.

(** One round more than there are variables. *)
Definition loadStoreConfigurations (env : Env) : option (list Store) :=
  loadStoreConfigurations_loop env (S (size env)) 1 [].

Definition getEnabledStores (stores : list Store) : list Store :=
  filter (fun store => enabled store = true) stores.

(** [this.stores.find(store => store.id === storeId) || null] *)
Definition getStoreById (stores : list Store) (storeId : string) : option Store :=
  List.find (fun store => String.eqb (id store) storeId) stores.

Definition getStoreCount (stores : list Store) : nat := length stores.

Definition getEnabledStoreCount (stores : list Store) : nat :=
  length (filter (fun store => enabled store = true) stores).

(** The errors that [validateStores] pushes for one store, in order. *)
Definition validate_store (store : Store) : list string :=
  ((if String.eqb (url store) ""
    then ["Store " +:+ id store +:+ ": URL is required"] else [])
   ++ (if String.eqb (consumerKey store) ""
       then ["Store " +:+ id store +:+ ": Consumer Key is required"] else [])
   ++ (if String.eqb (consumerSecret store) ""
       then ["Store " +:+ id store +:+ ": Consumer Secret is required"] else [])
   ++ (if negb (String.eqb (url store) "") && negb (String.prefix "http" (url store))
       then ["Store " +:+ id store +:+ ": URL must start with http:// or https://"] else [])
   ++ (if scrapeInterval store <? 60000
       then ["Store " +:+ id store
             +:+ ": Scrape interval must be at least 60000ms (1 minute)"] else [])
   ++ (if timeout store <? 5000
       then ["Store " +:+ id store +:+ ": Timeout must be at least 5000ms (5 seconds)"]
       else []))%list.

Definition validateStores (stores : list Store) : list string :=
  stores ≫= validate_store.

End Config.

(** ** Start-up: the clients of the enabled stores ([initializeStores] of [src/app.js]) *)

Module Startup.
Section Startup.
Context {num : Type}.

(** What the REST client library makes of a configuration: the upstream it
    talks to, or the exception of its constructor. *)
Variable connect : Config.Store -> Result Upstream.

(** What the client keeps of its configuration: the fields it reads. *)
Definition storeInfo (storeConf : Config.Store) : StoreConfig :=
  {| id := Config.id storeConf; name := Config.name storeConf;
     url := Config.url storeConf; currency := Config.currency storeConf;
     enabled := Config.enabled storeConf;
     scrapeInterval := Config.scrapeInterval storeConf |}.

(** [new WooCommerceClient(storeConf)] *)
Definition new_WooCommerceClient (storeConf : Config.Store) : M num WooCommerceClient :=
  api ← Client.of_result (connect storeConf);
  logger Info ("WooCommerce client initialized for store: " +:+ Config.name storeConf
               +:+ " (" +:+ Config.id storeConf +:+ ")");;
  mret {| storeConfig := storeInfo storeConf; api := api |}.

(** [storeClients.set(k, v)] on a map kept in insertion order. *)
Fixpoint Map_set (k : string) (v : WooCommerceClient)
    (storeClients : list (string * WooCommerceClient)) : list (string * WooCommerceClient) :=
  match storeClients with
  | [] => [(k, v)]
  | entry :: rest =>
      if String.eqb entry.1 k then (k, v) :: rest else entry :: Map_set k v rest
  end.

(** The [catch] of the loop body; the map is as the [try] left it. *)
Definition failed_to_initialize (storeConf : Config.Store)
    (storeClients : list (string * WooCommerceClient)) (error : Error)
    : M num (list (string * WooCommerceClient)) :=
  logger LError ("âœ— Failed to initialize store " +:+ Config.name storeConf
                 +:+ " (" +:+ Config.id storeConf +:+ "):");;
  mret storeClients.

(** The body of [for (const storeConf of stores)]: the client is put in
    the map before its connection is tested. *)
Definition initialize_store (storeConf : Config.Store)
    (storeClients : list (string * WooCommerceClient))
    : M num (list (string * WooCommerceClient)) :=
  fun s =>
    match new_WooCommerceClient storeConf s with
    | (Throw error, s1) => failed_to_initialize storeConf storeClients error s1
    | (Ok client, s1) =>
        let storeClients1 := Map_set (Config.id storeConf) client storeClients in
        match (isConnected ← Client.testConnection client;
               if isConnected : bool
               then logger Info ("âœ“ Store " +:+ Config.name storeConf
                                 +:+ " (" +:+ Config.id storeConf
                                 +:+ ") initialized successfully")
               else logger Warn ("âš  Store " +:+ Config.name storeConf
                                 +:+ " (" +:+ Config.id storeConf
                                 +:+ ") initialized but connection test failed")) s1 with
        | (Ok _, s2) => (Ok storeClients1, s2)
        | (Throw error, s2) => failed_to_initialize storeConf storeClients1 error s2
        end
    end.

Fixpoint initialize_stores (stores : list Config.Store)
    (storeClients : list (string * WooCommerceClient))
    : M num (list (string * WooCommerceClient)) :=
  match stores with
  | [] => mret storeClients
  | storeConf :: rest =>
      storeClients1 ← initialize_store storeConf storeClients;
      initialize_stores rest storeClients1
  end.

(** [initializeStores]: the configured stores are [allStores], the map of
    clients is [storeClients] before the call and is returned with the
    result. *)
Definition initializeStores (allStores : list Config.Store)
    (storeClients : list (string * WooCommerceClient))
    : M num (bool * list (string * WooCommerceClient)) :=
  let stores := Config.getEnabledStores allStores in
  if Nat.eqb (length stores) 0
  then logger Warn "No enabled stores found in configuration";;
       mret (false, storeClients)
  else
    logger Info ("Initializing " +:+ pretty (length stores) +:+ " enabled stores");;
    let validationErrors := Config.validateStores allStores in
    if (0 <? length validationErrors)%nat
    then logger LError "Store configuration validation failed:";;
         forEach (fun error => logger LError ("  - " +:+ error)) validationErrors;;
         throw {| message := "Invalid store configuration" |}
    else
      storeClients1 ← initialize_stores stores storeClients;
      logger Info ("Successfully initialized " +:+ pretty (length storeClients1)
                   +:+ " out of " +:+ pretty (length stores) +:+ " stores");;
      mret ((0 <? length storeClients1)%nat, storeClients1).

End Startup.
End Startup.
(** ** The POST routes of [src/app.js] *)

Module Routes.
Section Routes.
Context `{RT : JsRuntime num}.
Variable clock : nat -> Z.

(** The JSON bodies that the three routes send. *)
Inductive Body : Type :=
  | Completed (message : string) (timestamp : Z)
  | Failed (error : string) (message : string)
  | NotFound (error : string) (storeId : string)
  | Connection (storeId : string) (connected : bool) (timestamp : Z).

(** What a handler sends: [res.json(body)] has the status 200,
    [res.status(n).json(body)] the status [n]. *)
Record Response : Type := { status : nat; body : Body }.

(** [app.post('/collect', ...)] *)
Definition post_collect (storeClients : list (string * WooCommerceClient)) : M num Response :=
  try_catch
    (logger Info "Manual collection triggered for all stores";;
     App.collectAllMetrics clock storeClients;;
     timestamp ← Date_now clock;
     mret {| status := 200;
             body := Completed "Metrics collection completed for all stores" timestamp |})
    (fun error =>
       logger LError "Manual collection failed:";;
       mret {| status := 500; body := Failed "Collection failed" (message error) |}).

(** [app.post('/collect/:storeId', ...)] *)
Definition post_collect_store (storeClients : list (string * WooCommerceClient))
    (storeId : string) : M num Response :=
  try_catch
    (logger Info ("Manual collection triggered for store: " +:+ storeId);;
     App.collectStoreMetrics clock storeClients storeId;;
     timestamp ← Date_now clock;
     mret {| status := 200;
             body := Completed ("Metrics collection completed for store: " +:+ storeId)
                               timestamp |})
    (fun error =>
       logger LError ("Manual collection failed for store " +:+ storeId +:+ ":");;
       mret {| status := 500; body := Failed "Collection failed" (message error) |}).

(** [app.post('/test/:storeId', ...)] *)
Definition post_test (storeClients : list (string * WooCommerceClient))
    (storeId : string) : M num Response :=
  try_catch
    (match snd <$> list_find (fun e => fst e = storeId) storeClients with
     | None => mret {| status := 404; body := NotFound "Store not found" storeId |}
     | Some (_, client) =>
         isConnected ← Client.testConnection client;
         timestamp ← Date_now clock;
         mret {| status := 200; body := Connection storeId isConnected timestamp |}
     end)
    (fun error =>
       logger LError ("Connection test failed for store " +:+ storeId +:+ ":");;
       mret {| status := 500; body := Failed "Connection test failed" (message error) |}).

End Routes.
End Routes.

(** ** An integer-valued runtime, to run the model on examples *)

Module Examples.

#[global] Instance Z_runtime : JsRuntime Z := {|
  of_Z := fun z => z;
  nadd := Z.add;
  ndiv := Z.div;
  num_truthy := fun z => negb (z =? 0);
  parseFloat := parseInt_or_0;
  toFixed2 := fun z => pretty z;
  Date_parse := parseInt;
  toDateString := fun d => pretty (default 0 d `div` 86400000);
  getFullYear := fun d => pretty (default 0 d `div` 31536000000);
  getMonth1 := fun d => pretty (default 0 d `div` 2592000000);
|}.

Definition s_init : State Z :=
  {| register := empty_registry; requests := []; logs := []; ticks := 0;
     lastCollectionTime := None |}.

Definition clock0 : nat -> Z := fun n => 1700000000000 + 250 * Z.of_nat n.

Definition store1 : StoreConfig :=
  {| id := "store1"; name := "Main"; url := "https://shop.example"; currency := "USD";
     enabled := true; scrapeInterval := 300000 |}.

Definition an_order (status : string) (total : string) (items : list LineItem) : Order :=
  {| order_status := status; order_date_created := JStr "1700000000000";
     order_total := JStr total; order_line_items := Some items |}.

Definition an_item (pid qty : Z) : LineItem :=
  {| li_product_id := Some pid; li_name := "P" +:+ pretty pid; li_quantity := JNum qty |}.

Definition a_product (stock_status : string) (qty manage : JsVal) : Product :=
  {| product_status := "publish"; product_stock_quantity := qty;
     product_stock_status := stock_status; product_manage_stock := manage |}.

Definition some_customers (n : nat) : list Customer :=
  (fun i => {| customer_id := Z.of_nat i |}) <$> seq 0 n.

Definition down : Error := {| message := "ECONNREFUSED" |}.

(** A store whose order and product pages are never empty. *)
Definition endless : WooCommerceClient :=
  {| storeConfig := store1;
     api := {| get_orders := fun p => Ok [an_order "completed" "1" []];
               get_products := fun p => Ok [a_product "instock" (JNum 5) (JBool true)];
               get_customers := fun p => Ok [];
               get_system_status := Ok tt |} |}.

(** A store with one customer on a page of size 1, a full first page of
    size 100, and whose second page of customers fails. *)
Definition flaky_customers : WooCommerceClient :=
  {| storeConfig := store1;
     api := {| get_orders := fun p => Ok [];
               get_products := fun p => Ok [];
               get_customers := fun p =>
                 match per_page p, page p with
                 | Some 1%nat, _ => Ok (some_customers 1)
                 | Some 100%nat, Some 1%nat => Ok (some_customers 100)
                 | _, _ => Throw down
                 end;
               get_system_status := Ok tt |} |}.

(** The same store at two cycles.  First one refunded order selling
    product 1; then one completed order selling ten other products better
    than product 1. *)
Definition upstream_with (orders : list Order) : Upstream :=
  {| get_orders := fun p => match page p with
                            | Some 1%nat => Ok orders
                            | _ => Ok []
                            end;
     get_products := fun p => Ok [];
     get_customers := fun p => Ok [];
     get_system_status := Ok tt |}.

Definition orders_before : list Order := [an_order "refunded" "9" [an_item 1 3]].

Definition orders_after : list Order :=
  [an_order "completed" "60"
     (an_item 1 1 :: ((fun i => an_item (Z.of_nat i) 5) <$> seq 2 10))].

Definition shop_before : WooCommerceClient :=
  {| storeConfig := store1; api := upstream_with orders_before |}.

Definition shop_after : WooCommerceClient :=
  {| storeConfig := store1; api := upstream_with orders_after |}.

(** Three stores; the orders of the second cannot be fetched. *)
Definition store_named (sid sname : string) : StoreConfig :=
  {| id := sid; name := sname; url := "https://" +:+ sid +:+ ".example"; currency := "USD";
     enabled := true; scrapeInterval := 300000 |}.

Definition store_a : WooCommerceClient :=
  {| storeConfig := store_named "a" "A";
     api := {| get_orders := get_orders (upstream_with orders_before);
               get_products := fun p =>
                 match page p with
                 | Some 1%nat => Ok [a_product "outofstock" (JNum 0) (JBool true);
                                     a_product "instock" (JNum 4) (JBool true)]
                 | _ => Ok []
                 end;
               get_customers := fun p => Ok (some_customers 1);
               get_system_status := Ok tt |} |}.

Definition store_b : WooCommerceClient :=
  {| storeConfig := store_named "b" "B";
     api := {| get_orders := fun p => Throw down;
               get_products := get_products (api store_a);
               get_customers := get_customers (api store_a);
               get_system_status := Throw down |} |}.

Definition store_c : WooCommerceClient :=
  {| storeConfig := store_named "c" "C"; api := api store_a |}.

Definition three_stores : list (string * WooCommerceClient) :=
  [("a", store_a); ("b", store_b); ("c", store_c)].

(** Two completed orders (30 and 20) and a pending one. *)
Definition three_orders : list Order :=
  [an_order "completed" "30" [an_item 7 2];
   an_order "pending" "5" [an_item 8 1];
   an_order "completed" "20" [an_item 7 1]].

End Examples.

(** * The vocabulary of the statements

    Names for the states, requests and registry cells that the properties
    speak about.  Nothing here belongs to the program. *)

Section Vocabulary.
Context `{RT : JsRuntime num}.
Variable clock : nat -> Z.
Import Collector.

(** The out-of-stock condition in the words of the specification: the stock
    status says so, or the tracked quantity is exactly zero. *)
Definition is_out_of_stock (p : Product) : Prop :=
  product_stock_status p = "outofstock" \/ parseInt_or_0 (product_stock_quantity p) = 0.

(** The low-stock condition of the specification: stock management is on
    and the quantity is at most 10. *)
Definition is_low_stock (p : Product) : Prop :=
  truthy (product_manage_stock p) = true /\ parseInt_or_0 (product_stock_quantity p) <= 10.

Definition with_register (s : State num) (r : Registry num) : State num :=
  {| register := r; requests := requests s; logs := logs s; ticks := ticks s;
     lastCollectionTime := lastCollectionTime s |}.

(** A batch of [gauge.set] calls, first to last. *)
Definition set_gauges (kvs : list (SampleKey * num)) (r : Registry num) : Registry num :=
  fold_left (fun r kv => registry_set kv.1 kv.2 r) kvs r.

(** The state after some requests and log lines. *)
Definition with_trace (s : State num) (reqs : list Request) (lgs : list (Level * string))
    : State num :=
  {| register := register s; requests := requests s ++ reqs; logs := logs s ++ lgs;
     ticks := ticks s; lastCollectionTime := lastCollectionTime s |}.

(** The state after one more reading of the clock. *)
Definition tick (s : State num) : State num :=
  {| register := register s; requests := requests s; logs := logs s;
     ticks := S (ticks s); lastCollectionTime := lastCollectionTime s |}.

(** A count that is a number, and its value. *)
Definition is_count (v : CountVal) : bool :=
  match v with Count _ => true | Text _ | Member => false end.

Definition count_nat (v : CountVal) : nat :=
  match v with Count n => n | Text _ | Member => 0%nat end.

(** Every own property of [statusCounts] is a number. *)
Definition numeric (statusCounts : StatusCounts) : bool :=
  forallb (fun e => is_count e.2) statusCounts.

(** The entries before the first one that is not a number. *)
Fixpoint counts_before_text (l : StatusCounts) : list (string * nat) :=
  match l with
  | (k, Count n) :: rest => (k, n) :: counts_before_text rest
  | _ => []
  end.

(** A status named like a function of [Object.prototype]: counting it
    gives a string. *)
Definition shadows_member (status : string) : bool :=
  inherited status && negb (String.eqb status "__proto__").

(** The own property of [statusCounts] for a status counted [n] times:
    none for [__proto__], whose assignment is ignored; a string for the
    name of another member of [Object.prototype]; the number [n] for any
    other status. *)
Definition counted (n : nat) (status : string) : option CountVal :=
  if Nat.eqb n 0 then None
  else if String.eqb status "__proto__" then None
  else if inherited status then Some (Text n) else Some (Count n).

(** The cells written by [write_order_metrics], first to last: the writes
    stop at the first count that is not a number. *)
Definition order_writes (storeId storeName currency : string) (n_orders : nat)
    (acc : OrderAcc) : list (SampleKey * num) :=
  [((totalOrdersGauge, [storeId; storeName; "all"; currency]), of_nat n_orders)]
  ++ ((fun sc : string * nat =>
         ((ordersByStatusGauge, [storeId; storeName; sc.1; currency]), of_nat sc.2))
        <$> counts_before_text (status_entries (oa_statusCounts acc)))
  ++ (if numeric (oa_statusCounts acc)
      then
        [((pendingOrdersGauge, [storeId; storeName]),
          of_nat (count_nat (count_of (oa_statusCounts acc) "pending")));
         ((failedOrdersGauge, [storeId; storeName]),
          of_nat (count_nat (count_of (oa_statusCounts acc) "failed")));
         ((processingOrdersGauge, [storeId; storeName]),
          of_nat (count_nat (count_of (oa_statusCounts acc) "processing")));
         ((totalRevenueGauge, [storeId; storeName; currency; "all_time"]),
          oa_totalRevenue acc);
         ((revenueTodayGauge, [storeId; storeName; currency]), oa_revenueToday acc);
         ((revenueThisMonthGauge, [storeId; storeName; currency]), oa_revenueThisMonth acc);
         ((averageOrderValueGauge, [storeId; storeName; currency; "all_time"]),
          avgOrderValue acc)]
        ++ ((fun e : Sale =>
               ((topProductsSoldGauge, [storeId; storeName; pretty (sale_id e); sale_name e]),
                of_Z (sale_quantity e)))
              <$> topProducts (oa_productSales acc))
      else []).

(** The completed orders and their revenue, in the words of the
    specification. *)
Definition completed_orders (orders : list Order) : list Order :=
  filter (fun o => order_status o = "completed") orders.


(** The cell of the error counter of a branch. *)
Definition error_key (c : WooCommerceClient) (branch : string) : SampleKey :=
  (scrapeErrorsCounter, [storeId c; storeName c; branch]).

(** The response-time cell written by a reduction. *)
Definition api_time_write (c : WooCommerceClient) (endpoint : string) (start now : Z)
    : SampleKey * num :=
  ((apiResponseTimeGauge, [storeId c; storeName c; endpoint]), seconds_since start now).

(** The cells written by [write_product_metrics], first to last: the
    writes stop at the first count that is not a number. *)
Definition product_writes (storeId storeName : string) (n_products : nat)
    (acc : ProductAcc) : list (SampleKey * num) :=
  [((totalProductsGauge, [storeId; storeName; "all"]), of_nat n_products)]
  ++ ((fun sc : string * nat =>
         ((totalProductsGauge, [storeId; storeName; sc.1]), of_nat sc.2))
        <$> counts_before_text (status_entries (pa_statusCounts acc)))
  ++ (if numeric (pa_statusCounts acc)
      then
        [((lowStockProductsGauge, [storeId; storeName; pretty lowStockThreshold]),
          of_nat (pa_lowStockCount acc));
         ((outOfStockProductsGauge, [storeId; storeName]), of_nat (pa_outOfStockCount acc))]
      else []).

(** The parameters with which page [pg] is requested. *)
Definition page_request (params : Params) (pg : nat) : Params :=
  {| page := Some pg; per_page := Some 100%nat; after := after params |}.

Definition orders_request (c : WooCommerceClient) (p : Params) : Request :=
  {| req_store := storeId c; req_endpoint := EOrders; req_params := p |}.

Definition products_request (c : WooCommerceClient) (p : Params) : Request :=
  {| req_store := storeId c; req_endpoint := EProducts; req_params := p |}.

Definition customers_request (c : WooCommerceClient) (p : Params) : Request :=
  {| req_store := storeId c; req_endpoint := ECustomers; req_params := p |}.

(** The records of page [pg], and a page that is returned and not empty. *)
Definition records_of {A : Type} (page_of : nat -> Result (list A)) (pg : nat) : list A :=
  match page_of pg with Ok l => l | Throw _ => [] end.

Definition nonempty_page {A : Type} (page_of : nat -> Result (list A)) (pg : nat) : Prop :=
  exists l, page_of pg = Ok l /\ l <> [].

(** What the upstream answers for page [pg] of the orders (products). *)
Definition orders_page (c : WooCommerceClient) (params : Params) (pg : nat)
    : Result (list Order) :=
  get_orders (api c) (page_request params pg).

Definition products_page (c : WooCommerceClient) (params : Params) (pg : nat)
    : Result (list Product) :=
  get_products (api c) (page_request params pg).

(** The parameters of the walk over the customers, and what the upstream
    answers for page [pg]. *)
Definition customers_walk_params (pg : nat) : Params :=
  {| page := Some pg; per_page := Some 100%nat; after := None |}.

Definition customers_page (c : WooCommerceClient) (pg : nat) : Result (list Customer) :=
  get_customers (api c) (customers_walk_params pg).

(** The parameters of the fetch made before the walk: one customer. *)
Definition customers_probe_params : Params :=
  {| page := Some 1%nat; per_page := Some 1%nat; after := None |}.

(** The count of the walk over the pages of customers from page [pg] on,
    when [left] more pages may be asked for and [total] customers are
    counted already: it stops at an empty page and fails with the page that
    fails. *)
Fixpoint walk_total (page_of : nat -> Result (list Customer)) (left pg total : nat)
    : Result nat :=
  match left with
  | O => Ok total
  | S left' =>
      match page_of pg with
      | Throw e => Throw e
      | Ok l => if Nat.eqb (length l) 0 then Ok total
                else walk_total page_of left' (pg + 1) (total + length l)
      end
  end.

(** The count of the whole walk: the first page of 100, and the pages 2 to
    10 when the first holds exactly 100 customers. *)
Definition customers_walked (c : WooCommerceClient) : Result nat :=
  match customers_page c 1 with
  | Throw e => Throw e
  | Ok l => if Nat.eqb (length l) 100
            then walk_total (customers_page c) 9 2 (length l)
            else Ok (length l)
  end.

(** The count that the customer reduction publishes after the fetch of
    [customers]: that of the walk, and when the walk fails the number of
    [customers]. *)
Definition customers_published (c : WooCommerceClient) (customers : list Customer) : nat :=
  match customers_walked c with
  | Ok n => n
  | Throw _ => length customers
  end.

(** No status of the list is named like a function of [Object.prototype]. *)
Definition plain_statuses (statuses : list string) : bool :=
  forallb (fun status => negb (shadows_member status)) statuses.

(** Every cell of the batch belongs to one of the named metrics. *)
Definition writes_within (names : list string) (kvs : list (SampleKey * num)) : Prop :=
  forall kv, kv ∈ kvs -> kv.1.1 ∈ names.

Definition order_metric_names : list string :=
  [totalOrdersGauge; ordersByStatusGauge; pendingOrdersGauge; failedOrdersGauge;
   processingOrdersGauge; totalRevenueGauge; revenueTodayGauge; revenueThisMonthGauge;
   averageOrderValueGauge; topProductsSoldGauge].

Definition product_metric_names : list string :=
  [totalProductsGauge; lowStockProductsGauge; outOfStockProductsGauge].

(** The state in which the three reductions are started. *)
Definition store_start (c : WooCommerceClient) (s : State num) : State num :=
  with_trace (tick s) []
    [(Info, "Starting metrics collection for store: " +:+ storeName c
            +:+ " (" +:+ storeId c +:+ ")")].

(** The three reductions as [collectStoreMetrics] runs them: each is started
    whatever the outcome of the others was. *)
Definition orders_run (c : WooCommerceClient) (s : State num) : Result unit * State num :=
  collectOrderMetrics clock c (store_start c s).

Definition products_run (c : WooCommerceClient) (s : State num) : Result unit * State num :=
  collectProductMetrics clock c (orders_run c s).2.

Definition customers_run (c : WooCommerceClient) (s : State num) : Result unit * State num :=
  collectCustomerMetrics clock c (products_run c s).2.

Definition last_scrape_key (c : WooCommerceClient) : SampleKey :=
  (lastScrapeSuccessGauge, [storeId c; storeName c]).

Definition scrape_duration_key (c : WooCommerceClient) : SampleKey :=
  (scrapeDurationGauge, [storeId c; storeName c]).

(** One increment of a counter cell. *)
Definition bump (k : SampleKey) (cs : gmap SampleKey N) : gmap SampleKey N :=
  <[k := (default 0%N (cs !! k) + 1)%N]> cs.

(** The value of a counter cell, 0 when it was never incremented. *)
Definition errors (r : Registry num) (k : SampleKey) : N := default 0%N (counters r !! k).

(** 1 for a rejected promise, 0 for a fulfilled one. *)
Definition failed {A : Type} (r : Result A) : N :=
  match r with Ok _ => 0%N | Throw _ => 1%N end.

Definition bump_if_failed {A : Type} (r : Result A) (k : SampleKey)
    (cs : gmap SampleKey N) : gmap SampleKey N :=
  match r with Ok _ => cs | Throw _ => bump k cs end.

(** The parameters of the fetch of the orders, and the day and month
    against which they are bucketed, for an order reduction started after
    [t] readings of the clock. *)
Definition cycle_params (t : nat) : Params :=
  {| page := None; per_page := None; after := Some (clock (S t) - ninety_days_ms) |}.

Definition cycle_today (t : nat) : string :=
  toDateString (Some (clock (S (S (S t))))).

Definition cycle_thisMonth (t : nat) : string :=
  getFullYear (Some (clock (S (S (S (S t))))))
  +:+ "-" +:+ getMonth1 (Some (clock (S (S (S (S (S t))))))).

End Vocabulary.

(** * Further vocabulary: counts, sums and cells *)

Section Tallies.
Context `{RT : JsRuntime num}.
Import Collector.

#[global] Instance is_out_of_stock_dec (p : Product) : Decision (is_out_of_stock p).
Proof. unfold is_out_of_stock. apply _. Defined.

#[global] Instance is_low_stock_dec (p : Product) : Decision (is_low_stock p).
Proof. unfold is_low_stock. apply _. Defined.

(** The records of a list that have a given status. *)
Definition orders_with_status (status : string) (orders : list Order) : list Order :=
  filter (fun o => order_status o = status) orders.

Definition products_with_status (status : string) (products : list Product) : list Product :=
  filter (fun p => product_status p = status) products.

(** The sum of the totals of some orders, as the reduction accumulates it. *)
Definition revenue_of (orders : list Order) : num :=
  fold_left nadd ((fun o => parseFloat_or_0 (order_total o)) <$> orders) (of_Z 0).

(** The completed orders created on the day [today], and in the month
    [thisMonth], as the reduction compares them. *)
Definition completed_on (today : string) (orders : list Order) : list Order :=
  filter (fun o => order_status o = "completed"
                   /\ toDateString (Date_parse (order_date_created o)) = today) orders.

Definition completed_in (thisMonth : string) (orders : list Order) : list Order :=
  filter (fun o => order_status o = "completed"
                   /\ getFullYear (Date_parse (order_date_created o))
                      +:+ "-" +:+ getMonth1 (Date_parse (order_date_created o))
                      = thisMonth) orders.

(** The line items of some orders, in the order in which they are read. *)
Definition all_items (orders : list Order) : list LineItem :=
  orders ≫= (fun o => default [] (order_line_items o)).

(** The quantity sold of product [pid] over some line items. *)
Definition quantity_sold (pid : Z) (items : list LineItem) : Z :=
  foldr Z.add 0
    ((fun item => parseInt_or_0 (li_quantity item))
       <$> filter (fun item => li_product_id item = Some pid) items).

(** A cell of store [c]: its first two label values are the id and the
    name of the store. *)
Definition store_cell (c : WooCommerceClient) (k : SampleKey) : Prop :=
  exists rest : list string, k.2 = storeId c :: storeName c :: rest.

End Tallies.

(** * Further vocabulary: rankings *)

Section Rankings.
Import Collector.

(** A list of sales in which no entry sells more than an entry before it. *)
Fixpoint sorted_desc (l : list Sale) : Prop :=
  match l with
  | [] => True
  | a :: r => (forall b, b ∈ r -> sale_quantity b <= sale_quantity a) /\ sorted_desc r
  end.

(** The quantities recorded in [productSales] under the key [pid]. *)
Definition recorded_quantity (pid : Z) (productSales : list Sale) : Z :=
  foldr Z.add 0 (sale_quantity <$> filter (fun e => sale_id e = pid) productSales).

End Rankings.
(** * Further examples *)

Module MoreExamples.
Import Examples.

(** A store that sold the three orders of [three_orders]. *)
Definition shop_three : WooCommerceClient :=
  {| storeConfig := store1; api := upstream_with three_orders |}.

(** A store whose pages of orders and products hold one record each, and
    whose page [n] fails. *)
Definition breaks_on_page (n : nat) : WooCommerceClient :=
  {| storeConfig := store1;
     api := {| get_orders := fun p =>
                 if decide (page p = Some n) then Throw down
                 else Ok [an_order "completed" "1" []];
               get_products := fun p =>
                 if decide (page p = Some n) then Throw down
                 else Ok [a_product "instock" (JNum 5) (JBool true)];
               get_customers := fun p => Ok [];
               get_system_status := Ok tt |} |}.

(** A store one of whose line items has no product id. *)
Definition shop_bad_item : WooCommerceClient :=
  {| storeConfig := store1;
     api := upstream_with
              [an_order "completed" "30" [an_item 7 2];
               an_order "completed" "20"
                 [ {| li_product_id := None; li_name := "Gift card"; li_quantity := JNum 1 |} ]]
  |}.

(** A store one of whose orders, and one of whose products, has the status
    [constructor]. *)
Definition orders_constructor : list Order :=
  [an_order "completed" "30" [an_item 7 2];
   an_order "constructor" "5" [an_item 8 1]].

Definition products_constructor : list Product :=
  [a_product "instock" (JNum 4) (JBool true);
   {| product_status := "constructor"; product_stock_quantity := JNum 0;
      product_stock_status := "outofstock"; product_manage_stock := JBool true |}].

Definition shop_constructor : WooCommerceClient :=
  {| storeConfig := store1;
     api := {| get_orders := get_orders (upstream_with orders_constructor);
               get_products := fun p =>
                 match page p with
                 | Some 1%nat => Ok products_constructor
                 | _ => Ok []
                 end;
               get_customers := fun p => Ok [];
               get_system_status := Ok tt |} |}.

End MoreExamples.

(** * Further vocabulary: configured stores *)

Section ConfigVocabulary.

(** The three required variables of the store of index [j] are set. *)
Definition configured (env : Config.Env) (j : nat) : Prop :=
  Config.is_set (env !! Config.env_key j "_URL") = true
  /\ Config.is_set (env !! Config.env_key j "_CONSUMER_KEY") = true
  /\ Config.is_set (env !! Config.env_key j "_CONSUMER_SECRET") = true.

(** The configuration object built for the index [j]. *)
Definition store_at (env : Config.Env) (j : nat) : Config.Store :=
  Config.store_of_env env j
    (default "" (env !! Config.env_key j "_URL"))
    (default "" (env !! Config.env_key j "_CONSUMER_KEY"))
    (default "" (env !! Config.env_key j "_CONSUMER_SECRET")).

(** A store passes the checks of [validateStores] that can fail for a
    store that was loaded. *)
Definition well_configured (store : Config.Store) : Prop :=
  String.prefix "http" (Config.url store) = true
  /\ 60000 <= Config.scrapeInterval store
  /\ 5000 <= Config.timeout store.

End ConfigVocabulary.
(** * Further vocabulary: start-up *)

Section StartupVocabulary.
Variable connect : Config.Store -> Result Upstream.

(** The request of a connection test. *)
Definition status_request (c : WooCommerceClient) : Request :=
  {| req_store := storeId c; req_endpoint := ESystemStatus; req_params := no_params |}.

(** The entry of the map of clients for a configuration, when the client
    can be constructed. *)
Definition client_of (storeConf : Config.Store) : option (string * WooCommerceClient) :=
  match connect storeConf with
  | Ok api => Some (Config.id storeConf,
                    {| storeConfig := Startup.storeInfo storeConf; api := api |})
  | Throw _ => None
  end.

End StartupVocabulary.
(** * Further examples: configurations *)

Module ConfigExamples.
Import Examples.

(** Two stores, the second disabled and with a scrape interval of 0, and
    the variables of a store 4 after the gap at 3. *)
Definition env_example : Config.Env :=
  list_to_map
    [("STORE1_URL", "https://one.example"); ("STORE1_CONSUMER_KEY", "ck_1");
     ("STORE1_CONSUMER_SECRET", "cs_1"); ("STORE1_NAME", "One");
     ("STORE2_URL", "https://two.example"); ("STORE2_CONSUMER_KEY", "ck_2");
     ("STORE2_CONSUMER_SECRET", "cs_2"); ("STORE2_ENABLED", "false");
     ("STORE2_SCRAPE_INTERVAL", "0");
     ("STORE4_URL", "https://four.example"); ("STORE4_CONSUMER_KEY", "ck_4");
     ("STORE4_CONSUMER_SECRET", "cs_4")].

Definition store_one : Config.Store :=
  {| Config.id := "store1"; Config.name := "One"; Config.url := "https://one.example";
     Config.consumerKey := "ck_1"; Config.consumerSecret := "cs_1";
     Config.enabled := true; Config.scrapeInterval := 300000; Config.currency := "USD";
     Config.timeout := 30000; Config.maxRetries := 3 |}.

Definition store_two : Config.Store :=
  {| Config.id := "store2"; Config.name := "Store 2"; Config.url := "https://two.example";
     Config.consumerKey := "ck_2"; Config.consumerSecret := "cs_2";
     Config.enabled := false; Config.scrapeInterval := 300000; Config.currency := "USD";
     Config.timeout := 30000; Config.maxRetries := 3 |}.

(** A disabled store whose URL does not start with [http]. *)
Definition store_bad_url : Config.Store :=
  {| Config.id := "store3"; Config.name := "Store 3"; Config.url := "ftp://three.example";
     Config.consumerKey := "ck_3"; Config.consumerSecret := "cs_3";
     Config.enabled := false; Config.scrapeInterval := 300000; Config.currency := "USD";
     Config.timeout := 30000; Config.maxRetries := 3 |}.

(** Every client can be constructed; the status call of its upstream
    fails. *)
Definition connect_unreachable (storeConf : Config.Store) : Result Upstream :=
  Ok (api store_b).

(** A store with 100 customers on its first page of 100, 40 on the second
    and none on the third. *)
Definition shop_140_customers : WooCommerceClient :=
  {| storeConfig := store1;
     api := {| get_orders := fun p => Ok [];
               get_products := fun p => Ok [];
               get_customers := fun p =>
                 match per_page p, page p with
                 | Some 1%nat, _ => Ok (some_customers 1)
                 | Some 100%nat, Some 1%nat => Ok (some_customers 100)
                 | Some 100%nat, Some 2%nat => Ok (some_customers 40)
                 | _, _ => Ok []
                 end;
               get_system_status := Ok tt |} |}.

End ConfigExamples.

(** * Properties *)

(** ** Reasoning about monadic code *)

Ltac munfold :=
  unfold mbind, M_bind, mret, M_ret, bind, ret, throw, try_catch, settle,
    logger, record_request, update_register, gauge_set, counter_inc, modify,
    Date_now, Client.of_result in *.

Section ClientProperties.
Context {num : Type}.

(** C7. [testConnection] always resolves with a boolean and never rejects:
    [true] exactly when the status call succeeded, [false] when it failed,
    in which case the failure is logged at error level; the registry is not
    touched. *)
Theorem testConnection_never_throws (c : WooCommerceClient) (s : State num) :
  exists s' : State num,
    Client.testConnection c s
      = (Ok (match get_system_status (api c) with Ok _ => true | Throw _ => false end), s')
    /\ register s' = register s
    /\ logs s' = (logs s
         ++ [(Info, "Testing connection for store " +:+ storeId c);
             match get_system_status (api c) with
             | Ok _ => (Info, "Connection test successful for store " +:+ storeId c)
             | Throw _ => (LError, "Connection test failed for store " +:+ storeId c +:+ ":")
             end])%list.
Proof.
  unfold Client.testConnection, Client.api_get_system_status. munfold. simpl.
  destruct (get_system_status (api c)) as [[]|e]; simpl;
    eexists; (split; [reflexivity|]); simpl; (split; [reflexivity|]);
    rewrite <- app_assoc; reflexivity.
Qed.

End ClientProperties.

(** ** The product reduction *)

Section ProductProperties.
Import Collector.

Lemma out_of_stock_test (p : Product) :
  String.eqb (product_stock_status p) "outofstock"
    || (parseInt_or_0 (product_stock_quantity p) =? 0) = true
  <-> is_out_of_stock p.
Proof.
  unfold is_out_of_stock. rewrite orb_true_iff, String.eqb_eq, Z.eqb_eq. tauto.
Qed.

Lemma low_stock_test (p : Product) :
  truthy (product_manage_stock p)
    && (parseInt_or_0 (product_stock_quantity p) <=? lowStockThreshold) = true
  <-> is_low_stock p.
Proof.
  unfold is_low_stock, lowStockThreshold. rewrite andb_true_iff, Z.leb_le. tauto.
Qed.




End ProductProperties.

(** ** Gauge writes *)

Section Writes.
Context {num : Type}.

Lemma with_trace_twice (s : State num) (r1 r2 : list Request) (l1 l2 : list (Level * string)) :
  with_trace (with_trace s r1 l1) r2 l2 = with_trace s (r1 ++ r2) (l1 ++ l2).
Proof. unfold with_trace. simpl. rewrite <- !app_assoc. reflexivity. Qed.

Lemma with_trace_nil (s : State num) : with_trace s [] [] = s.
Proof. destruct s. unfold with_trace. simpl. rewrite !app_nil_r. reflexivity. Qed.

Lemma Date_now_eq (clock : nat -> Z) (s : State num) :
  Date_now clock s = (Ok (clock (ticks s)), tick s).
Proof. reflexivity. Qed.

Lemma logger_eq (l : Level) (msg : string) (s : State num) :
  logger l msg s = (Ok tt, with_trace s [] [(l, msg)]).
Proof. unfold logger, modify, with_trace. rewrite app_nil_r. reflexivity. Qed.

Lemma counter_inc_eq (m : string) (ls : list string) (s : State num) :
  counter_inc m ls s = (Ok tt, with_register s (registry_inc (m, ls) (register s))).
Proof. reflexivity. Qed.

Lemma with_register_id (s : State num) : with_register s (register s) = s.
Proof. destruct s; reflexivity. Qed.

Lemma gauge_set_eq (m : string) (ls : list string) (v : num) (s : State num) :
  gauge_set m ls v s = (Ok tt, with_register s (set_gauges [((m, ls), v)] (register s))).
Proof. reflexivity. Qed.

Lemma set_gauges_app (l1 l2 : list (SampleKey * num)) (r : Registry num) :
  set_gauges (l1 ++ l2) r = set_gauges l2 (set_gauges l1 r).
Proof. apply fold_left_app. Qed.

Lemma forEach_gauge_set {A : Type} (f : A -> M num unit) (kv : A -> SampleKey * num)
    (xs : list A) (s : State num) :
  (forall x s, f x s = gauge_set (kv x).1.1 (kv x).1.2 (kv x).2 s) ->
  forEach f xs s = (Ok tt, with_register s (set_gauges (kv <$> xs) (register s))).
Proof.
  intros Hf. revert s. induction xs as [|x xs IH]; intros s; simpl.
  - unfold ret. rewrite with_register_id. reflexivity.
  - unfold bind. rewrite Hf. rewrite gauge_set_eq. rewrite IH. simpl.
    destruct (kv x) as [[m ls] v]. reflexivity.
Qed.

Lemma counters_set_gauges (kvs : list (SampleKey * num)) (r : Registry num) :
  counters (set_gauges kvs r) = counters r.
Proof.
  revert r. induction kvs as [|kv kvs IH]; intros r; [reflexivity|].
  change (set_gauges (kv :: kvs) r) with (set_gauges kvs (registry_set kv.1 kv.2 r)).
  rewrite IH. reflexivity.
Qed.

(** A key outside the batch keeps its cell. *)
Lemma lookup_set_gauges_notin (kvs : list (SampleKey * num)) (r : Registry num)
    (k : SampleKey) :
  k ∉ kvs.*1 -> gauges (set_gauges kvs r) !! k = gauges r !! k.
Proof.
  revert r. induction kvs as [|[k' v] kvs IH]; intros r Hk; [reflexivity|].
  rewrite fmap_cons, not_elem_of_cons in Hk. destruct Hk as [Hne Hk].
  change (set_gauges ((k', v) :: kvs) r) with (set_gauges kvs (registry_set k' v r)).
  rewrite IH by assumption. simpl in *.
  apply lookup_insert_ne. intros ->. apply Hne. reflexivity.
Qed.

(** The cell of a key after a batch depends on its cell before. *)
Lemma lookup_set_gauges_congr (kvs : list (SampleKey * num)) (r r' : Registry num)
    (k : SampleKey) :
  gauges r !! k = gauges r' !! k ->
  gauges (set_gauges kvs r) !! k = gauges (set_gauges kvs r') !! k.
Proof.
  revert r r'. induction kvs as [|[k' v] kvs IH]; intros r r' Hk; [exact Hk|].
  change (set_gauges ((k', v) :: kvs) r) with (set_gauges kvs (registry_set k' v r)).
  change (set_gauges ((k', v) :: kvs) r') with (set_gauges kvs (registry_set k' v r')).
  apply IH. cbn. destruct (decide (k' = k)) as [->|Hne].
  - rewrite !lookup_insert_eq. reflexivity.
  - rewrite !lookup_insert_ne by exact Hne. exact Hk.
Qed.

(** The last write to a key decides its cell. *)
Lemma lookup_set_gauges_last (l1 l2 : list (SampleKey * num)) (r : Registry num)
    (k : SampleKey) (v : num) :
  k ∉ l2.*1 -> gauges (set_gauges (l1 ++ (k, v) :: l2) r) !! k = Some v.
Proof.
  intros Hk. rewrite set_gauges_app.
  change (set_gauges ((k, v) :: l2) ?r0) with (set_gauges l2 (registry_set k v r0)).
  rewrite lookup_set_gauges_notin by assumption. simpl. apply lookup_insert_eq.
Qed.

End Writes.

Section Binds.
Context {num : Type}.

Lemma mbind_ok {A B : Type} (m : M num A) (k : A -> M num B) (s s1 : State num) (a : A) :
  m s = (Ok a, s1) -> (x ← m; k x) s = k a s1.
Proof. intros H. unfold mbind, M_bind, bind. rewrite H. reflexivity. Qed.

Lemma mbind_throw {A B : Type} (m : M num A) (k : A -> M num B) (s s1 : State num)
    (e : Error) :
  m s = (Throw e, s1) -> (x ← m; k x) s = (Throw e, s1).
Proof. intros H. unfold mbind, M_bind, bind. rewrite H. reflexivity. Qed.

Lemma try_catch_ok {A : Type} (m : M num A) (h : Error -> M num A) (s s1 : State num)
    (a : A) :
  m s = (Ok a, s1) -> try_catch m h s = (Ok a, s1).
Proof. intros H. unfold try_catch. rewrite H. reflexivity. Qed.

Lemma try_catch_throw {A : Type} (m : M num A) (h : Error -> M num A) (s s1 : State num)
    (e : Error) :
  m s = (Throw e, s1) -> try_catch m h s = h e s1.
Proof. intros H. unfold try_catch. rewrite H. reflexivity. Qed.

Lemma register_with_register (s : State num) (r : Registry num) :
  register (with_register s r) = r.
Proof. reflexivity. Qed.

Lemma with_register_twice (s : State num) (r1 r2 : Registry num) :
  with_register (with_register s r1) r2 = with_register s r2.
Proof. reflexivity. Qed.

End Binds.

Ltac not_in_fmap :=
  let x := fresh in let Hx := fresh in
  intros [x [Hx _]]%list_elem_of_fmap; simpl in Hx; discriminate Hx.

(** ** [statusCounts] as a plain object *)

Section StatusCountsProperties.
Import Collector.

Lemma own_put_own (k k' : string) (v : CountVal) (sc : StatusCounts) :
  own (put_own k v sc) k' = if decide (k = k') then Some v else own sc k'.
Proof.
  induction sc as [|[k0 v0] sc IH]; cbn [put_own own].
  - destruct (decide (k = k')) as [->|Hne].
    + rewrite String.eqb_refl. reflexivity.
    + rewrite (proj2 (String.eqb_neq _ _) Hne). reflexivity.
  - destruct (String.eqb k0 k) eqn:Hk0; [apply String.eqb_eq in Hk0|apply String.eqb_neq in Hk0];
      cbn [own].
    + subst k0. destruct (decide (k = k')) as [->|Hne].
      * rewrite String.eqb_refl. reflexivity.
      * rewrite (proj2 (String.eqb_neq _ _) Hne). reflexivity.
    + destruct (String.eqb k0 k') eqn:Hk0'.
      * apply String.eqb_eq in Hk0'. subst k0.
        rewrite decide_False by congruence. reflexivity.
      * exact IH.
Qed.

Lemma keys_put_own (k : string) (v : CountVal) (sc : StatusCounts) :
  (put_own k v sc).*1 = if decide (k ∈ sc.*1) then sc.*1 else (sc.*1 ++ [k])%list.
Proof.
  induction sc as [|[k0 v0] sc IH]; cbn [put_own fmap list_fmap fst].
  - rewrite decide_False by (intros Hin; inversion Hin). reflexivity.
  - destruct (String.eqb k0 k) eqn:Hk0; [apply String.eqb_eq in Hk0|apply String.eqb_neq in Hk0].
    + subst k0. rewrite decide_True by apply list_elem_of_here. reflexivity.
    + cbn [fmap list_fmap fst]. fold ((put_own k v sc).*1). fold (sc.*1). rewrite IH.
      destruct (decide (k ∈ sc.*1)) as [Hin|Hnin].
      * rewrite decide_True by (apply list_elem_of_further; exact Hin). reflexivity.
      * rewrite decide_False; [reflexivity|].
        intros [Heq|Hin]%elem_of_cons; congruence.
Qed.

Lemma NoDup_count_status (status : string) (sc : StatusCounts) :
  NoDup sc.*1 -> NoDup (count_status status sc).*1.
Proof.
  intros Hnd. unfold count_status, put.
  destruct (String.eqb status "__proto__"); [exact Hnd|].
  rewrite keys_put_own. case_decide; [exact Hnd|].
  apply NoDup_app. split; [exact Hnd|]. split; [|apply NoDup_singleton].
  intros x Hx Hx'. apply list_elem_of_singleton in Hx'. congruence.
Qed.

Lemma own_elem_of (sc : StatusCounts) (k : string) (v : CountVal) :
  own sc k = Some v -> (k, v) ∈ sc.
Proof.
  induction sc as [|[k0 v0] sc IH]; cbn [own]; [discriminate|].
  destruct (String.eqb k0 k) eqn:Hk0.
  - apply String.eqb_eq in Hk0. intros [= ->]. subst. apply list_elem_of_here.
  - intros H. apply list_elem_of_further. auto.
Qed.

Lemma elem_of_own (sc : StatusCounts) (k : string) (v : CountVal) :
  NoDup sc.*1 -> (k, v) ∈ sc -> own sc k = Some v.
Proof.
  induction sc as [|[k0 v0] sc IH]; intros Hnd Hin; [inversion Hin|].
  rewrite fmap_cons in Hnd. apply NoDup_cons in Hnd as [Hnot Hnd]. cbn [own].
  apply elem_of_cons in Hin as [Heq|Hin].
  - injection Heq as -> ->. rewrite String.eqb_refl. reflexivity.
  - destruct (String.eqb k0 k) eqn:Hk0; [|auto].
    apply String.eqb_eq in Hk0. subst k0. exfalso. apply Hnot.
    apply (list_elem_of_fmap_2' fst _ (k, v)); [exact Hin|reflexivity].
Qed.

(** The own property of the key [k] after [n] records with the status
    [k] were counted. *)
Lemma own_count_status (status k : string) (sc : StatusCounts) :
  own (count_status status sc) k
  = if decide (status = k /\ k <> "__proto__")
    then Some (plus_1 (or_0 (get sc k)))
    else own sc k.
Proof.
  unfold count_status, put.
  destruct (String.eqb status "__proto__") eqn:Hp;
    [apply String.eqb_eq in Hp|apply String.eqb_neq in Hp].
  - rewrite decide_False; [reflexivity|]. intros [-> Hne]. congruence.
  - rewrite own_put_own. destruct (decide (status = k)) as [->|Hne].
    + rewrite decide_True by tauto. reflexivity.
    + rewrite decide_False by tauto. reflexivity.
Qed.

Lemma inherited_proto : inherited "__proto__" = true.
Proof. reflexivity. Qed.

Lemma own_counted_step (k : string) (n : nat) (sc : StatusCounts) :
  own sc k = counted n k -> own (count_status k sc) k = counted (S n) k.
Proof.
  intros Hown. rewrite own_count_status. unfold counted, get, shadows_member in *.
  destruct (String.eqb k "__proto__") eqn:Hp;
    [apply String.eqb_eq in Hp|apply String.eqb_neq in Hp].
  - rewrite decide_False by tauto. rewrite Hown.
    subst k. destruct n; reflexivity.
  - rewrite decide_True by tauto. rewrite Hown. cbn [Nat.eqb].
    destruct n as [|n]; cbn [Nat.eqb].
    + destruct (inherited k); reflexivity.
    + destruct (inherited k); cbn [or_0 plus_1]; [reflexivity|].
      rewrite Nat.add_1_r. reflexivity.
Qed.

Lemma own_counted_other (status k : string) (sc : StatusCounts) :
  status <> k -> own (count_status status sc) k = own sc k.
Proof. intros Hne. rewrite own_count_status. rewrite decide_False by tauto. reflexivity. Qed.

(** Counting the statuses [l] one after the other. *)
Lemma own_fold_count_status (l : list string) (k : string) (n : nat) (sc : StatusCounts) :
  own sc k = counted n k ->
  own (fold_left (fun sc status => count_status status sc) l sc) k
  = counted (n + length (filter (fun status => status = k) l)) k.
Proof.
  revert n sc. induction l as [|status l IH]; intros n sc Hown; cbn [fold_left].
  - rewrite filter_nil, Nat.add_0_r. exact Hown.
  - rewrite filter_cons. destruct (decide (status = k)) as [->|Hne].
    + rewrite (IH (S n)) by (apply own_counted_step; exact Hown).
      cbn [length]. f_equal. lia.
    + apply IH. rewrite own_counted_other by exact Hne. exact Hown.
Qed.

Lemma NoDup_fold_count_status (l : list string) (sc : StatusCounts) :
  NoDup sc.*1 -> NoDup (fold_left (fun sc status => count_status status sc) l sc).*1.
Proof.
  revert sc. induction l as [|status l IH]; intros sc Hnd; [exact Hnd|].
  apply IH. apply NoDup_count_status. exact Hnd.
Qed.

Lemma counted_Some (n : nat) (k : string) (v : CountVal) :
  counted n k = Some v ->
  n <> 0%nat /\ k <> "__proto__"
  /\ v = if inherited k then Text n else Count n.
Proof.
  unfold counted. destruct n as [|n]; cbn [Nat.eqb]; [discriminate|].
  destruct (String.eqb k "__proto__") eqn:Hp; [discriminate|].
  apply String.eqb_neq in Hp. destruct (inherited k); intros [= <-]; auto.
Qed.

(** When the statuses [l] were counted from the empty object, every count
    is a number exactly when no status is named like a function of
    [Object.prototype]. *)
Lemma numeric_fold_count_status (l : list string) :
  numeric (fold_left (fun sc status => count_status status sc) l [])
  = forallb (fun status => negb (shadows_member status)) l.
Proof.
  set (sc := fold_left (fun sc status => count_status status sc) l []).
  assert (Hown : forall k, own sc k
                           = counted (length (filter (fun status => status = k) l)) k).
  { intros k. apply (own_fold_count_status l k 0 []). reflexivity. }
  assert (Hnd : NoDup sc.*1) by (apply NoDup_fold_count_status; constructor).
  apply eq_true_iff_eq. unfold numeric. rewrite !forallb_forall. split.
  - intros Hnum status Hin. apply list_elem_of_In in Hin.
    destruct (shadows_member status) eqn:Hsh; [|reflexivity]. exfalso.
    unfold shadows_member in Hsh. apply andb_true_iff in Hsh as [Hinh Hp].
    apply negb_true_iff in Hp.
    specialize (Hown status). unfold counted in Hown. rewrite Hp, Hinh in Hown.
    destruct (length (filter (fun status0 => status0 = status) l)) as [|n] eqn:Hlen.
    + assert (Hmem : status ∈ filter (fun status0 => status0 = status) l)
        by (apply list_elem_of_filter; auto).
      destruct (filter (fun status0 => status0 = status) l); [inversion Hmem|discriminate].
    + cbn [Nat.eqb] in Hown. apply own_elem_of in Hown.
      apply list_elem_of_In in Hown. specialize (Hnum _ Hown). discriminate Hnum.
  - intros Hplain [k v] Hin. apply list_elem_of_In in Hin.
    apply (elem_of_own _ _ _ Hnd) in Hin. rewrite Hown in Hin.
    apply counted_Some in Hin as (Hn & Hp & ->). cbn [snd].
    destruct (inherited k) eqn:Hinh; [|reflexivity]. exfalso.
    assert (Hk : k ∈ l).
    { destruct (filter (fun status => status = k) l) as [|x r] eqn:Hf; [cbn in Hn; lia|].
      assert (Hx : x ∈ filter (fun status => status = k) l)
        by (rewrite Hf; apply list_elem_of_here).
      apply list_elem_of_filter in Hx as [-> Hx]. exact Hx. }
    apply list_elem_of_In in Hk. specialize (Hplain _ Hk).
    unfold shadows_member in Hplain. rewrite Hinh in Hplain.
    rewrite (proj2 (String.eqb_neq _ _) Hp) in Hplain. discriminate Hplain.
Qed.

Lemma insert_by_index_perm (e : N * (string * CountVal)) (l : list (N * (string * CountVal))) :
  insert_by_index e l ≡ₚ e :: l.
Proof.
  induction l as [|y r IH]; cbn [insert_by_index]; [reflexivity|].
  destruct (y.1 <? e.1)%N; [|reflexivity]. rewrite IH. apply Permutation_swap.
Qed.

(** [Object.entries] lists every own property once. *)
Lemma status_entries_perm (sc : StatusCounts) : status_entries sc ≡ₚ sc.
Proof.
  unfold status_entries.
  assert (Hsort : forall l : list (N * (string * CountVal)),
            foldr insert_by_index [] l ≡ₚ l).
  { induction l as [|e l IH]; [reflexivity|].
    cbn [foldr]. rewrite insert_by_index_perm, IH. reflexivity. }
  rewrite Hsort. induction sc as [|e sc IH]; [reflexivity|].
  cbn [omap list_omap]. rewrite filter_cons.
  destruct (array_index e.1) as [i|] eqn:Hi; cbn [fmap option_fmap option_map].
  - rewrite decide_False by discriminate. cbn [fmap list_fmap snd app].
    apply Permutation_skip. exact IH.
  - rewrite decide_True by reflexivity.
    rewrite <- Permutation_middle. apply Permutation_skip. exact IH.
Qed.

Lemma numeric_status_entries (sc : StatusCounts) :
  forallb (fun e : string * CountVal => is_count e.2) (status_entries sc) = numeric sc.
Proof.
  apply eq_true_iff_eq. unfold numeric. rewrite !forallb_forall.
  split; intros H e He; apply H; apply list_elem_of_In; apply list_elem_of_In in He.
  - rewrite status_entries_perm. exact He.
  - rewrite <- status_entries_perm. exact He.
Qed.

Lemma counts_before_text_numeric (l : StatusCounts) :
  forallb (fun e : string * CountVal => is_count e.2) l = true ->
  counts_before_text l = (fun e => (e.1, count_nat e.2)) <$> l.
Proof.
  induction l as [|[k v] l IH]; [reflexivity|]. cbn [forallb snd].
  intros [Hv Hl]%andb_true_iff. destruct v; try discriminate Hv.
  cbn [counts_before_text fmap list_fmap fst snd count_nat]. f_equal. exact (IH Hl).
Qed.

Lemma elem_of_counts_before_text (l : StatusCounts) (k : string) (n : nat) :
  (k, n) ∈ counts_before_text l -> (k, Count n) ∈ l.
Proof.
  induction l as [|[k0 v0] l IH]; cbn [counts_before_text]; [intros H; inversion H|].
  destruct v0; try (intros H; inversion H; fail).
  intros [Heq|Hin]%elem_of_cons.
  - injection Heq as -> ->. apply list_elem_of_here.
  - apply list_elem_of_further. auto.
Qed.

Lemma own_None_notin (sc : StatusCounts) (k : string) (v : CountVal) :
  own sc k = None -> (k, v) ∉ sc.
Proof.
  induction sc as [|[k0 v0] sc IH]; cbn [own]; intros Hown Hin; [inversion Hin|].
  destruct (String.eqb k0 k) eqn:Hk0; [discriminate Hown|].
  apply String.eqb_neq in Hk0.
  apply elem_of_cons in Hin as [Heq|Hin]; [congruence|]. exact (IH Hown Hin).
Qed.

(** A by-status write is the write of an own property. *)
Lemma counts_before_text_own (sc : StatusCounts) (k : string) (n : nat) :
  (k, n) ∈ counts_before_text (status_entries sc) -> own sc k <> None.
Proof.
  intros Hin Hown. apply elem_of_counts_before_text in Hin.
  rewrite status_entries_perm in Hin. exact (own_None_notin sc k (Count n) Hown Hin).
Qed.

(** Of an object whose counts are numbers, a key that is not inherited
    reads a number. *)
Lemma count_of_numeric (sc : StatusCounts) (k : string) :
  numeric sc = true -> inherited k = false ->
  count_of sc k = Count (count_nat (count_of sc k)).
Proof.
  intros Hnum Hk. unfold count_of, get. rewrite Hk.
  destruct (own sc k) as [v|] eqn:Hown; [|reflexivity].
  apply own_elem_of in Hown. unfold numeric in Hnum. rewrite forallb_forall in Hnum.
  apply list_elem_of_In in Hown. specialize (Hnum _ Hown). cbn in Hnum.
  destruct v as [[|n]| |]; try discriminate Hnum; reflexivity.
Qed.

(** What a key that is not inherited reads after counting. *)
Lemma count_of_counted (sc : StatusCounts) (k : string) (n : nat) :
  own sc k = counted n k -> inherited k = false -> count_of sc k = Count n.
Proof.
  intros Hown Hk. unfold count_of, get. rewrite Hown, Hk. unfold counted.
  destruct n as [|n]; cbn [Nat.eqb]; [reflexivity|].
  destruct (String.eqb k "__proto__") eqn:Hp.
  - apply String.eqb_eq in Hp. subst k. discriminate Hk.
  - rewrite Hk. reflexivity.
Qed.

End StatusCountsProperties.

(** ** The order reduction *)

Section OrderProperties.
Context `{RT : JsRuntime num}.
Import Collector.

(** The by-status writes: they stop with a [TypeError] at the first count
    that is not a number. *)
Lemma forEach_gauge_set_count (metric : string) (labels : string -> list string)
    (l : StatusCounts) (s : State num) :
  forEach (fun '(status, count) => gauge_set_count metric (labels status) count) l s
  = (if forallb (fun e : string * CountVal => is_count e.2) l
     then Ok tt else Throw not_a_number,
     with_register s
       (set_gauges ((fun sc : string * nat => ((metric, labels sc.1), of_nat sc.2))
                      <$> counts_before_text l)
                   (register s))).
Proof.
  revert s. induction l as [|[k v] l IH]; intros s; cbn [forEach].
  - unfold ret. cbn. rewrite with_register_id. reflexivity.
  - unfold bind. destruct v as [n|ones|];
      cbn [gauge_set_count forallb snd is_count counts_before_text andb].
    + rewrite gauge_set_eq, IH.
      rewrite with_register_twice, register_with_register.
      rewrite fmap_cons. reflexivity.
    + unfold throw. cbn. rewrite with_register_id. reflexivity.
    + unfold throw. cbn. rewrite with_register_id. reflexivity.
Qed.

Lemma gauge_set_count_eq (m : string) (ls : list string) (n : nat) (s : State num) :
  gauge_set_count m ls (Count n) s
  = (Ok tt, with_register s (set_gauges [((m, ls), of_nat n)] (register s))).
Proof. reflexivity. Qed.

(** The writes of the order reduction: all of them when every count is a
    number; else the total and the by-status cells before the first count
    that is not a number, and a [TypeError]. *)
Lemma write_order_metrics_eq (storeId storeName currency : string) (n_orders : nat)
    (acc : OrderAcc) (s : State num) :
  write_order_metrics storeId storeName currency n_orders acc s
  = (if numeric (oa_statusCounts acc) then Ok tt else Throw not_a_number,
     with_register s
       (set_gauges (order_writes storeId storeName currency n_orders acc) (register s))).
Proof.
  unfold write_order_metrics, order_writes.
  erewrite mbind_ok by apply gauge_set_eq.
  pose proof (forEach_gauge_set_count ordersByStatusGauge
                (fun status => [storeId; storeName; status; currency])
                (status_entries (oa_statusCounts acc))) as Hstatus.
  rewrite numeric_status_entries in Hstatus.
  destruct (numeric (oa_statusCounts acc)) eqn:Hnum.
  - erewrite mbind_ok by apply Hstatus.
    rewrite (count_of_numeric _ "pending" Hnum eq_refl).
    rewrite (count_of_numeric _ "failed" Hnum eq_refl).
    rewrite (count_of_numeric _ "processing" Hnum eq_refl).
    do 3 (erewrite mbind_ok by apply gauge_set_count_eq).
    do 4 (erewrite mbind_ok by apply gauge_set_eq).
    erewrite (forEach_gauge_set _
                (fun e : Sale =>
                   ((topProductsSoldGauge, [storeId; storeName; pretty (sale_id e); sale_name e]),
                    of_Z (sale_quantity e)))) by (intros e s0; reflexivity).
    repeat rewrite with_register_twice. repeat rewrite register_with_register.
    repeat rewrite set_gauges_app. reflexivity.
  - erewrite mbind_throw by apply Hstatus.
    repeat rewrite with_register_twice. repeat rewrite register_with_register.
    rewrite app_nil_r. repeat rewrite set_gauges_app. reflexivity.
Qed.

Lemma length_filter_fmap {A : Type} (f : A -> string) (k : string) (l : list A) :
  length (filter (fun status => status = k) (f <$> l))
  = length (filter (fun x => f x = k) l).
Proof.
  induction l as [|x l IH]; [reflexivity|].
  rewrite fmap_cons, !filter_cons.
  destruct (decide (f x = k)); cbn [length]; rewrite IH; reflexivity.
Qed.

Lemma process_order_completed (today thisMonth : string) (acc acc' : OrderAcc) (o : Order) :
  process_order today thisMonth acc o = Ok acc' ->
  oa_statusCounts acc' = count_status (order_status o) (oa_statusCounts acc)
  /\ oa_totalOrderValue acc'
     = (if decide (order_status o = "completed")
        then nadd (oa_totalOrderValue acc) (parseFloat_or_0 (order_total o))
        else oa_totalOrderValue acc).
Proof.
  unfold process_order.
  destruct (match order_line_items o with
            | Some items => process_items (oa_productSales acc) items
            | None => Ok (oa_productSales acc)
            end) as [ps|e]; [|discriminate].
  intros [= <-]. simpl. split; [reflexivity|].
  destruct (decide (order_status o = "completed")) as [Hc|Hc].
  - rewrite Hc. reflexivity.
  - apply String.eqb_neq in Hc. rewrite Hc. reflexivity.
Qed.

(** The statuses of the orders are counted one after the other. *)
Lemma process_orders_statusCounts (today thisMonth : string) (orders : list Order)
    (acc acc' : OrderAcc) :
  process_orders today thisMonth acc orders = Ok acc' ->
  oa_statusCounts acc'
  = fold_left (fun sc status => count_status status sc) (order_status <$> orders)
              (oa_statusCounts acc).
Proof.
  revert acc. induction orders as [|o orders IH]; intros acc; simpl.
  - intros [= <-]. reflexivity.
  - destruct (process_order today thisMonth acc o) as [acc1|e] eqn:Ho; [|discriminate].
    intros Hrest. apply IH in Hrest as ->.
    apply process_order_completed in Ho as [-> _]. reflexivity.
Qed.

(** The own property of a status after the reduction of the orders. *)
Lemma process_orders_own (today thisMonth : string) (orders : list Order) (acc : OrderAcc)
    (status : string) :
  process_orders today thisMonth order_acc0 orders = Ok acc ->
  own (oa_statusCounts acc) status
  = counted (length (filter (fun o => order_status o = status) orders)) status.
Proof.
  intros Hacc. rewrite (process_orders_statusCounts _ _ _ _ _ Hacc).
  rewrite (own_fold_count_status _ status 0 []) by reflexivity.
  rewrite Nat.add_0_l, length_filter_fmap. reflexivity.
Qed.

(** The counts of the orders are numbers exactly when no status is named
    like a function of [Object.prototype]. *)
Lemma process_orders_numeric (today thisMonth : string) (orders : list Order)
    (acc : OrderAcc) :
  process_orders today thisMonth order_acc0 orders = Ok acc ->
  numeric (oa_statusCounts acc) = plain_statuses (order_status <$> orders).
Proof.
  intros Hacc. rewrite (process_orders_statusCounts _ _ _ _ _ Hacc).
  apply numeric_fold_count_status.
Qed.




Lemma order_writes_split (storeId storeName currency : string) (n_orders : nat)
    (acc : OrderAcc) :
  numeric (oa_statusCounts acc) = true ->
  order_writes storeId storeName currency n_orders acc
  = (([((totalOrdersGauge, [storeId; storeName; "all"; currency]), of_nat n_orders)]
      ++ ((fun sc : string * nat =>
             ((ordersByStatusGauge, [storeId; storeName; sc.1; currency]), of_nat sc.2))
            <$> counts_before_text (status_entries (oa_statusCounts acc)))
      ++ [((pendingOrdersGauge, [storeId; storeName]),
           of_nat (count_nat (count_of (oa_statusCounts acc) "pending")));
          ((failedOrdersGauge, [storeId; storeName]),
           of_nat (count_nat (count_of (oa_statusCounts acc) "failed")));
          ((processingOrdersGauge, [storeId; storeName]),
           of_nat (count_nat (count_of (oa_statusCounts acc) "processing")));
          ((totalRevenueGauge, [storeId; storeName; currency; "all_time"]),
           oa_totalRevenue acc);
          ((revenueTodayGauge, [storeId; storeName; currency]), oa_revenueToday acc);
          ((revenueThisMonthGauge, [storeId; storeName; currency]),
           oa_revenueThisMonth acc)])
     ++ ((averageOrderValueGauge, [storeId; storeName; currency; "all_time"]),
         avgOrderValue acc)
        :: ((fun e : Sale =>
               ((topProductsSoldGauge,
                 [storeId; storeName; pretty (sale_id e); sale_name e]),
                of_Z (sale_quantity e)))
              <$> topProducts (oa_productSales acc)))%list.
Proof. intros Hnum. unfold order_writes. rewrite Hnum, <- !app_assoc. reflexivity. Qed.



End OrderProperties.

Section OrderExamples.
Import Collector Examples.


End OrderExamples.

(** ** The statuses counted by the product reduction *)

Section ProductStatuses.
Import Collector.

Lemma process_product_statusCounts (acc : ProductAcc) (p : Product) :
  pa_statusCounts (process_product acc p)
  = count_status (product_status p) (pa_statusCounts acc).
Proof.
  unfold process_product.
  destruct (String.eqb (product_stock_status p) "outofstock"
            || (parseInt_or_0 (product_stock_quantity p) =? 0));
    [reflexivity|].
  destruct (truthy (product_manage_stock p)
            && (parseInt_or_0 (product_stock_quantity p) <=? lowStockThreshold));
    reflexivity.
Qed.

Lemma process_products_statusCounts (products : list Product) (acc : ProductAcc) :
  pa_statusCounts (fold_left process_product products acc)
  = fold_left (fun sc status => count_status status sc) (product_status <$> products)
              (pa_statusCounts acc).
Proof.
  revert acc. induction products as [|p products IH]; intros acc; [reflexivity|].
  cbn [fold_left fmap list_fmap]. rewrite IH, process_product_statusCounts. reflexivity.
Qed.

(** The own property of a status after the reduction of the products. *)
Lemma process_products_own (products : list Product) (status : string) :
  own (pa_statusCounts (process_products products)) status
  = counted (length (products_with_status status products)) status.
Proof.
  unfold process_products, products_with_status.
  rewrite process_products_statusCounts.
  rewrite (own_fold_count_status _ status 0 []) by reflexivity.
  rewrite Nat.add_0_l, length_filter_fmap. reflexivity.
Qed.

(** The counts of the products are numbers exactly when no status is named
    like a function of [Object.prototype]. *)
Lemma process_products_numeric (products : list Product) :
  numeric (pa_statusCounts (process_products products))
  = plain_statuses (product_status <$> products).
Proof.
  unfold process_products. rewrite process_products_statusCounts.
  apply numeric_fold_count_status.
Qed.

Lemma plain_statuses_true (statuses : list string) :
  plain_statuses statuses = true
  <-> forall status, status ∈ statuses -> shadows_member status = false.
Proof.
  unfold plain_statuses. rewrite forallb_forall. split.
  - intros H status Hin. apply list_elem_of_In in Hin. specialize (H _ Hin).
    apply negb_true_iff in H. exact H.
  - intros H status Hin. apply list_elem_of_In in Hin. rewrite (H _ Hin). reflexivity.
Qed.

End ProductStatuses.

(** ** The collection cycle *)

Section CycleProperties.
Context `{RT : JsRuntime num}.
Variable clock : nat -> Z.

(** C6. With no store client, a full cycle returns normally, issues no
    request and writes nothing: the registry, and so its exposition, is the
    same before and after (the time of the last collection is not touched
    either). *)
Theorem collectAllMetrics_no_store (s : State num) :
  exists s' : State num,
    App.collectAllMetrics clock [] s = (Ok tt, s')
    /\ register s' = register s
    /\ render (register s') = render (register s)
    /\ requests s' = requests s
    /\ lastCollectionTime s' = lastCollectionTime s.
Proof.
  unfold App.collectAllMetrics. munfold. simpl.
  eexists. split; [reflexivity|]. simpl. repeat split; reflexivity.
Qed.

End CycleProperties.

(** ** The cells written by the product reduction *)

Section ProductWrites.
Context `{RT : JsRuntime num}.
Import Collector.

(** The writes of the product reduction: all of them when every count is a
    number; else the total and the by-status cells before the first count
    that is not a number, and a [TypeError]. *)
Lemma write_product_metrics_eq (storeId storeName : string) (n_products : nat)
    (acc : ProductAcc) (s : State num) :
  write_product_metrics storeId storeName n_products acc s
  = (if numeric (pa_statusCounts acc) then Ok tt else Throw not_a_number,
     with_register s
       (set_gauges (product_writes storeId storeName n_products acc) (register s))).
Proof.
  unfold write_product_metrics, product_writes.
  erewrite mbind_ok by apply gauge_set_eq.
  pose proof (forEach_gauge_set_count totalProductsGauge
                (fun status => [storeId; storeName; status])
                (status_entries (pa_statusCounts acc))) as Hstatus.
  rewrite numeric_status_entries in Hstatus.
  destruct (numeric (pa_statusCounts acc)) eqn:Hnum.
  - erewrite mbind_ok by apply Hstatus.
    erewrite mbind_ok by apply gauge_set_eq.
    rewrite gauge_set_eq.
    repeat rewrite with_register_twice. repeat rewrite register_with_register.
    repeat rewrite set_gauges_app. reflexivity.
  - erewrite mbind_throw by apply Hstatus.
    repeat rewrite with_register_twice. repeat rewrite register_with_register.
    rewrite app_nil_r. repeat rewrite set_gauges_app. reflexivity.
Qed.

End ProductWrites.

(** One step of a computation whose first action is a clock reading, a log
    line or a write to the registry. *)
Ltac mstep :=
  lazymatch goal with
  | |- context [mbind _ ?m _] =>
      lazymatch m with
      | Date_now _ => erewrite mbind_ok by apply Date_now_eq
      | logger _ _ => erewrite mbind_ok by apply logger_eq
      | gauge_set _ _ _ => erewrite mbind_ok by apply gauge_set_eq
      | counter_inc _ _ => erewrite mbind_ok by apply counter_inc_eq
      end
  end.

(** ** Pagination *)

Section Pagination.
Context {num : Type}.

Lemma defaultParams_pageParams (params : Params) (pg : nat) :
  Client.defaultParams (Client.pageParams params pg) = page_request params pg.
Proof.
  unfold Client.defaultParams, Client.pageParams, page_request, spread. simpl.
  destruct (after params); reflexivity.
Qed.

(** One call of [getOrders]: one request; the response is passed on. *)
Lemma getOrders_eq (c : WooCommerceClient) (p : Params) (s : State num) :
  exists lgs : list (Level * string),
    Client.getOrders c p s
    = (get_orders (api c) (Client.defaultParams p),
       with_trace s [orders_request c (Client.defaultParams p)] lgs).
Proof.
  unfold Client.getOrders, Client.api_get_orders. munfold. simpl.
  destruct (get_orders (api c) (Client.defaultParams p)) as [data|e]; simpl;
    eexists; unfold with_trace; simpl; rewrite <- ?app_assoc; simpl; reflexivity.
Qed.

Lemma getProducts_eq (c : WooCommerceClient) (p : Params) (s : State num) :
  exists lgs : list (Level * string),
    Client.getProducts c p s
    = (get_products (api c) (Client.defaultParams p),
       with_trace s [products_request c (Client.defaultParams p)] lgs).
Proof.
  unfold Client.getProducts, Client.api_get_products. munfold. simpl.
  destruct (get_products (api c) (Client.defaultParams p)) as [data|e]; simpl;
    eexists; unfold with_trace; simpl; rewrite <- ?app_assoc; simpl; reflexivity.
Qed.

Lemma getCustomers_eq (c : WooCommerceClient) (p : Params) (s : State num) :
  exists lgs : list (Level * string),
    Client.getCustomers c p s
    = (get_customers (api c) (Client.defaultParams p),
       with_trace s [customers_request c (Client.defaultParams p)] lgs).
Proof.
  unfold Client.getCustomers, Client.api_get_customers. munfold. simpl.
  destruct (get_customers (api c) (Client.defaultParams p)) as [data|e]; simpl;
    eexists; unfold with_trace; simpl; rewrite <- ?app_assoc; simpl; reflexivity.
Qed.

End Pagination.

Section PaginationLoops.
Context {num : Type}.

(** The loops, unfolded once. *)
Lemma getAllOrders_loop_step (c : WooCommerceClient) (params : Params) (pg : nat)
    (allOrders : list Order) (s : State num) :
  Client.getAllOrders_loop c params pg allOrders s
  = match Client.getOrders c (Client.pageParams params pg) s with
    | (Throw e, s1) => (Throw e, s1)
    | (Ok orders, s1) =>
        if Nat.eqb (length orders) 0 then (Ok allOrders, s1)
        else if decide (pg + 1 <= 100)%nat
             then Client.getAllOrders_loop c params (pg + 1) (allOrders ++ orders) s1
             else (Ok (allOrders ++ orders)%list,
                   with_trace s1 []
                     [(Warn, "Reached page limit (100) for orders in store " +:+ storeId c)])
    end.
Proof.
  rewrite Client.getAllOrders_loop_equation_1.
  destruct (Client.getOrders c (Client.pageParams params pg) s) as [[orders|e] s1];
    simpl; [|reflexivity].
  destruct (Nat.eqb (length orders) 0); simpl; [reflexivity|].
  destruct (le_lt_dec (pg + 1) 100), (decide (pg + 1 <= 100)%nat); simpl;
    try lia; try reflexivity.
  unfold with_trace. simpl. rewrite app_nil_r. reflexivity.
Qed.

Lemma getAllProducts_loop_step (c : WooCommerceClient) (params : Params) (pg : nat)
    (allProducts : list Product) (s : State num) :
  Client.getAllProducts_loop c params pg allProducts s
  = match Client.getProducts c (Client.pageParams params pg) s with
    | (Throw e, s1) => (Throw e, s1)
    | (Ok products, s1) =>
        if Nat.eqb (length products) 0 then (Ok allProducts, s1)
        else if decide (pg + 1 <= 100)%nat
             then Client.getAllProducts_loop c params (pg + 1) (allProducts ++ products) s1
             else (Ok (allProducts ++ products)%list,
                   with_trace s1 []
                     [(Warn, "Reached page limit (100) for products in store " +:+ storeId c)])
    end.
Proof.
  rewrite Client.getAllProducts_loop_equation_1.
  destruct (Client.getProducts c (Client.pageParams params pg) s) as [[products|e] s1];
    simpl; [|reflexivity].
  destruct (Nat.eqb (length products) 0); simpl; [reflexivity|].
  destruct (le_lt_dec (pg + 1) 100), (decide (pg + 1 <= 100)%nat); simpl;
    try lia; try reflexivity.
  unfold with_trace. simpl. rewrite app_nil_r. reflexivity.
Qed.

End PaginationLoops.

(** The argument shared by the two paginated fetches: a loop over pages
    that stops on an empty page, on a failure, or when the next page would
    be past 100. *)
Section PagedLoop.
Context {num A : Type}.
Variable fetch : nat -> M num (list A).
Variable loop : nat -> list A -> M num (list A).
Variable page_of : nat -> Result (list A).
Variable req : nat -> Request.
Variable advisory : Level * string.

Hypothesis fetch_eq : forall (pg : nat) (s : State num),
  exists lgs, fetch pg s = (page_of pg, with_trace s [req pg] lgs).

Hypothesis loop_unfold : forall (pg : nat) (acc : list A) (s : State num),
  loop pg acc s
  = match fetch pg s with
    | (Throw e, s1) => (Throw e, s1)
    | (Ok l, s1) =>
        if Nat.eqb (length l) 0 then (Ok acc, s1)
        else if decide (pg + 1 <= 100)%nat
             then loop (pg + 1)%nat (acc ++ l)%list s1
             else (Ok (acc ++ l)%list, with_trace s1 [] [advisory])
    end.

(** The result of the loop does not depend on the state it starts in, and
    the loop only adds requests and log lines to it. *)
Lemma loop_trace (k pg : nat) (acc : list A) (s : State num) :
  (pg + k = 101)%nat ->
  exists reqs lgs, (loop pg acc s).2 = with_trace s reqs lgs.
Proof.
  revert pg acc s. induction k as [|k IH]; intros pg acc s Hk.
  - rewrite loop_unfold. destruct (fetch_eq pg s) as [lgs ->].
    destruct (page_of pg) as [l|e]; [|eauto].
    destruct (Nat.eqb (length l) 0); [eauto|].
    destruct (decide (pg + 1 <= 100)%nat); [lia|].
    rewrite with_trace_twice. eauto.
  - rewrite loop_unfold. destruct (fetch_eq pg s) as [lgs ->].
    destruct (page_of pg) as [l|e]; [|eauto].
    destruct (Nat.eqb (length l) 0); [eauto|].
    destruct (decide (pg + 1 <= 100)%nat).
    + destruct (IH (pg + 1)%nat (acc ++ l)%list (with_trace s [req pg] lgs))
        as (reqs & lgs' & ->); [lia|].
      rewrite with_trace_twice. eauto.
    + rewrite with_trace_twice. eauto.
Qed.

Lemma loop_result_indep (k pg : nat) (acc : list A) (s s0 : State num) :
  (pg + k = 101)%nat -> (loop pg acc s).1 = (loop pg acc s0).1.
Proof.
  revert pg acc s s0. induction k as [|k IH]; intros pg acc s s0 Hk;
    rewrite (loop_unfold pg acc s), (loop_unfold pg acc s0);
    destruct (fetch_eq pg s) as [lgs ->]; destruct (fetch_eq pg s0) as [lgs0 ->];
    (destruct (page_of pg) as [l|e]; [|reflexivity]);
    (destruct (Nat.eqb (length l) 0); [reflexivity|]);
    (destruct (decide (pg + 1 <= 100)%nat); [|reflexivity]).
  - lia.
  - apply IH. lia.
Qed.

(** [n] non-empty pages, followed by an empty page or by the limit. *)
Lemma loop_pages (n : nat) :
  (n <= 100)%nat ->
  (forall j, (1 <= j <= n)%nat -> nonempty_page page_of j) ->
  (n = 100%nat \/ page_of (n + 1) = Ok []) ->
  forall (k pg : nat) (acc : list A) (s : State num),
    (pg + k = n + 1)%nat -> (1 <= pg <= 100)%nat ->
    exists lgs,
      loop pg acc s
      = (Ok (acc ++ concat (records_of page_of <$> seq pg k))%list,
         with_trace s (req <$> seq pg (if decide (n = 100%nat) then k else S k)) lgs)
      /\ (n = 100%nat -> advisory ∈ lgs).
Proof.
  intros Hn Hfull Hstop. induction k as [|k IH]; intros pg acc s Hk Hpg.
  - assert (Hlt : (n < 100)%nat) by lia.
    destruct Hstop as [->|Hempty]; [lia|].
    replace (n + 1)%nat with pg in Hempty by lia.
    rewrite loop_unfold. destruct (fetch_eq pg s) as [lgs ->]. rewrite Hempty. simpl.
    destruct (decide (n = 100%nat)); [lia|].
    simpl. rewrite app_nil_r. exists lgs. split; [reflexivity|lia].
  - destruct (Hfull pg) as (l & Hl & Hne); [lia|].
    rewrite loop_unfold. destruct (fetch_eq pg s) as [lgs ->]. rewrite Hl.
    assert (Hlen : Nat.eqb (length l) 0 = false)
      by (destruct l; [congruence|reflexivity]).
    rewrite Hlen.
    assert (Hrec : records_of page_of pg = l)
      by (unfold records_of; rewrite Hl; reflexivity).
    destruct (decide (pg + 1 <= 100)%nat) as [Hle|Hgt].
    + destruct (IH (pg + 1)%nat (acc ++ l)%list (with_trace s [req pg] lgs))
        as (lgs' & -> & Hadv); [lia|lia|].
      rewrite with_trace_twice. exists (lgs ++ lgs')%list.
      replace (pg + 1)%nat with (S pg) by lia.
      split.
      * f_equal.
        -- simpl. rewrite Hrec, <- app_assoc. reflexivity.
        -- destruct (decide (n = 100%nat)); reflexivity.
      * intros H100. apply elem_of_app. right. auto.
    + assert (n = 100%nat) as -> by lia. assert (k = 0%nat) as -> by lia.
      rewrite with_trace_twice. exists (lgs ++ [advisory])%list.
      destruct (decide (100%nat = 100%nat)); [|congruence].
      split.
      * simpl. rewrite Hrec, ?app_nil_r. reflexivity.
      * intros _. apply elem_of_app. right. apply list_elem_of_singleton. reflexivity.
Qed.

End PagedLoop.

Section PaginationProperties.
Context {num : Type}.

Lemma orders_fetch_eq (c : WooCommerceClient) (params : Params) (pg : nat) (s : State num) :
  exists lgs,
    Client.getOrders c (Client.pageParams params pg) s
    = (orders_page c params pg,
       with_trace s [orders_request c (page_request params pg)] lgs).
Proof.
  destruct (getOrders_eq c (Client.pageParams params pg) s) as [lgs H].
  rewrite defaultParams_pageParams in H. eauto.
Qed.

Lemma products_fetch_eq (c : WooCommerceClient) (params : Params) (pg : nat)
    (s : State num) :
  exists lgs,
    Client.getProducts c (Client.pageParams params pg) s
    = (products_page c params pg,
       with_trace s [products_request c (page_request params pg)] lgs).
Proof.
  destruct (getProducts_eq c (Client.pageParams params pg) s) as [lgs H].
  rewrite defaultParams_pageParams in H. eauto.
Qed.

(** The outer [try] of [getAllOrders] passes the outcome of the loop on and
    only adds log lines. *)
Lemma getAllOrders_of_loop (c : WooCommerceClient) (params : Params) (s : State num) :
  exists lgs,
    Client.getAllOrders c params s
    = ((Client.getAllOrders_loop c params 1 [] s).1,
       with_trace (Client.getAllOrders_loop c params 1 [] s).2 [] lgs).
Proof.
  unfold Client.getAllOrders. munfold.
  destruct (Client.getAllOrders_loop c params 1 [] s) as [[l|e] s1]; simpl;
    eexists; unfold with_trace; rewrite app_nil_r; reflexivity.
Qed.

Lemma getAllProducts_of_loop (c : WooCommerceClient) (params : Params) (s : State num) :
  exists lgs,
    Client.getAllProducts c params s
    = ((Client.getAllProducts_loop c params 1 [] s).1,
       with_trace (Client.getAllProducts_loop c params 1 [] s).2 [] lgs).
Proof.
  unfold Client.getAllProducts. munfold.
  destruct (Client.getAllProducts_loop c params 1 [] s) as [[l|e] s1]; simpl;
    eexists; unfold with_trace; rewrite app_nil_r; reflexivity.
Qed.

(** C2. Pagination of [getAllOrders] and [getAllProducts].  When the pages
    1 to [n] are non-empty and either [n] is 100 or page [n + 1] is empty,
    the fetch returns normally with the records of the pages 1 to [n] in
    order, having requested, with page size 100, exactly the pages 1 to 100
    when [n] is 100 (the advisory is then logged) and exactly the pages 1 to
    [n + 1] otherwise: it stops at the first empty page.  The registry is not
    touched. *)
Theorem pagination_ceiling (c : WooCommerceClient) (params : Params) (s : State num)
    (n : nat) :
  (n <= 100)%nat ->
  ((forall j, (1 <= j <= n)%nat -> exists l, orders_page c params j = Ok l /\ l <> []) ->
   (n = 100%nat \/ orders_page c params (n + 1) = Ok []) ->
   exists s' : State num,
     Client.getAllOrders c params s
     = (Ok (concat ((fun pg => match orders_page c params pg with
                               | Ok l => l
                               | Throw _ => []
                               end) <$> seq 1 n)), s')
     /\ requests s'
        = (requests s
           ++ ((fun pg => orders_request c (page_request params pg))
                 <$> seq 1 (if decide (n = 100%nat) then 100 else n + 1)))%list
     /\ register s' = register s
     /\ (n = 100%nat ->
         (Warn, "Reached page limit (100) for orders in store " +:+ storeId c) ∈ logs s'))
  /\
  ((forall j, (1 <= j <= n)%nat -> exists l, products_page c params j = Ok l /\ l <> []) ->
   (n = 100%nat \/ products_page c params (n + 1) = Ok []) ->
   exists s' : State num,
     Client.getAllProducts c params s
     = (Ok (concat ((fun pg => match products_page c params pg with
                               | Ok l => l
                               | Throw _ => []
                               end) <$> seq 1 n)), s')
     /\ requests s'
        = (requests s
           ++ ((fun pg => products_request c (page_request params pg))
                 <$> seq 1 (if decide (n = 100%nat) then 100 else n + 1)))%list
     /\ register s' = register s
     /\ (n = 100%nat ->
         (Warn, "Reached page limit (100) for products in store " +:+ storeId c) ∈ logs s')).
Proof.
  intros Hn. split; intros Hfull Hstop.
  - destruct (loop_pages (fun pg => Client.getOrders c (Client.pageParams params pg))
                (Client.getAllOrders_loop c params) (orders_page c params)
                (fun pg => orders_request c (page_request params pg))
                (Warn, "Reached page limit (100) for orders in store " +:+ storeId c)
                (orders_fetch_eq c params) (getAllOrders_loop_step c params)
                n Hn Hfull Hstop n 1%nat [] s) as (lgs & Hloop & Hadv); [lia|lia|].
    destruct (getAllOrders_of_loop c params s) as [lgs' ->]. rewrite Hloop.
    eexists. split; [reflexivity|]. cbn [fst snd]. rewrite with_trace_twice.
    unfold with_trace; simpl. rewrite app_nil_r.
    split; [|split; [reflexivity|]].
    + destruct (decide (n = 100%nat)) as [->|]; [reflexivity|].
      replace (n + 1)%nat with (S n) by lia. reflexivity.
    + intros H100. apply elem_of_app. right. apply elem_of_app. left. auto.
  - destruct (loop_pages (fun pg => Client.getProducts c (Client.pageParams params pg))
                (Client.getAllProducts_loop c params) (products_page c params)
                (fun pg => products_request c (page_request params pg))
                (Warn, "Reached page limit (100) for products in store " +:+ storeId c)
                (products_fetch_eq c params) (getAllProducts_loop_step c params)
                n Hn Hfull Hstop n 1%nat [] s) as (lgs & Hloop & Hadv); [lia|lia|].
    destruct (getAllProducts_of_loop c params s) as [lgs' ->]. rewrite Hloop.
    eexists. split; [reflexivity|]. cbn [fst snd]. rewrite with_trace_twice.
    unfold with_trace; simpl. rewrite app_nil_r.
    split; [|split; [reflexivity|]].
    + destruct (decide (n = 100%nat)) as [->|]; [reflexivity|].
      replace (n + 1)%nat with (S n) by lia. reflexivity.
    + intros H100. apply elem_of_app. right. apply elem_of_app. left. auto.
Qed.

End PaginationProperties.

Section PaginationExamples.
Import Examples.

(** The never-empty store: 100 pages are requested, 100 records returned. *)
Lemma pagination_ceiling_witness :
  (100 <= 100)%nat
  /\ (exists l s', Client.getAllOrders endless no_params s_init = (Ok l, s')
                   /\ length l = 100%nat /\ length (requests s') = 100%nat)
  /\ (exists l s', Client.getAllProducts endless no_params s_init = (Ok l, s')
                   /\ length l = 100%nat /\ length (requests s') = 100%nat).
Proof.
  split; [lia|].
  destruct (pagination_ceiling endless no_params s_init 100 (le_n 100)) as [HO HP].
  split.
  - destruct HO as (s' & Heq & Hreq & _).
    + intros j _. eexists. split; [reflexivity|discriminate].
    + left. reflexivity.
    + eexists _, s'. split; [exact Heq|]. split; [reflexivity|].
      rewrite Hreq. reflexivity.
  - destruct HP as (s' & Heq & Hreq & _).
    + intros j _. eexists. split; [reflexivity|discriminate].
    + left. reflexivity.
    + eexists _, s'. split; [exact Heq|]. split; [reflexivity|].
      rewrite Hreq. reflexivity.
Defined.

End PaginationExamples.

(** ** The customer reduction *)

Section CustomerLoop.
Context `{RT : JsRuntime num}.
Import Collector.

Lemma customers_loop_step (c : WooCommerceClient) (pg totalCustomers : nat)
    (s : State num) :
  customers_loop c pg totalCustomers s
  = if decide (pg <= 10)%nat
    then match Client.getCustomers c (customers_walk_params pg) s with
         | (Throw e, s1) => (Throw e, s1)
         | (Ok pageCustomers, s1) =>
             if Nat.eqb (length pageCustomers) 0 then (Ok totalCustomers, s1)
             else customers_loop c (pg + 1) (totalCustomers + length pageCustomers)%nat s1
         end
    else (Ok totalCustomers, s).
Proof.
  rewrite customers_loop_equation_1. unfold customers_walk_params.
  destruct (le_lt_dec pg 10), (decide (pg <= 10)%nat); simpl; try lia; [|reflexivity].
  destruct (Client.getCustomers c _ s) as [[pc|e] s1]; simpl; [|reflexivity].
  destruct (Nat.eqb (length pc) 0); reflexivity.
Qed.

Lemma customers_fetch_eq (c : WooCommerceClient) (pg : nat) (s : State num) :
  exists lgs,
    Client.getCustomers c (customers_walk_params pg) s
    = (customers_page c pg, with_trace s [customers_request c (customers_walk_params pg)] lgs).
Proof. apply (getCustomers_eq c (customers_walk_params pg) s). Qed.

(** The walk reaches page [k] and the fetch of that page fails. *)
Lemma customers_loop_fails (c : WooCommerceClient) (k : nat) (e : Error) :
  (k <= 10)%nat -> customers_page c k = Throw e ->
  forall (d pg total : nat) (s : State num),
    (pg + d = k)%nat ->
    (forall j, (pg <= j < k)%nat -> exists l, customers_page c j = Ok l /\ l <> []) ->
    exists lgs,
      customers_loop c pg total s
      = (Throw e,
         with_trace s ((fun j => customers_request c (customers_walk_params j))
                         <$> seq pg (S d)) lgs).
Proof.
  intros Hk Hfail. induction d as [|d IH]; intros pg total s Hd Hfull;
    rewrite customers_loop_step; (destruct (decide (pg <= 10)%nat) as [Hle|]; [|lia]);
    destruct (customers_fetch_eq c pg s) as [lgs ->].
  - replace pg with k by lia. rewrite Hfail. eauto.
  - destruct (Hfull pg) as (l & -> & Hne); [lia|].
    destruct l as [|x l]; [congruence|]. cbn [length Nat.eqb].
    destruct (IH (pg + 1)%nat (total + S (length l))%nat
                 (with_trace s [customers_request c (customers_walk_params pg)] lgs))
      as [lgs' ->]; [lia|intros j Hj; apply Hfull; lia|].
    rewrite with_trace_twice. replace (pg + 1)%nat with (S pg) by lia. eauto.
Qed.

(** The pages up to the tenth are all non-empty: the walk stops there. *)
Lemma customers_loop_capped (c : WooCommerceClient) :
  forall (d pg total : nat) (s : State num),
    (pg + d = 11)%nat ->
    (forall j, (pg <= j <= 10)%nat -> exists l, customers_page c j = Ok l /\ l <> []) ->
    exists lgs,
      customers_loop c pg total s
      = (Ok (total + length (concat ((fun j => match customers_page c j with
                                               | Ok l => l
                                               | Throw _ => []
                                               end) <$> seq pg d)))%nat,
         with_trace s ((fun j => customers_request c (customers_walk_params j))
                         <$> seq pg d) lgs).
Proof.
  induction d as [|d IH]; intros pg total s Hd Hfull; rewrite customers_loop_step.
  - destruct (decide (pg <= 10)%nat); [lia|]. exists []. simpl.
    rewrite with_trace_nil. f_equal. f_equal. lia.
  - destruct (decide (pg <= 10)%nat) as [Hle|]; [|lia].
    destruct (customers_fetch_eq c pg s) as [lgs ->].
    destruct (Hfull pg) as (l & Hl & Hne); [lia|]. rewrite Hl.
    destruct l as [|x l]; [congruence|]. cbn [length Nat.eqb].
    destruct (IH (pg + 1)%nat (total + S (length l))%nat
                 (with_trace s [customers_request c (customers_walk_params pg)] lgs))
      as [lgs' ->]; [lia|intros j Hj; apply Hfull; lia|].
    rewrite with_trace_twice. replace (pg + 1)%nat with (S pg) by lia.
    exists (lgs ++ lgs')%list. f_equal. f_equal.
    cbn [seq fmap list_fmap concat]. rewrite Hl, length_app. simpl. lia.
Qed.

End CustomerLoop.

Section CustomerProperties.
Context `{RT : JsRuntime num}.
Variable clock : nat -> Z.
Import Collector.

Lemma count_all_customers_fails (c : WooCommerceClient) (k : nat) (e : Error)
    (s : State num) :
  (1 <= k <= 10)%nat -> customers_page c k = Throw e ->
  (forall j, (1 <= j < k)%nat ->
     exists l, customers_page c j = Ok l /\ l <> [] /\ (j = 1%nat -> length l = 100%nat)) ->
  exists lgs,
    count_all_customers c s
    = (Throw e,
       with_trace s ((fun j => customers_request c (customers_walk_params j)) <$> seq 1 k)
                  lgs).
Proof.
  intros Hk Hfail Hwalk. unfold count_all_customers.
  destruct (getCustomers_eq c {| page := None; per_page := Some 100%nat; after := None |} s)
    as [lgs Hg].
  change (Client.defaultParams _) with (customers_walk_params 1) in Hg.
  fold (customers_page c 1) in Hg.
  destruct (decide (k = 1%nat)) as [->|Hk1].
  - rewrite Hfail in Hg. erewrite mbind_throw by exact Hg. eauto.
  - destruct (Hwalk 1%nat) as (l & Hl & Hne & Hlen); [lia|]. rewrite Hl in Hg.
    erewrite mbind_ok by exact Hg. rewrite Hlen by reflexivity. cbn [Nat.eqb].
    destruct (customers_loop_fails c k e ltac:(lia) Hfail (k - 2) 2%nat 100%nat
                (with_trace s [customers_request c (customers_walk_params 1)] lgs))
      as [lgs' ->]; [lia| |].
    + intros j Hj. destruct (Hwalk j) as (l' & Hl' & Hne' & _); [lia|]. eauto.
    + rewrite with_trace_twice. replace (S (k - 2)) with (k - 1)%nat by lia.
      exists (lgs ++ lgs')%list. do 2 f_equal.
      destruct k as [|k']; [lia|]. simpl. rewrite Nat.sub_0_r. reflexivity.
Qed.

Lemma count_all_customers_capped (c : WooCommerceClient) (s : State num) :
  (forall j, (1 <= j <= 10)%nat ->
     exists l, customers_page c j = Ok l /\ l <> [] /\ (j = 1%nat -> length l = 100%nat)) ->
  exists lgs,
    count_all_customers c s
    = (Ok (length (concat ((fun j => match customers_page c j with
                                     | Ok l => l
                                     | Throw _ => []
                                     end) <$> seq 1 10))),
       with_trace s ((fun j => customers_request c (customers_walk_params j)) <$> seq 1 10)
                  lgs).
Proof.
  intros Hwalk. unfold count_all_customers.
  destruct (getCustomers_eq c {| page := None; per_page := Some 100%nat; after := None |} s)
    as [lgs Hg].
  change (Client.defaultParams _) with (customers_walk_params 1) in Hg.
  fold (customers_page c 1) in Hg.
  destruct (Hwalk 1%nat) as (l & Hl & Hne & Hlen); [lia|]. rewrite Hl in Hg.
  erewrite mbind_ok by exact Hg. rewrite Hlen by reflexivity. cbn [Nat.eqb].
  destruct (customers_loop_capped c 9 2%nat 100%nat
              (with_trace s [customers_request c (customers_walk_params 1)] lgs))
    as [lgs' ->]; [lia| |].
  - intros j Hj. destruct (Hwalk j) as (l' & Hl' & Hne' & _); [lia|]. eauto.
  - rewrite with_trace_twice. exists (lgs ++ lgs')%list. f_equal. f_equal.
    change (seq 1 10) with (1%nat :: seq 2 9). rewrite fmap_cons. cbn [concat].
    rewrite Hl, length_app, Hlen by reflexivity. reflexivity.
Qed.

(** C3, as the code has it.  The reduction first fetches one customer
    (page size 1).  The count is then attempted by a walk over pages of 100
    customers, at most 10 of them.  When the fetch of a page of the walk
    fails, the reduction still returns normally, increments no error
    counter, and sets the gauge to the number of customers of the first
    fetch, the one of page size 1.  When the ten pages are all non-empty the
    walk stops after the tenth and the gauge is the number of customers on
    them. *)
Theorem customer_count_fallback (c : WooCommerceClient) (s : State num)
    (customers : list Customer) :
  get_customers (api c) customers_probe_params = Ok customers ->
  (forall (k : nat) (e : Error),
     (1 <= k <= 10)%nat -> customers_page c k = Throw e ->
     (forall j, (1 <= j < k)%nat ->
        exists l, customers_page c j = Ok l /\ l <> []
                  /\ (j = 1%nat -> length l = 100%nat)) ->
     exists s' : State num,
       collectCustomerMetrics clock c s = (Ok tt, s')
       /\ gauges (register s') !! (totalCustomersGauge, [storeId c; storeName c])
          = Some (of_nat (length customers))
       /\ counters (register s') = counters (register s)
       /\ requests s'
          = (requests s
             ++ customers_request c customers_probe_params
                :: ((fun j => customers_request c (customers_walk_params j))
                      <$> seq 1 k))%list)
  /\
  ((forall j, (1 <= j <= 10)%nat ->
      exists l, customers_page c j = Ok l /\ l <> []
                /\ (j = 1%nat -> length l = 100%nat)) ->
   exists s' : State num,
     collectCustomerMetrics clock c s = (Ok tt, s')
     /\ gauges (register s') !! (totalCustomersGauge, [storeId c; storeName c])
        = Some (of_nat (length (concat ((fun j => match customers_page c j with
                                                  | Ok l => l
                                                  | Throw _ => []
                                                  end) <$> seq 1 10))))
     /\ counters (register s') = counters (register s)
     /\ requests s'
        = (requests s
           ++ customers_request c customers_probe_params
              :: ((fun j => customers_request c (customers_walk_params j))
                    <$> seq 1 10))%list).
Proof.
  intros Hprobe.
  assert (Hstart : forall s0 : State num, exists lgs,
            Client.getCustomers c {| page := None; per_page := Some 1%nat; after := None |} s0
            = (Ok customers, with_trace s0 [customers_request c customers_probe_params] lgs)).
  { intros s0.
    destruct (getCustomers_eq c {| page := None; per_page := Some 1%nat; after := None |} s0)
      as [lgs Hg].
    change (Client.defaultParams _) with customers_probe_params in Hg.
    rewrite Hprobe in Hg. eauto. }
  split.
  - intros k e Hk Hfail Hwalk.
    destruct (collectCustomerMetrics clock c s) as [r s'] eqn:Hrun. revert Hrun.
    unfold collectCustomerMetrics. mstep.
    match goal with
    | |- try_catch ?body _ ?s0 = _ -> _ =>
        assert (Hbody : exists sf, body s0 = (Ok tt, sf)
                  /\ gauges (register sf) !! (totalCustomersGauge, [storeId c; storeName c])
                     = Some (of_nat (length customers))
                  /\ counters (register sf) = counters (register s)
                  /\ requests sf
                     = (requests s
                        ++ customers_request c customers_probe_params
                           :: ((fun j => customers_request c (customers_walk_params j))
                                 <$> seq 1 k))%list)
    end.
    { mstep.
      match goal with
      | |- context [mbind _ _ ?s0] => destruct (Hstart s0) as [lgs0 Hg0]
      end.
      erewrite mbind_ok by exact Hg0. do 2 mstep.
      match goal with
      | |- context [mbind _ (try_catch _ _) ?s0] =>
          destruct (count_all_customers_fails c k e s0 Hk Hfail Hwalk) as [lgs1 Hw]
      end.
      erewrite mbind_ok
        by (erewrite try_catch_throw by exact Hw; mstep; reflexivity).
      mstep. rewrite logger_eq.
      eexists. split; [reflexivity|]. cbn. rewrite lookup_insert_eq.
      split; [reflexivity|]. split; [reflexivity|].
      rewrite <- !app_assoc. rewrite !app_nil_r. reflexivity. }
    destruct Hbody as (sf & Hbody & Hfacts).
    erewrite try_catch_ok by exact Hbody. intros [= <- <-]. eauto.
  - intros Hwalk.
    destruct (collectCustomerMetrics clock c s) as [r s'] eqn:Hrun. revert Hrun.
    unfold collectCustomerMetrics. mstep.
    match goal with
    | |- try_catch ?body _ ?s0 = _ -> _ =>
        assert (Hbody : exists sf, body s0 = (Ok tt, sf)
                  /\ gauges (register sf) !! (totalCustomersGauge, [storeId c; storeName c])
                     = Some (of_nat (length (concat
                          ((fun j => match customers_page c j with
                                     | Ok l => l
                                     | Throw _ => []
                                     end) <$> seq 1 10))))
                  /\ counters (register sf) = counters (register s)
                  /\ requests sf
                     = (requests s
                        ++ customers_request c customers_probe_params
                           :: ((fun j => customers_request c (customers_walk_params j))
                                 <$> seq 1 10))%list)
    end.
    { mstep.
      match goal with
      | |- context [mbind _ _ ?s0] => destruct (Hstart s0) as [lgs0 Hg0]
      end.
      erewrite mbind_ok by exact Hg0. do 2 mstep.
      match goal with
      | |- context [mbind _ (try_catch _ _) ?s0] =>
          destruct (count_all_customers_capped c s0 Hwalk) as [lgs1 Hw]
      end.
      erewrite mbind_ok by (erewrite try_catch_ok by exact Hw; reflexivity).
      mstep. rewrite logger_eq.
      eexists. split; [reflexivity|]. cbn -[seq]. rewrite lookup_insert_eq.
      split; [reflexivity|]. split; [reflexivity|].
      rewrite <- !app_assoc. rewrite !app_nil_r. reflexivity. }
    destruct Hbody as (sf & Hbody & Hfacts).
    erewrite try_catch_ok by exact Hbody. intros [= <- <-]. eauto.
Qed.

End CustomerProperties.

Section CustomerExamples.
Import Collector Examples.

(** The first page of 100 customers is full and the second page fails: the
    gauge is set to 1, the size of the page-size-1 fetch, not to the 100
    customers of the first page of the walk. *)
Lemma customer_fallback_uses_probe_count :
  exists l : list Customer,
    customers_page flaky_customers 1 = Ok l
    /\ length l = 100%nat
    /\ customers_page flaky_customers 2 = Throw down
    /\ (collectCustomerMetrics clock0 flaky_customers s_init).1 = Ok tt
    /\ gauges (register (collectCustomerMetrics clock0 flaky_customers s_init).2)
         !! (totalCustomersGauge, ["store1"; "Main"]) = Some 1
    /\ gauges (register (collectCustomerMetrics clock0 flaky_customers s_init).2)
         !! (totalCustomersGauge, ["store1"; "Main"]) <> Some (Z.of_nat (length l)).
Proof.
  eexists. split; [reflexivity|]. split; [reflexivity|]. split; [reflexivity|].
  split; [vm_compute; reflexivity|].
  assert (H1 : gauges (register (collectCustomerMetrics clock0 flaky_customers s_init).2)
                 !! (totalCustomersGauge, ["store1"; "Main"]) = Some 1)
    by (vm_compute; reflexivity).
  split; [exact H1|]. rewrite H1. vm_compute. discriminate.
Qed.

Lemma customer_count_fallback_witness :
  get_customers (api flaky_customers) customers_probe_params = Ok (some_customers 1)
  /\ exists s' : State Z,
       collectCustomerMetrics clock0 flaky_customers s_init = (Ok tt, s')
       /\ gauges (register s') !! (totalCustomersGauge, ["store1"; "Main"]) = Some 1.
Proof.
  split; [reflexivity|].
  destruct (customer_count_fallback clock0 flaky_customers s_init (some_customers 1) eq_refl)
    as [Hfail _].
  destruct (Hfail 2%nat down) as (s' & Hrun & Hgauge & _).
  - lia.
  - reflexivity.
  - intros j Hj. assert (j = 1%nat) as -> by lia.
    eexists. split; [reflexivity|]. split; [discriminate|]. intros _. reflexivity.
  - exists s'. split; [exact Hrun|exact Hgauge].
Defined.

End CustomerExamples.

(** ** What a paginated fetch does to the state *)

Section FetchRuns.
Context {num : Type}.

(** The outcome of [getAllOrders] depends on the upstream alone; the state
    only gains requests and log lines. *)
Lemma getAllOrders_run (c : WooCommerceClient) (params : Params) (s s0 : State num) :
  exists reqs lgs,
    Client.getAllOrders c params s
    = ((Client.getAllOrders c params s0).1, with_trace s reqs lgs).
Proof.
  destruct (getAllOrders_of_loop c params s) as [lgs ->].
  destruct (getAllOrders_of_loop c params s0) as [lgs0 ->]. cbn [fst].
  destruct (loop_trace (fun pg => Client.getOrders c (Client.pageParams params pg))
              (Client.getAllOrders_loop c params) (orders_page c params)
              (fun pg => orders_request c (page_request params pg))
              (Warn, "Reached page limit (100) for orders in store " +:+ storeId c)
              (orders_fetch_eq c params) (getAllOrders_loop_step c params)
              100 1%nat [] s eq_refl) as (reqs & lgs1 & ->).
  rewrite (loop_result_indep (fun pg => Client.getOrders c (Client.pageParams params pg))
             (Client.getAllOrders_loop c params) (orders_page c params)
             (fun pg => orders_request c (page_request params pg))
             (Warn, "Reached page limit (100) for orders in store " +:+ storeId c)
             (orders_fetch_eq c params) (getAllOrders_loop_step c params)
             100 1%nat [] s s0 eq_refl).
  rewrite with_trace_twice. eauto.
Qed.

Lemma getAllProducts_run (c : WooCommerceClient) (params : Params) (s s0 : State num) :
  exists reqs lgs,
    Client.getAllProducts c params s
    = ((Client.getAllProducts c params s0).1, with_trace s reqs lgs).
Proof.
  destruct (getAllProducts_of_loop c params s) as [lgs ->].
  destruct (getAllProducts_of_loop c params s0) as [lgs0 ->]. cbn [fst].
  destruct (loop_trace (fun pg => Client.getProducts c (Client.pageParams params pg))
              (Client.getAllProducts_loop c params) (products_page c params)
              (fun pg => products_request c (page_request params pg))
              (Warn, "Reached page limit (100) for products in store " +:+ storeId c)
              (products_fetch_eq c params) (getAllProducts_loop_step c params)
              100 1%nat [] s eq_refl) as (reqs & lgs1 & ->).
  rewrite (loop_result_indep (fun pg => Client.getProducts c (Client.pageParams params pg))
             (Client.getAllProducts_loop c params) (products_page c params)
             (fun pg => products_request c (page_request params pg))
             (Warn, "Reached page limit (100) for products in store " +:+ storeId c)
             (products_fetch_eq c params) (getAllProducts_loop_step c params)
             100 1%nat [] s s0 eq_refl).
  rewrite with_trace_twice. eauto.
Qed.

End FetchRuns.

(** ** What each reduction does to the registry *)

Section ReductionRuns.
Context `{RT : JsRuntime num}.
Variable clock : nat -> Z.
Import Collector.

(** The product reduction: on a failed fetch, one increment of the error
    counter of the branch and nothing else; otherwise the response time and
    the product gauges, and when a count is not a number the [TypeError] of
    the gauge and one increment of the error counter. *)
Lemma collectProductMetrics_run (c : WooCommerceClient) (s : State num) :
  match (Client.getAllProducts c no_params s).1 with
  | Ok products =>
      let written :=
        set_gauges (api_time_write c "products" (clock (ticks s)) (clock (S (ticks s)))
                    :: product_writes (storeId c) (storeName c) (length products)
                         (process_products products))
                   (register s) in
      (if numeric (pa_statusCounts (process_products products))
       then (collectProductMetrics clock c s).1 = Ok tt
            /\ register (collectProductMetrics clock c s).2 = written
       else (collectProductMetrics clock c s).1 = Throw not_a_number
            /\ register (collectProductMetrics clock c s).2
               = registry_inc (error_key c "products") written)
      /\ ticks (collectProductMetrics clock c s).2 = S (S (ticks s))
  | Throw e =>
      (collectProductMetrics clock c s).1 = Throw e
      /\ register (collectProductMetrics clock c s).2
         = registry_inc (error_key c "products") (register s)
      /\ ticks (collectProductMetrics clock c s).2 = S (ticks s)
  end.
Proof.
  unfold collectProductMetrics. mstep.
  match goal with
  | |- context [try_catch (mbind _ (logger ?l ?m)) _ ?s0] =>
      destruct (getAllProducts_run c no_params (with_trace s0 [] [(l, m)]) s)
        as (reqs & lgs & Hfetch)
  end.
  destruct (Client.getAllProducts c no_params s).1 as [products|e].
  - cbv zeta. destruct (numeric (pa_statusCounts (process_products products))) eqn:Hnum.
    + erewrite try_catch_ok.
      2:{ mstep. erewrite mbind_ok by exact Hfetch. do 2 mstep.
          erewrite mbind_ok by (rewrite write_product_metrics_eq, Hnum; reflexivity).
          apply logger_eq. }
      cbn. repeat split; reflexivity.
    + erewrite try_catch_throw.
      2:{ mstep. erewrite mbind_ok by exact Hfetch. do 2 mstep.
          erewrite mbind_throw by (rewrite write_product_metrics_eq, Hnum; reflexivity).
          reflexivity. }
      do 2 mstep. cbn. repeat split; reflexivity.
  - erewrite try_catch_throw.
    2:{ mstep. erewrite mbind_throw by exact Hfetch. reflexivity. }
    do 2 mstep. cbn. repeat split; reflexivity.
Qed.

(** The order reduction.  It fails when the fetch fails, before any write;
    when a line item has no product id, after the response time was
    written; or when a count is not a number, with the [TypeError] of the
    gauge, after the writes that come before it.  In each case the error
    counter of the branch is incremented once. *)
Lemma collectOrderMetrics_run (c : WooCommerceClient) (s : State num) :
  let t := ticks s in
  let api_time := api_time_write c "orders" (clock t) (clock (S (S t))) in
  let today := toDateString (Some (clock (S (S (S t))))) in
  let thisMonth :=
    getFullYear (Some (clock (S (S (S (S t))))))
    +:+ "-" +:+ getMonth1 (Some (clock (S (S (S (S (S t))))))) in
  match (Client.getAllOrders c
           {| page := None; per_page := None;
              after := Some (clock (S t) - ninety_days_ms) |} s).1 with
  | Throw e =>
      (collectOrderMetrics clock c s).1 = Throw e
      /\ register (collectOrderMetrics clock c s).2
         = registry_inc (error_key c "orders") (register s)
      /\ ticks (collectOrderMetrics clock c s).2 = S (S t)
  | Ok orders =>
      match process_orders today thisMonth order_acc0 orders with
      | Throw e =>
          (collectOrderMetrics clock c s).1 = Throw e
          /\ register (collectOrderMetrics clock c s).2
             = registry_inc (error_key c "orders") (set_gauges [api_time] (register s))
          /\ ticks (collectOrderMetrics clock c s).2 = S (S (S (S (S (S t)))))
      | Ok acc =>
          let written :=
            set_gauges (api_time
                        :: order_writes (storeId c) (storeName c)
                             (currency (storeConfig c)) (length orders) acc)
                       (register s) in
          (if numeric (oa_statusCounts acc)
           then (collectOrderMetrics clock c s).1 = Ok tt
                /\ register (collectOrderMetrics clock c s).2 = written
           else (collectOrderMetrics clock c s).1 = Throw not_a_number
                /\ register (collectOrderMetrics clock c s).2
                   = registry_inc (error_key c "orders") written)
          /\ ticks (collectOrderMetrics clock c s).2 = S (S (S (S (S (S t)))))
      end
  end.
Proof.
  intros t api_time today thisMonth. subst t api_time today thisMonth.
  unfold collectOrderMetrics. mstep.
  match goal with
  | |- context [try_catch (mbind _ (logger ?l ?m)) _ ?s0] =>
      destruct (getAllOrders_run c
                  {| page := None; per_page := None;
                     after := Some (clock (S (ticks s)) - ninety_days_ms) |}
                  (tick (with_trace s0 [] [(l, m)])) s)
        as (reqs & lgs & Hfetch)
  end.
  destruct (Client.getAllOrders c _ s).1 as [orders|e].
  - destruct (process_orders _ _ order_acc0 orders) as [acc|e] eqn:Hacc.
    + cbv zeta. destruct (numeric (oa_statusCounts acc)) eqn:Hnum.
      * erewrite try_catch_ok.
        2:{ do 2 mstep. erewrite mbind_ok by exact Hfetch. do 5 mstep.
            erewrite mbind_ok by (cbn [ticks tick with_trace with_register];
                                  rewrite Hacc; reflexivity).
            erewrite mbind_ok by (rewrite write_order_metrics_eq, Hnum; reflexivity).
            apply logger_eq. }
        cbn. repeat split; reflexivity.
      * erewrite try_catch_throw.
        2:{ do 2 mstep. erewrite mbind_ok by exact Hfetch. do 5 mstep.
            erewrite mbind_ok by (cbn [ticks tick with_trace with_register];
                                  rewrite Hacc; reflexivity).
            erewrite mbind_throw by (rewrite write_order_metrics_eq, Hnum; reflexivity).
            reflexivity. }
        do 2 mstep. cbn. repeat split; reflexivity.
    + erewrite try_catch_throw.
      2:{ do 2 mstep. erewrite mbind_ok by exact Hfetch. do 5 mstep.
          erewrite mbind_throw by (cbn [ticks tick with_trace with_register];
                                   rewrite Hacc; reflexivity).
          reflexivity. }
      do 2 mstep. cbn. repeat split; reflexivity.
  - erewrite try_catch_throw.
    2:{ do 2 mstep. erewrite mbind_throw by exact Hfetch. reflexivity. }
    do 2 mstep. cbn. repeat split; reflexivity.
Qed.

(** The walk over the customers only adds requests and log lines. *)
Lemma customers_loop_trace (c : WooCommerceClient) (d pg total : nat) (s : State num) :
  (pg + d = 11)%nat ->
  exists reqs lgs, (customers_loop c pg total s).2 = with_trace s reqs lgs.
Proof.
  revert pg total s. induction d as [|d IH]; intros pg total s Hd;
    destruct (customers_loop c pg total s) as [r s2] eqn:Hrun;
    rewrite customers_loop_step in Hrun; cbn [snd].
  - destruct (decide (pg <= 10)%nat); [lia|]. injection Hrun as <- <-.
    exists [], []. symmetry. apply with_trace_nil.
  - destruct (decide (pg <= 10)%nat) as [Hle|]; [|lia].
    destruct (customers_fetch_eq c pg s) as [lgs Hf]. rewrite Hf in Hrun.
    destruct (customers_page c pg) as [l|e]; [|injection Hrun as <- <-; eauto].
    destruct (Nat.eqb (length l) 0); [injection Hrun as <- <-; eauto|].
    destruct (IH (pg + 1)%nat (total + length l)%nat
                 (with_trace s [customers_request c (customers_walk_params pg)] lgs))
      as (reqs & lgs' & Htr); [lia|].
    rewrite Hrun in Htr. cbn [snd] in Htr. subst s2.
    rewrite with_trace_twice. eauto.
Qed.

Lemma count_all_customers_trace (c : WooCommerceClient) (s : State num) :
  exists r reqs lgs, count_all_customers c s = (r, with_trace s reqs lgs).
Proof.
  unfold count_all_customers.
  destruct (getCustomers_eq c {| page := None; per_page := Some 100%nat; after := None |} s)
    as [lgs Hg].
  destruct (get_customers (api c) _) as [l|e].
  - erewrite mbind_ok by exact Hg.
    destruct (Nat.eqb (length l) 100).
    + match goal with
      | |- context [customers_loop c 2 ?n ?s1] =>
          destruct (customers_loop_trace c 9 2%nat n s1) as (reqs & lgs' & Htr); [lia|];
          destruct (customers_loop c 2 n s1) as [r s2]
      end.
      cbn [snd] in Htr. subst s2. rewrite with_trace_twice. eauto.
    + unfold mret, M_ret, ret. eauto.
  - erewrite mbind_throw by exact Hg. eauto.
Qed.

(** The customer reduction fails only when the first fetch (one customer)
    fails; otherwise it writes the response time and the customer gauge. *)
Lemma collectCustomerMetrics_run (c : WooCommerceClient) (s : State num) :
  match get_customers (api c) customers_probe_params with
  | Ok customers =>
      exists n : nat,
        (collectCustomerMetrics clock c s).1 = Ok tt
        /\ register (collectCustomerMetrics clock c s).2
           = set_gauges [api_time_write c "customers" (clock (ticks s)) (clock (S (ticks s)));
                         ((totalCustomersGauge, [storeId c; storeName c]), of_nat n)]
                        (register s)
        /\ ticks (collectCustomerMetrics clock c s).2 = S (S (ticks s))
  | Throw e =>
      (collectCustomerMetrics clock c s).1 = Throw e
      /\ register (collectCustomerMetrics clock c s).2
         = registry_inc (error_key c "customers") (register s)
      /\ ticks (collectCustomerMetrics clock c s).2 = S (ticks s)
  end.
Proof.
  unfold collectCustomerMetrics. mstep.
  match goal with
  | |- context [try_catch (mbind _ (logger ?l ?m)) _ ?s0] =>
      destruct (getCustomers_eq c {| page := None; per_page := Some 1%nat; after := None |}
                  (with_trace s0 [] [(l, m)])) as (lgs & Hprobe)
  end.
  change (Client.defaultParams _) with customers_probe_params in Hprobe.
  destruct (get_customers (api c) customers_probe_params) as [customers|e].
  - match type of Hprobe with
    | _ = (_, ?s1) =>
        destruct (count_all_customers_trace c
                    (with_register (tick s1)
                       (set_gauges [api_time_write c "customers" (clock (ticks s))
                                      (clock (S (ticks s)))] (register s))))
          as (r & reqs & lgs' & Hwalk)
    end.
    destruct r as [n|e].
    + exists n. erewrite try_catch_ok.
      2:{ mstep. erewrite mbind_ok by exact Hprobe. do 2 mstep.
          erewrite mbind_ok by (apply try_catch_ok; exact Hwalk).
          mstep. apply logger_eq. }
      cbn. repeat split; reflexivity.
    + exists (length customers). erewrite try_catch_ok.
      2:{ mstep. erewrite mbind_ok by exact Hprobe. do 2 mstep.
          erewrite mbind_ok
            by (erewrite try_catch_throw by exact Hwalk; mstep; reflexivity).
          mstep. apply logger_eq. }
      cbn. repeat split; reflexivity.
  - erewrite try_catch_throw.
    2:{ mstep. erewrite mbind_throw by exact Hprobe. reflexivity. }
    do 2 mstep. cbn. repeat split; reflexivity.
Qed.

(** The walk over the customers returns what [walk_total] computes from
    the pages of the upstream. *)
Lemma customers_loop_walk (c : WooCommerceClient) (d pg total : nat) (s : State num) :
  (pg + d = 11)%nat ->
  exists reqs lgs,
    customers_loop c pg total s
    = (walk_total (customers_page c) d pg total, with_trace s reqs lgs).
Proof.
  revert pg total s. induction d as [|d IH]; intros pg total s Hd;
    rewrite customers_loop_step; cbn [walk_total].
  - destruct (decide (pg <= 10)%nat); [lia|].
    exists [], []. rewrite with_trace_nil. reflexivity.
  - destruct (decide (pg <= 10)%nat) as [Hle|]; [|lia].
    destruct (customers_fetch_eq c pg s) as [lgs ->].
    destruct (customers_page c pg) as [l|e]; [|eauto].
    destruct (Nat.eqb (length l) 0); [eauto|].
    destruct (IH (pg + 1)%nat (total + length l)%nat
                 (with_trace s [customers_request c (customers_walk_params pg)] lgs))
      as (reqs & lgs' & ->); [lia|].
    rewrite with_trace_twice. eauto.
Qed.

Lemma count_all_customers_walked (c : WooCommerceClient) (s : State num) :
  exists reqs lgs, count_all_customers c s = (customers_walked c, with_trace s reqs lgs).
Proof.
  unfold count_all_customers, customers_walked.
  destruct (getCustomers_eq c {| page := None; per_page := Some 100%nat; after := None |} s)
    as [lgs Hg].
  change (Client.defaultParams _) with (customers_walk_params 1) in Hg.
  fold (customers_page c 1) in Hg.
  destruct (customers_page c 1) as [l|e].
  - erewrite mbind_ok by exact Hg.
    destruct (Nat.eqb (length l) 100).
    + match goal with
      | |- context [customers_loop c 2 ?n ?s1] =>
          destruct (customers_loop_walk c 9 2%nat n s1) as (reqs & lgs' & ->); [lia|]
      end.
      rewrite with_trace_twice. eauto.
    + unfold mret, M_ret, ret. eauto.
  - erewrite mbind_throw by exact Hg. eauto.
Qed.

(** The customer gauge after a reduction whose first fetch succeeded: the
    count of the walk, or that of the first fetch when the walk fails. *)
Lemma collectCustomerMetrics_published (c : WooCommerceClient) (s : State num)
    (customers : list Customer) :
  get_customers (api c) customers_probe_params = Ok customers ->
  (collectCustomerMetrics clock c s).1 = Ok tt
  /\ register (collectCustomerMetrics clock c s).2
     = set_gauges [api_time_write c "customers" (clock (ticks s)) (clock (S (ticks s)));
                   ((totalCustomersGauge, [storeId c; storeName c]),
                    of_nat (customers_published c customers))]
                  (register s).
Proof.
  intros Hfetch. unfold collectCustomerMetrics. mstep.
  match goal with
  | |- context [try_catch (mbind _ (logger ?l ?m)) _ ?s0] =>
      destruct (getCustomers_eq c {| page := None; per_page := Some 1%nat; after := None |}
                  (with_trace s0 [] [(l, m)])) as (lgs & Hprobe)
  end.
  change (Client.defaultParams _) with customers_probe_params in Hprobe.
  rewrite Hfetch in Hprobe.
  match type of Hprobe with
  | _ = (_, ?s1) =>
      destruct (count_all_customers_walked c
                  (with_register (tick s1)
                     (set_gauges [api_time_write c "customers" (clock (ticks s))
                                    (clock (S (ticks s)))] (register s))))
        as (reqs & lgs' & Hwalk)
  end.
  unfold customers_published.
  destruct (customers_walked c) as [n|e].
  - erewrite try_catch_ok.
    2:{ mstep. erewrite mbind_ok by exact Hprobe. do 2 mstep.
        erewrite mbind_ok by (apply try_catch_ok; exact Hwalk).
        mstep. apply logger_eq. }
    cbn. split; reflexivity.
  - erewrite try_catch_ok.
    2:{ mstep. erewrite mbind_ok by exact Hprobe. do 2 mstep.
        erewrite mbind_ok
          by (erewrite try_catch_throw by exact Hwalk; mstep; reflexivity).
        mstep. apply logger_eq. }
    cbn. split; reflexivity.
Qed.

End ReductionRuns.

(** ** Frames: what a reduction leaves alone *)

Section Frames.
Context `{RT : JsRuntime num}.
Variable clock : nat -> Z.
Import Collector.

Lemma writes_within_notin (names : list string) (kvs : list (SampleKey * num))
    (k : SampleKey) :
  writes_within names kvs -> k.1 ∉ names -> k ∉ kvs.*1.
Proof.
  intros Hw Hk [kv [-> Hin]]%list_elem_of_fmap. apply Hk. apply Hw. exact Hin.
Qed.

Lemma lookup_set_gauges_other (names : list string) (kvs : list (SampleKey * num))
    (r : Registry num) (k : SampleKey) :
  writes_within names kvs -> k.1 ∉ names ->
  gauges (set_gauges kvs r) !! k = gauges r !! k.
Proof.
  intros Hw Hk. apply lookup_set_gauges_notin. eapply writes_within_notin; eassumption.
Qed.

Lemma writes_within_cons (names : list string) (kv : SampleKey * num)
    (kvs : list (SampleKey * num)) :
  kv.1.1 ∈ names -> writes_within names kvs -> writes_within names (kv :: kvs).
Proof.
  intros Hkv Hw x [->|Hin]%elem_of_cons; [exact Hkv|]. apply Hw. exact Hin.
Qed.

Lemma writes_within_app (names : list string) (l1 l2 : list (SampleKey * num)) :
  writes_within names l1 -> writes_within names l2 -> writes_within names (l1 ++ l2).
Proof.
  intros H1 H2 x [Hin|Hin]%elem_of_app; [apply H1|apply H2]; exact Hin.
Qed.

Lemma writes_within_fmap {A : Type} (names : list string) (f : A -> SampleKey * num)
    (xs : list A) :
  (forall x, (f x).1.1 ∈ names) -> writes_within names (f <$> xs).
Proof.
  intros Hf kv [x [-> _]]%list_elem_of_fmap. apply Hf.
Qed.

Lemma writes_within_nil (names : list string) :
  writes_within names ([] : list (SampleKey * num)).
Proof. intros kv Hin. inversion Hin. Qed.

End Frames.

Ltac split_writes :=
  repeat match goal with
         | |- writes_within _ (_ ++ _) => apply writes_within_app
         | |- writes_within _ (_ :: _) => apply writes_within_cons
         | |- writes_within _ [] => apply writes_within_nil
         | |- writes_within _ (_ <$> _) => apply writes_within_fmap
         end.

Ltac in_names :=
  intros; cbn [fst snd];
  repeat first [ apply list_elem_of_here | apply list_elem_of_further ].

Section MetricNames.
Context `{RT : JsRuntime num}.
Import Collector.

Lemma order_writes_names (storeId storeName currency : string) (n : nat) (acc : OrderAcc) :
  writes_within order_metric_names (order_writes storeId storeName currency n acc).
Proof.
  unfold order_writes, order_metric_names.
  destruct (numeric (oa_statusCounts acc)); split_writes; in_names.
Qed.

Lemma product_writes_names (storeId storeName : string) (n : nat) (acc : ProductAcc) :
  writes_within product_metric_names (product_writes storeId storeName n acc).
Proof.
  unfold product_writes, product_metric_names.
  destruct (numeric (pa_statusCounts acc)); split_writes; in_names.
Qed.

End MetricNames.

(** ** The collection of one store *)

Section StoreRun.
Context `{RT : JsRuntime num}.
Variable clock : nat -> Z.
Import Collector.

Lemma settle_eq {A : Type} (m : M num A) (s : State num) :
  settle m s = (Ok (m s).1, (m s).2).
Proof. unfold settle. destruct (m s). reflexivity. Qed.

Lemma allSettled3_eq (c : WooCommerceClient) (s : State num) :
  allSettled3 clock c (store_start c s)
  = (Ok [(orders_run clock c s).1; (products_run clock c s).1; (customers_run clock c s).1],
     (customers_run clock c s).2).
Proof.
  unfold allSettled3, customers_run, products_run, orders_run.
  rewrite (mbind_ok _ _ _ _ _ (settle_eq _ _)).
  rewrite (mbind_ok _ _ _ _ _ (settle_eq _ _)).
  rewrite (mbind_ok _ _ _ _ _ (settle_eq _ _)).
  reflexivity.
Qed.

(** [collectStoreMetrics] never takes its [catch]: it resolves, and its
    registry is the one left by the three reductions with the two cells of
    the store written on top. *)
Lemma collectStoreMetrics_run (c : WooCommerceClient) (s : State num) :
  (collectStoreMetrics clock c s).1 = Ok tt
  /\ register (collectStoreMetrics clock c s).2
     = set_gauges
         [(last_scrape_key c, of_Z (clock (ticks (customers_run clock c s).2) `div` 1000));
          (scrape_duration_key c,
           seconds_since (clock (ticks s)) (clock (S (ticks (customers_run clock c s).2))))]
         (register (customers_run clock c s).2).
Proof.
  unfold collectStoreMetrics. mstep.
  erewrite try_catch_ok.
  2:{ mstep. erewrite mbind_ok by apply allSettled3_eq. do 4 mstep. apply logger_eq. }
  split; reflexivity.
Qed.

End StoreRun.

Section Counters.
Context `{RT : JsRuntime num}.
Variable clock : nat -> Z.
Import Collector.

Lemma collectOrderMetrics_counters (c : WooCommerceClient) (s : State num) :
  counters (register (collectOrderMetrics clock c s).2)
  = bump_if_failed (collectOrderMetrics clock c s).1 (error_key c "orders")
                   (counters (register s)).
Proof.
  pose proof (collectOrderMetrics_run clock c s) as H. cbv zeta in H.
  destruct (Client.getAllOrders c _ s).1 as [orders|e].
  - destruct (process_orders _ _ order_acc0 orders) as [acc|e].
    + destruct H as (H & _).
      destruct (numeric (oa_statusCounts acc)); destruct H as (-> & ->);
        cbn [bump_if_failed counters registry_inc];
        rewrite ?counters_set_gauges; reflexivity.
    + destruct H as (-> & -> & _). cbn [bump_if_failed counters registry_inc].
      rewrite ?counters_set_gauges. reflexivity.
  - destruct H as (-> & -> & _). reflexivity.
Qed.

Lemma collectProductMetrics_counters (c : WooCommerceClient) (s : State num) :
  counters (register (collectProductMetrics clock c s).2)
  = bump_if_failed (collectProductMetrics clock c s).1 (error_key c "products")
                   (counters (register s)).
Proof.
  pose proof (collectProductMetrics_run clock c s) as H. cbv zeta in H.
  destruct (Client.getAllProducts c no_params s).1 as [products|e].
  - destruct H as (H & _).
    destruct (numeric (pa_statusCounts (process_products products)));
      destruct H as (-> & ->); cbn [bump_if_failed counters registry_inc];
      rewrite ?counters_set_gauges; reflexivity.
  - destruct H as (-> & -> & _). reflexivity.
Qed.

Lemma collectCustomerMetrics_counters (c : WooCommerceClient) (s : State num) :
  counters (register (collectCustomerMetrics clock c s).2)
  = bump_if_failed (collectCustomerMetrics clock c s).1 (error_key c "customers")
                   (counters (register s)).
Proof.
  pose proof (collectCustomerMetrics_run clock c s) as H.
  destruct (get_customers (api c) customers_probe_params) as [customers|e].
  - destruct H as (n & -> & -> & _). cbn [bump_if_failed].
    rewrite counters_set_gauges. reflexivity.
  - destruct H as (-> & -> & _). reflexivity.
Qed.

Lemma errors_bump_if_failed {A : Type} (r : Result A) (k k' : SampleKey)
    (cs : gmap SampleKey N) :
  default 0%N (bump_if_failed r k cs !! k')
  = (default 0%N (cs !! k') + if decide (k = k') then failed r else 0)%N.
Proof.
  destruct r as [a|e]; cbn [bump_if_failed failed].
  - destruct (decide (k = k')); lia.
  - unfold bump. rewrite lookup_insert.
    destruct (decide (k = k')) as [->|]; simpl; lia.
Qed.

(** The counters after the collection of a store: each reduction that
    failed has incremented the cell of its branch, and that is all. *)
Lemma collectStoreMetrics_counters (c : WooCommerceClient) (s : State num) :
  counters (register (collectStoreMetrics clock c s).2)
  = bump_if_failed (customers_run clock c s).1 (error_key c "customers")
      (bump_if_failed (products_run clock c s).1 (error_key c "products")
         (bump_if_failed (orders_run clock c s).1 (error_key c "orders")
            (counters (register s)))).
Proof.
  destruct (collectStoreMetrics_run clock c s) as [_ ->].
  rewrite counters_set_gauges.
  unfold customers_run.
  rewrite (collectCustomerMetrics_counters c (products_run clock c s).2).
  unfold products_run.
  rewrite (collectProductMetrics_counters c (orders_run clock c s).2).
  unfold orders_run.
  rewrite (collectOrderMetrics_counters c (store_start c s)).
  reflexivity.
Qed.

Lemma collectStoreMetrics_errors (c : WooCommerceClient) (s : State num) (k : SampleKey) :
  errors (register (collectStoreMetrics clock c s).2) k
  = (errors (register s) k
     + (if decide (error_key c "orders" = k) then failed (orders_run clock c s).1 else 0)
     + (if decide (error_key c "products" = k) then failed (products_run clock c s).1 else 0)
     + (if decide (error_key c "customers" = k)
        then failed (customers_run clock c s).1 else 0))%N.
Proof.
  unfold errors. rewrite collectStoreMetrics_counters, !errors_bump_if_failed.
  reflexivity.
Qed.

End Counters.

Section GaugeFrames.
Context `{RT : JsRuntime num}.
Variable clock : nat -> Z.
Import Collector.

Lemma writes_within_weaken (names names' : list string) (kvs : list (SampleKey * num)) :
  names ⊆ names' -> writes_within names kvs -> writes_within names' kvs.
Proof. intros Hsub Hw kv Hin. apply Hsub. apply Hw. exact Hin. Qed.

(** The order reduction writes cells of its own metrics only. *)
Lemma collectOrderMetrics_frame (c : WooCommerceClient) (s : State num) (k : SampleKey) :
  k.1 ∉ apiResponseTimeGauge :: order_metric_names ->
  gauges (register (collectOrderMetrics clock c s).2) !! k = gauges (register s) !! k.
Proof.
  intros Hk. pose proof (collectOrderMetrics_run clock c s) as H. cbv zeta in H.
  destruct (Client.getAllOrders c _ s).1 as [orders|e].
  - destruct (process_orders _ _ order_acc0 orders) as [acc|e].
    + destruct H as (H & _).
      assert (Hreg : gauges (register (collectOrderMetrics clock c s).2)
                     = gauges (set_gauges
                                 (api_time_write c "orders" (clock (ticks s))
                                    (clock (S (S (ticks s))))
                                  :: order_writes (storeId c) (storeName c)
                                       (currency (storeConfig c)) (length orders) acc)
                                 (register s)))
        by (destruct (numeric (oa_statusCounts acc)); destruct H as (_ & ->); reflexivity).
      rewrite Hreg.
      apply (lookup_set_gauges_other (apiResponseTimeGauge :: order_metric_names));
        [|exact Hk].
      apply writes_within_cons; [apply list_elem_of_here|].
      eapply writes_within_weaken; [|apply order_writes_names].
      intros x Hx. apply list_elem_of_further. exact Hx.
    + destruct H as (_ & -> & _); cbn [gauges registry_inc].
      apply (lookup_set_gauges_other (apiResponseTimeGauge :: order_metric_names));
        [|exact Hk].
      apply writes_within_cons; [apply list_elem_of_here|apply writes_within_nil].
  - destruct H as (_ & -> & _). reflexivity.
Qed.

Lemma collectProductMetrics_frame (c : WooCommerceClient) (s : State num) (k : SampleKey) :
  k.1 ∉ apiResponseTimeGauge :: product_metric_names ->
  gauges (register (collectProductMetrics clock c s).2) !! k = gauges (register s) !! k.
Proof.
  intros Hk. pose proof (collectProductMetrics_run clock c s) as H. cbv zeta in H.
  destruct (Client.getAllProducts c no_params s).1 as [products|e];
    [|destruct H as (_ & -> & _); reflexivity].
  destruct H as (H & _).
  assert (Hreg : gauges (register (collectProductMetrics clock c s).2)
                 = gauges (set_gauges
                             (api_time_write c "products" (clock (ticks s))
                                (clock (S (ticks s)))
                              :: product_writes (storeId c) (storeName c) (length products)
                                   (process_products products))
                             (register s)))
    by (destruct (numeric (pa_statusCounts (process_products products)));
        destruct H as (_ & ->); reflexivity).
  rewrite Hreg.
  apply (lookup_set_gauges_other (apiResponseTimeGauge :: product_metric_names));
    [|exact Hk].
  apply writes_within_cons; [apply list_elem_of_here|].
  eapply writes_within_weaken; [|apply product_writes_names].
  intros x Hx. apply list_elem_of_further. exact Hx.
Qed.

Lemma collectCustomerMetrics_frame (c : WooCommerceClient) (s : State num) (k : SampleKey) :
  k.1 ∉ [apiResponseTimeGauge; totalCustomersGauge] ->
  gauges (register (collectCustomerMetrics clock c s).2) !! k = gauges (register s) !! k.
Proof.
  intros Hk. pose proof (collectCustomerMetrics_run clock c s) as H.
  destruct (get_customers (api c) customers_probe_params) as [customers|e].
  - destruct H as (n & _ & -> & _).
    apply (lookup_set_gauges_other [apiResponseTimeGauge; totalCustomersGauge]);
      [|exact Hk].
    split_writes; in_names.
  - destruct H as (_ & -> & _). reflexivity.
Qed.

(** The two cells of the store are written last. *)
Lemma collectStoreMetrics_frame (c : WooCommerceClient) (s : State num) (k : SampleKey) :
  k.1 ∉ [lastScrapeSuccessGauge; scrapeDurationGauge] ->
  gauges (register (collectStoreMetrics clock c s).2) !! k
  = gauges (register (customers_run clock c s).2) !! k.
Proof.
  intros Hk. destruct (collectStoreMetrics_run clock c s) as [_ ->].
  apply (lookup_set_gauges_other [lastScrapeSuccessGauge; scrapeDurationGauge]);
    [|exact Hk].
  split_writes; in_names.
Qed.

End GaugeFrames.

Ltac not_in_names :=
  let Hin := fresh "Hin" in
  let Heq := fresh "Heq" in
  cbn [fst snd]; intros Hin;
  repeat (apply elem_of_cons in Hin as [Heq|Hin]; [discriminate Heq|]);
  inversion Hin.

Section WrittenCells.
Context `{RT : JsRuntime num}.
Import Collector.

Lemma lookup_total_orders (x : SampleKey * num) (storeId storeName currency : string)
    (n : nat) (acc : OrderAcc) (r : Registry num) :
  gauges (set_gauges (x :: order_writes storeId storeName currency n acc) r)
    !! (totalOrdersGauge, [storeId; storeName; "all"; currency])
  = Some (of_nat n).
Proof.
  unfold order_writes.
  apply (lookup_set_gauges_last [x]).
  apply (writes_within_notin
           [ordersByStatusGauge; pendingOrdersGauge; failedOrdersGauge;
            processingOrdersGauge; totalRevenueGauge; revenueTodayGauge;
            revenueThisMonthGauge; averageOrderValueGauge; topProductsSoldGauge]).
  - destruct (numeric (oa_statusCounts acc)); split_writes; in_names.
  - not_in_names.
Qed.

Lemma lookup_average_order_value (x : SampleKey * num) (storeId storeName currency : string)
    (n : nat) (acc : OrderAcc) (r : Registry num) :
  numeric (oa_statusCounts acc) = true ->
  gauges (set_gauges (x :: order_writes storeId storeName currency n acc) r)
    !! (averageOrderValueGauge, [storeId; storeName; currency; "all_time"])
  = Some (avgOrderValue acc).
Proof.
  intros Hnum. rewrite order_writes_split by exact Hnum. rewrite app_comm_cons.
  apply lookup_set_gauges_last.
  apply (writes_within_notin [topProductsSoldGauge]).
  - split_writes; in_names.
  - not_in_names.
Qed.

Lemma product_writes_split (storeId storeName : string) (n : nat) (acc : ProductAcc) :
  numeric (pa_statusCounts acc) = true ->
  product_writes storeId storeName n acc
  = (([((totalProductsGauge, [storeId; storeName; "all"]), of_nat n)]
      ++ ((fun sc : string * nat =>
             ((totalProductsGauge, [storeId; storeName; sc.1]), of_nat sc.2))
            <$> counts_before_text (status_entries (pa_statusCounts acc))))
     ++ ((lowStockProductsGauge, [storeId; storeName; pretty lowStockThreshold]),
         of_nat (pa_lowStockCount acc))
        :: [((outOfStockProductsGauge, [storeId; storeName]),
             of_nat (pa_outOfStockCount acc))])%list.
Proof. intros Hnum. unfold product_writes. rewrite Hnum, <- !app_assoc. reflexivity. Qed.

Lemma lookup_low_stock (x : SampleKey * num) (storeId storeName : string)
    (n : nat) (acc : ProductAcc) (r : Registry num) :
  numeric (pa_statusCounts acc) = true ->
  gauges (set_gauges (x :: product_writes storeId storeName n acc) r)
    !! (lowStockProductsGauge, [storeId; storeName; pretty lowStockThreshold])
  = Some (of_nat (pa_lowStockCount acc)).
Proof.
  intros Hnum. rewrite product_writes_split by exact Hnum. rewrite app_comm_cons.
  apply lookup_set_gauges_last.
  apply (writes_within_notin [outOfStockProductsGauge]).
  - split_writes; in_names.
  - not_in_names.
Qed.

Lemma lookup_out_of_stock (x : SampleKey * num) (storeId storeName : string)
    (n : nat) (acc : ProductAcc) (r : Registry num) :
  numeric (pa_statusCounts acc) = true ->
  gauges (set_gauges (x :: product_writes storeId storeName n acc) r)
    !! (outOfStockProductsGauge, [storeId; storeName])
  = Some (of_nat (pa_outOfStockCount acc)).
Proof.
  intros Hnum. rewrite product_writes_split by exact Hnum. rewrite app_comm_cons.
  match goal with
  | |- context [set_gauges (?l1 ++ ?a :: [?b]) _] =>
      replace (l1 ++ a :: [b])%list with ((l1 ++ [a]) ++ b :: [])%list
        by (rewrite <- app_assoc; reflexivity)
  end.
  apply lookup_set_gauges_last. intros Hin. inversion Hin.
Qed.

End WrittenCells.

Section Isolation.
Context `{RT : JsRuntime num}.
Variable clock : nat -> Z.
Import Collector.

Lemma getAllOrders_result (c : WooCommerceClient) (params : Params) (s s0 : State num) :
  (Client.getAllOrders c params s).1 = (Client.getAllOrders c params s0).1.
Proof. destruct (getAllOrders_run c params s s0) as (reqs & lgs & ->). reflexivity. Qed.

Lemma getAllProducts_result (c : WooCommerceClient) (params : Params) (s s0 : State num) :
  (Client.getAllProducts c params s).1 = (Client.getAllProducts c params s0).1.
Proof. destruct (getAllProducts_run c params s s0) as (reqs & lgs & ->). reflexivity. Qed.

(** The outcome of each reduction is decided by what its own upstream
    answers. *)
Lemma collectOrderMetrics_outcome (c : WooCommerceClient) (s s0 : State num) :
  (collectOrderMetrics clock c s).1
  = match (Client.getAllOrders c (cycle_params clock (ticks s)) s0).1 with
    | Throw e => Throw e
    | Ok orders =>
        match process_orders (cycle_today clock (ticks s)) (cycle_thisMonth clock (ticks s))
                order_acc0 orders with
        | Throw e => Throw e
        | Ok acc => if plain_statuses (order_status <$> orders)
                    then Ok tt else Throw not_a_number
        end
    end.
Proof.
  pose proof (collectOrderMetrics_run clock c s) as H. cbv zeta in H.
  rewrite (getAllOrders_result c _ s s0) in H.
  fold (cycle_params clock (ticks s)) (cycle_today clock (ticks s))
       (cycle_thisMonth clock (ticks s)) in H.
  destruct (Client.getAllOrders c (cycle_params clock (ticks s)) s0).1 as [orders|e].
  - destruct (process_orders _ _ order_acc0 orders) as [acc|e] eqn:Hacc.
    + rewrite <- (process_orders_numeric _ _ _ _ Hacc). destruct H as (H & _).
      destruct (numeric (oa_statusCounts acc)); destruct H as (-> & _); reflexivity.
    + destruct H as (-> & _). reflexivity.
  - destruct H as (-> & _). reflexivity.
Qed.

Lemma collectProductMetrics_outcome (c : WooCommerceClient) (s s0 : State num) :
  (collectProductMetrics clock c s).1
  = match (Client.getAllProducts c no_params s0).1 with
    | Throw e => Throw e
    | Ok products => if plain_statuses (product_status <$> products)
                     then Ok tt else Throw not_a_number
    end.
Proof.
  pose proof (collectProductMetrics_run clock c s) as H. cbv zeta in H.
  rewrite (getAllProducts_result c _ s s0) in H.
  destruct (Client.getAllProducts c no_params s0).1 as [products|e].
  - rewrite <- process_products_numeric. destruct H as (H & _).
    destruct (numeric (pa_statusCounts (process_products products)));
      destruct H as (-> & _); reflexivity.
  - destruct H as (-> & _). reflexivity.
Qed.

Lemma collectCustomerMetrics_outcome (c : WooCommerceClient) (s : State num) :
  (collectCustomerMetrics clock c s).1
  = match get_customers (api c) customers_probe_params with
    | Throw e => Throw e
    | Ok _ => Ok tt
    end.
Proof.
  pose proof (collectCustomerMetrics_run clock c s) as H.
  destruct (get_customers (api c) customers_probe_params) as [customers|e].
  - destruct H as (n & -> & _). reflexivity.
  - destruct H as (-> & _). reflexivity.
Qed.

(** What a successful order reduction leaves in the registry. *)
Lemma collectOrderMetrics_ok (c : WooCommerceClient) (s s0 : State num) :
  (collectOrderMetrics clock c s).1 = Ok tt ->
  exists orders acc x,
    (Client.getAllOrders c (cycle_params clock (ticks s)) s0).1 = Ok orders
    /\ process_orders (cycle_today clock (ticks s)) (cycle_thisMonth clock (ticks s)) order_acc0 orders
       = Ok acc
    /\ numeric (oa_statusCounts acc) = true
    /\ x.1.1 = apiResponseTimeGauge
    /\ register (collectOrderMetrics clock c s).2
       = set_gauges (x :: order_writes (storeId c) (storeName c) (currency (storeConfig c))
                            (length orders) acc)
                    (register s).
Proof.
  intros Hok. pose proof (collectOrderMetrics_run clock c s) as H. cbv zeta in H.
  rewrite (getAllOrders_result c _ s s0) in H.
  fold (cycle_params clock (ticks s)) (cycle_today clock (ticks s)) (cycle_thisMonth clock (ticks s)) in H.
  destruct (Client.getAllOrders c (cycle_params clock (ticks s)) s0).1 as [orders|e].
  - destruct (process_orders _ _ order_acc0 orders) as [acc|e] eqn:Hacc.
    + destruct H as (H & _).
      destruct (numeric (oa_statusCounts acc)) eqn:Hnum; destruct H as (Hres & Hreg);
        [|congruence].
      exists orders, acc,
        (api_time_write c "orders" (clock (ticks s)) (clock (S (S (ticks s))))).
      repeat split; assumption.
    + destruct H as (Hthrow & _). congruence.
  - destruct H as (Hthrow & _). congruence.
Qed.

Lemma collectProductMetrics_ok (c : WooCommerceClient) (s s0 : State num) :
  (collectProductMetrics clock c s).1 = Ok tt ->
  exists products x,
    (Client.getAllProducts c no_params s0).1 = Ok products
    /\ numeric (pa_statusCounts (process_products products)) = true
    /\ x.1.1 = apiResponseTimeGauge
    /\ register (collectProductMetrics clock c s).2
       = set_gauges (x :: product_writes (storeId c) (storeName c) (length products)
                            (process_products products))
                    (register s).
Proof.
  intros Hok. pose proof (collectProductMetrics_run clock c s) as H. cbv zeta in H.
  rewrite (getAllProducts_result c _ s s0) in H.
  destruct (Client.getAllProducts c no_params s0).1 as [products|e].
  - destruct H as (H & _).
    destruct (numeric (pa_statusCounts (process_products products))) eqn:Hnum;
      destruct H as (Hres & Hreg); [|congruence].
    exists products, (api_time_write c "products" (clock (ticks s)) (clock (S (ticks s)))).
    repeat split; assumption.
  - destruct H as (Hthrow & _). congruence.
Qed.

(** The response time is no cell of the metrics of a reduction. *)
Lemma lookup_after_api_time (names : list string) (x : SampleKey * num)
    (kvs : list (SampleKey * num)) (r : Registry num) (k : SampleKey) :
  x.1.1 = apiResponseTimeGauge -> apiResponseTimeGauge ∉ names -> k.1 ∈ names ->
  gauges (set_gauges (x :: kvs) r) !! k = gauges (set_gauges kvs r) !! k.
Proof.
  intros Hx Hnot Hk.
  change (set_gauges (x :: kvs) r) with (set_gauges kvs (registry_set x.1 x.2 r)).
  apply lookup_set_gauges_congr. cbn. apply lookup_insert_ne.
  intros Heq. apply Hnot. rewrite <- Hx, Heq. exact Hk.
Qed.

(** The cells of the metrics of one reduction are not written after it. *)
Lemma order_cells_kept (c : WooCommerceClient) (s : State num) (k : SampleKey) :
  k.1 ∈ order_metric_names ->
  gauges (register (collectStoreMetrics clock c s).2) !! k
  = gauges (register (orders_run clock c s).2) !! k.
Proof.
  intros Hk. destruct k as [m ls]. cbn [fst] in Hk. unfold order_metric_names in Hk.
  repeat (apply elem_of_cons in Hk as [->|Hk]);
    try (inversion Hk; fail);
    (rewrite collectStoreMetrics_frame by not_in_names;
     unfold customers_run; rewrite collectCustomerMetrics_frame by not_in_names;
     unfold products_run; rewrite collectProductMetrics_frame by not_in_names;
     reflexivity).
Qed.

Lemma product_cells_kept (c : WooCommerceClient) (s : State num) (k : SampleKey) :
  k.1 ∈ product_metric_names ->
  gauges (register (collectStoreMetrics clock c s).2) !! k
  = gauges (register (products_run clock c s).2) !! k.
Proof.
  intros Hk. destruct k as [m ls]. cbn [fst] in Hk. unfold product_metric_names in Hk.
  repeat (apply elem_of_cons in Hk as [->|Hk]);
    try (inversion Hk; fail);
    (rewrite collectStoreMetrics_frame by not_in_names;
     unfold customers_run; rewrite collectCustomerMetrics_frame by not_in_names;
     reflexivity).
Qed.

(** C1. The collection of one store, whatever reductions fail.  It always
    resolves.  The error counter of each branch grows by exactly one when
    the reduction of that branch failed and is left alone otherwise.  The
    two cells of the store (time of the scrape, duration) are written after
    the three reductions, from the clock.  Whether a reduction succeeds is
    decided by what its own upstream answers, whatever happened to the other
    two: the order reduction fails exactly when its fetch fails, a line item
    has no product id, or an order has a status named like a function of
    [Object.prototype]; the product reduction exactly when its fetch fails
    or a product has such a status; the customer reduction exactly when its
    first fetch fails.  A reduction that succeeded has written its metrics,
    and the cells of its metrics are at the end of the collection as the
    reduction left them: every cell of an order metric, and of a product
    metric, is as the writes of the reduction leave it, among them the
    number of orders and the average order value, and the two stock counts;
    and the number of customers is the count of the walk over the customers
    or, when the walk fails, that of the first fetch. *)
Theorem branch_failures_are_isolated (c : WooCommerceClient) (s : State num) :
  let final := collectStoreMetrics clock c s in
  let r_orders := (orders_run clock c s).1 in
  let r_products := (products_run clock c s).1 in
  let r_customers := (customers_run clock c s).1 in
  let t_end := ticks (customers_run clock c s).2 in
  final.1 = Ok tt
  /\ errors (register final.2) (error_key c "orders")
     = (errors (register s) (error_key c "orders") + failed r_orders)%N
  /\ errors (register final.2) (error_key c "products")
     = (errors (register s) (error_key c "products") + failed r_products)%N
  /\ errors (register final.2) (error_key c "customers")
     = (errors (register s) (error_key c "customers") + failed r_customers)%N
  /\ gauges (register final.2) !! last_scrape_key c
     = Some (of_Z (clock t_end `div` 1000))
  /\ gauges (register final.2) !! scrape_duration_key c
     = Some (seconds_since (clock (ticks s)) (clock (S t_end)))
  /\ r_orders
     = match (Client.getAllOrders c (cycle_params clock (S (ticks s))) s).1 with
       | Throw e => Throw e
       | Ok orders =>
           match process_orders (cycle_today clock (S (ticks s)))
                   (cycle_thisMonth clock (S (ticks s))) order_acc0 orders with
           | Throw e => Throw e
           | Ok acc => if plain_statuses (order_status <$> orders)
                       then Ok tt else Throw not_a_number
           end
       end
  /\ r_products
     = match (Client.getAllProducts c no_params s).1 with
       | Throw e => Throw e
       | Ok products => if plain_statuses (product_status <$> products)
                        then Ok tt else Throw not_a_number
       end
  /\ r_customers
     = match get_customers (api c) customers_probe_params with
       | Throw e => Throw e
       | Ok _ => Ok tt
       end
  /\ (forall k, k.1 ∈ order_metric_names ->
        gauges (register final.2) !! k = gauges (register (orders_run clock c s).2) !! k)
  /\ (forall k, k.1 ∈ product_metric_names ->
        gauges (register final.2) !! k = gauges (register (products_run clock c s).2) !! k)
  /\ (r_orders = Ok tt ->
      exists orders acc,
        (Client.getAllOrders c (cycle_params clock (S (ticks s))) s).1 = Ok orders
        /\ process_orders (cycle_today clock (S (ticks s))) (cycle_thisMonth clock (S (ticks s)))
                          order_acc0 orders = Ok acc
        /\ gauges (register final.2)
             !! (totalOrdersGauge, [storeId c; storeName c; "all"; currency (storeConfig c)])
           = Some (of_nat (length orders))
        /\ gauges (register final.2)
             !! (averageOrderValueGauge,
                 [storeId c; storeName c; currency (storeConfig c); "all_time"])
           = Some (avgOrderValue acc)
        /\ (forall k, k.1 ∈ order_metric_names ->
              gauges (register final.2) !! k
              = gauges (set_gauges (order_writes (storeId c) (storeName c)
                                      (currency (storeConfig c)) (length orders) acc)
                                   (register s)) !! k))
  /\ (r_products = Ok tt ->
      exists products,
        (Client.getAllProducts c no_params s).1 = Ok products
        /\ gauges (register final.2) !! (outOfStockProductsGauge, [storeId c; storeName c])
           = Some (of_nat (pa_outOfStockCount (process_products products)))
        /\ gauges (register final.2)
             !! (lowStockProductsGauge, [storeId c; storeName c; pretty lowStockThreshold])
           = Some (of_nat (pa_lowStockCount (process_products products)))
        /\ (forall k, k.1 ∈ product_metric_names ->
              gauges (register final.2) !! k
              = gauges (set_gauges (product_writes (storeId c) (storeName c)
                                      (length products) (process_products products))
                                   (register (orders_run clock c s).2)) !! k))
  /\ (r_customers = Ok tt ->
      exists customers,
        get_customers (api c) customers_probe_params = Ok customers
        /\ gauges (register final.2) !! (totalCustomersGauge, [storeId c; storeName c])
           = Some (of_nat (customers_published c customers))).
Proof.
  intros final r_orders r_products r_customers t_end.
  subst final r_orders r_products r_customers t_end.
  split; [apply collectStoreMetrics_run|].
  split; [|split; [|split]].
  1-3: rewrite collectStoreMetrics_errors;
       repeat match goal with
              | |- context [decide (?a = ?b)] =>
                  first [ rewrite (decide_True (P := a = b)) by reflexivity
                        | rewrite (decide_False (P := a = b)) by (intros [=]) ]
              end; lia.
  split; [|split].
  - destruct (collectStoreMetrics_run clock c s) as [_ ->].
    apply (lookup_set_gauges_last []). apply (writes_within_notin [scrapeDurationGauge]).
    + split_writes; in_names.
    + not_in_names.
  - destruct (collectStoreMetrics_run clock c s) as [_ ->].
    apply (lookup_set_gauges_last [_] []). intros Hin. inversion Hin.
  - split; [|split; [|split; [|split; [|split; [|split; [|split]]]]]].
    + unfold orders_run. apply (collectOrderMetrics_outcome c (store_start c s) s).
    + unfold products_run. apply collectProductMetrics_outcome.
    + unfold customers_run. apply collectCustomerMetrics_outcome.
    + intros k Hk. apply order_cells_kept. exact Hk.
    + intros k Hk. apply product_cells_kept. exact Hk.
    + intros Hok. unfold orders_run in Hok.
      destruct (collectOrderMetrics_ok c (store_start c s) s Hok)
        as (orders & acc & x & Hfetch & Hacc & Hnum & Hx & Hreg).
      exists orders, acc. split; [exact Hfetch|]. split; [exact Hacc|].
      rewrite !order_cells_kept by in_names.
      unfold orders_run. rewrite Hreg.
      split; [apply lookup_total_orders|].
      split; [apply lookup_average_order_value; exact Hnum|].
      intros k Hk. rewrite order_cells_kept by exact Hk.
      unfold orders_run. rewrite Hreg.
      apply (lookup_after_api_time order_metric_names); [exact Hx|not_in_names|exact Hk].
    + intros Hok. unfold products_run in Hok.
      destruct (collectProductMetrics_ok c _ s Hok)
        as (products & x & Hfetch & Hnum & Hx & Hreg).
      exists products. split; [exact Hfetch|].
      rewrite !product_cells_kept by in_names.
      unfold products_run. rewrite Hreg.
      split; [apply lookup_out_of_stock; exact Hnum|].
      split; [apply lookup_low_stock; exact Hnum|].
      intros k Hk. rewrite product_cells_kept by exact Hk.
      unfold products_run. rewrite Hreg.
      apply (lookup_after_api_time product_metric_names); [exact Hx|not_in_names|exact Hk].
    + intros Hok. unfold customers_run in Hok.
      rewrite collectCustomerMetrics_outcome in Hok.
      destruct (get_customers (api c) customers_probe_params) as [customers|e] eqn:Hprobe;
        [|discriminate Hok].
      exists customers. split; [reflexivity|].
      rewrite collectStoreMetrics_frame by not_in_names.
      unfold customers_run.
      destruct (collectCustomerMetrics_published clock c (products_run clock c s).2
                  customers Hprobe) as [_ ->].
      apply (lookup_set_gauges_last [_] []). intros Hin. inversion Hin.
Qed.

End Isolation.

Section NeverGeneral.
Context `{RT : JsRuntime num}.
Variable clock : nat -> Z.
Import Collector.

Lemma collect_one_eq (storeId0 : string) (c : WooCommerceClient) (s : State num) :
  App.collect_one clock (storeId0, c) s
  = (Ok {| App.cr_storeId := storeId0; App.cr_success := true; App.cr_error := None |},
     (collectStoreMetrics clock c s).2).
Proof.
  unfold App.collect_one.
  destruct (collectStoreMetrics_run clock c s) as [Hok _].
  destruct (collectStoreMetrics clock c s) as [r s1] eqn:Hrun. cbn [fst snd] in *. subst r.
  erewrite try_catch_ok; [reflexivity|].
  erewrite mbind_ok by exact Hrun. reflexivity.
Qed.

Lemma allSettled_all_success (storeClients : list (string * WooCommerceClient))
    (s : State num) :
  (App.allSettled clock storeClients s).1
  = Ok ((fun entry : string * WooCommerceClient =>
           Ok {| App.cr_storeId := entry.1; App.cr_success := true;
                 App.cr_error := None |}) <$> storeClients).
Proof.
  revert s. induction storeClients as [|[storeId0 c] rest IH]; intros s; [reflexivity|].
  change (App.allSettled clock ((storeId0, c) :: rest))
    with (r ← settle (App.collect_one clock (storeId0, c));
          rs ← App.allSettled clock rest;
          mret (r :: rs)).
  rewrite (mbind_ok _ _ _ _ _ (settle_eq _ _)), collect_one_eq. cbn [fst snd].
  specialize (IH (collectStoreMetrics clock c s).2).
  destruct (App.allSettled clock rest (collectStoreMetrics clock c s).2) as [r s1] eqn:Hrest.
  cbn [fst] in IH. subst r.
  erewrite mbind_ok by exact Hrest. reflexivity.
Qed.

(** C8. A failure of a reduction never reaches the outer [catch] of
    [collectStoreMetrics]: the collection of a store resolves whatever the
    three reductions do (all three may fail), the [general] error counter is
    not incremented, and the cycle records every store with
    [success: true]. *)
Theorem reduction_failure_never_general (c : WooCommerceClient) (s : State num)
    (storeClients : list (string * WooCommerceClient)) :
  (collectStoreMetrics clock c s).1 = Ok tt
  /\ errors (register (collectStoreMetrics clock c s).2) (error_key c "general")
     = errors (register s) (error_key c "general")
  /\ counters (register (collectStoreMetrics clock c s).2) !! error_key c "general"
     = counters (register s) !! error_key c "general"
  /\ (forall storeId0 : string,
        (App.collect_one clock (storeId0, c) s).1
        = Ok {| App.cr_storeId := storeId0; App.cr_success := true;
                App.cr_error := None |})
  /\ (App.allSettled clock storeClients s).1
     = Ok ((fun entry : string * WooCommerceClient =>
              Ok {| App.cr_storeId := entry.1; App.cr_success := true;
                    App.cr_error := None |}) <$> storeClients).
Proof.
  split; [apply collectStoreMetrics_run|].
  split.
  { rewrite collectStoreMetrics_errors.
    repeat match goal with
           | |- context [decide (?a = ?b)] =>
               rewrite (decide_False (P := a = b)) by (intros [=])
           end. lia. }
  split.
  { rewrite collectStoreMetrics_counters.
    destruct (customers_run clock c s).1, (products_run clock c s).1,
      (orders_run clock c s).1; cbn [bump_if_failed]; unfold bump;
      rewrite ?lookup_insert_ne by (intros [=]); reflexivity. }
  split.
  { intros storeId0. rewrite collect_one_eq. reflexivity. }
  apply allSettled_all_success.
Qed.

End NeverGeneral.

(** ** Stale cells *)

Section StaleCells.
Context `{RT : JsRuntime num}.
Variable clock : nat -> Z.
Import Collector.

(** A gauge cell is in the exposition exactly when it is in the registry. *)
Lemma render_gauge (r : Registry num) (k : SampleKey) (v : num) :
  GaugeSample k v ∈ render r <-> gauges r !! k = Some v.
Proof.
  unfold render. rewrite elem_of_app, !list_elem_of_fmap. split.
  - intros [[[k' v'] [Heq Hin]]|[[k' n] [Heq _]]]; [|discriminate Heq].
    cbn in Heq. injection Heq as -> ->. apply elem_of_map_to_list. exact Hin.
  - intros Hk. left. exists (k, v). split; [reflexivity|].
    apply elem_of_map_to_list. exact Hk.
Qed.

(** The statuses counted by the order reduction are those of the orders. *)
Lemma process_orders_status_absent (today thisMonth : string) (orders : list Order)
    (acc : OrderAcc) (status : string) :
  process_orders today thisMonth order_acc0 orders = Ok acc ->
  (forall o, o ∈ orders -> order_status o <> status) ->
  own (oa_statusCounts acc) status = None.
Proof.
  intros Hacc Habsent. rewrite (process_orders_own _ _ _ _ status Hacc).
  replace (filter (fun o => order_status o = status) orders) with (@nil Order);
    [reflexivity|].
  symmetry. clear Hacc. induction orders as [|o orders IH]; [reflexivity|].
  rewrite filter_cons.
  rewrite decide_False by (apply Habsent; apply list_elem_of_here).
  apply IH. intros o' Ho'. apply Habsent. apply list_elem_of_further. exact Ho'.
Qed.

(** The cell of a status that no order of the cycle has is not written. *)
Lemma status_key_not_written (storeId storeName currency status : string) (n : nat)
    (acc : OrderAcc) (x : SampleKey * num) :
  x.1.1 = apiResponseTimeGauge ->
  own (oa_statusCounts acc) status = None ->
  (ordersByStatusGauge, [storeId; storeName; status; currency])
    ∉ (x :: order_writes storeId storeName currency n acc).*1.
Proof.
  intros Hx Hnone. unfold order_writes.
  rewrite fmap_cons, !fmap_app, not_elem_of_cons, !not_elem_of_app.
  split; [intros Heq; rewrite <- Heq in Hx; discriminate Hx|].
  split; [not_in_names|]. split.
  - intros [[[m ls] v] [Heq [[st cnt] [Hkv Hin]]%list_elem_of_fmap]]%list_elem_of_fmap.
    cbn in Heq, Hkv. injection Hkv as -> -> _. injection Heq as Hst.
    apply counts_before_text_own in Hin. congruence.
  - destruct (numeric (oa_statusCounts acc)); [|intros Hin; inversion Hin].
    rewrite fmap_app, not_elem_of_app. split.
    + not_in_names.
    + rewrite <- list_fmap_compose. not_in_fmap.
Qed.

(** The cell of a product that is not among the top products of the cycle
    is not written. *)
Lemma top_key_not_written (storeId storeName currency pid pname : string) (n : nat)
    (acc : OrderAcc) (x : SampleKey * num) :
  x.1.1 = apiResponseTimeGauge ->
  (forall e, e ∈ topProducts (oa_productSales acc) ->
             ~ (pretty (sale_id e) = pid /\ sale_name e = pname)) ->
  (topProductsSoldGauge, [storeId; storeName; pid; pname])
    ∉ (x :: order_writes storeId storeName currency n acc).*1.
Proof.
  intros Hx Hnot. unfold order_writes.
  rewrite fmap_cons, !fmap_app, not_elem_of_cons, !not_elem_of_app.
  split; [intros Heq; rewrite <- Heq in Hx; discriminate Hx|].
  split; [not_in_names|]. split.
  - rewrite <- list_fmap_compose. not_in_fmap.
  - destruct (numeric (oa_statusCounts acc)); [|intros Hin; inversion Hin].
    rewrite fmap_app, not_elem_of_app. split.
    + not_in_names.
    + intros [[[m ls] v] [Heq [e [Hkv Hin]]%list_elem_of_fmap]]%list_elem_of_fmap.
      cbn in Heq, Hkv. injection Hkv as -> -> _. injection Heq as Hpid Hname.
      apply (Hnot e Hin). split; congruence.
Qed.

(** The gauges after a cycle in which the orders were fetched and
    reduced. *)
Lemma orders_run_register (c : WooCommerceClient) (s : State num) (orders : list Order)
    (acc : OrderAcc) :
  (Client.getAllOrders c (cycle_params clock (S (ticks s))) s).1 = Ok orders ->
  process_orders (cycle_today clock (S (ticks s))) (cycle_thisMonth clock (S (ticks s)))
                 order_acc0 orders = Ok acc ->
  exists x : SampleKey * num,
    x.1.1 = apiResponseTimeGauge
    /\ gauges (register (orders_run clock c s).2)
       = gauges (set_gauges (x :: order_writes (storeId c) (storeName c)
                                    (currency (storeConfig c)) (length orders) acc)
                            (register s)).
Proof.
  intros Hfetch Hacc. unfold orders_run.
  pose proof (collectOrderMetrics_run clock c (store_start c s)) as H. cbv zeta in H.
  rewrite (getAllOrders_result c _ (store_start c s) s) in H.
  change (ticks (store_start c s)) with (S (ticks s)) in H.
  fold (cycle_params clock (S (ticks s))) (cycle_today clock (S (ticks s)))
       (cycle_thisMonth clock (S (ticks s))) in H.
  rewrite Hfetch, Hacc in H. destruct H as (H & _).
  exists (api_time_write c "orders" (clock (S (ticks s))) (clock (S (S (S (ticks s)))))).
  split; [reflexivity|].
  destruct (numeric (oa_statusCounts acc)); destruct H as (_ & ->); reflexivity.
Qed.

(** C9. A cell of [topProductsSold] or [ordersByStatus] left by an earlier
    cycle and not written by the current one keeps its value through the
    whole collection of the store and is still rendered: so it is for a
    product that is no longer among the top products of the cycle, and for
    a status that no order of the cycle has.  Only [clearMetrics] removes
    it. *)
Theorem stale_cells_persist (c : WooCommerceClient) (s : State num) (orders : list Order)
    (acc : OrderAcc) :
  (Client.getAllOrders c (cycle_params clock (S (ticks s))) s).1 = Ok orders ->
  process_orders (cycle_today clock (S (ticks s))) (cycle_thisMonth clock (S (ticks s)))
                 order_acc0 orders = Ok acc ->
  let final := (collectStoreMetrics clock c s).2 in
  (forall (pid pname : string) (v : num),
     let k := (topProductsSoldGauge, [storeId c; storeName c; pid; pname]) in
     gauges (register s) !! k = Some v ->
     (forall e, e ∈ topProducts (oa_productSales acc) ->
                ~ (pretty (sale_id e) = pid /\ sale_name e = pname)) ->
     gauges (register final) !! k = Some v
     /\ GaugeSample k v ∈ render (register final)
     /\ gauges (register (clearMetrics final).2) !! k = None)
  /\
  (forall (status : string) (v : num),
     let k := (ordersByStatusGauge,
               [storeId c; storeName c; status; currency (storeConfig c)]) in
     gauges (register s) !! k = Some v ->
     (forall o, o ∈ orders -> order_status o <> status) ->
     gauges (register final) !! k = Some v
     /\ GaugeSample k v ∈ render (register final)
     /\ gauges (register (clearMetrics final).2) !! k = None).
Proof.
  intros Hfetch Hacc final. subst final.
  destruct (orders_run_register c s orders acc Hfetch Hacc) as (x & Hx & Hreg).
  assert (Hkeep : forall k v,
            k.1 ∉ [lastScrapeSuccessGauge; scrapeDurationGauge] ->
            k.1 ∉ [apiResponseTimeGauge; totalCustomersGauge] ->
            k.1 ∉ apiResponseTimeGauge :: product_metric_names ->
            k ∉ (x :: order_writes (storeId c) (storeName c) (currency (storeConfig c))
                        (length orders) acc).*1 ->
            gauges (register s) !! k = Some v ->
            gauges (register (collectStoreMetrics clock c s).2) !! k = Some v
            /\ GaugeSample k v ∈ render (register (collectStoreMetrics clock c s).2)
            /\ gauges (register (clearMetrics (collectStoreMetrics clock c s).2).2) !! k
               = None).
  { intros k v H1 H2 H3 H4 Hold.
    assert (Hnew : gauges (register (collectStoreMetrics clock c s).2) !! k = Some v).
    { rewrite collectStoreMetrics_frame by exact H1.
      unfold customers_run. rewrite collectCustomerMetrics_frame by exact H2.
      unfold products_run. rewrite collectProductMetrics_frame by exact H3.
      rewrite Hreg. rewrite lookup_set_gauges_notin by exact H4. exact Hold. }
    split; [exact Hnew|]. split; [apply render_gauge; exact Hnew|].
    apply lookup_empty. }
  split.
  - intros pid pname v k Hold Hnot. subst k.
    apply Hkeep; [not_in_names|not_in_names|not_in_names| |exact Hold].
    apply top_key_not_written; assumption.
  - intros status v k Hold Habsent. subst k.
    apply Hkeep; [not_in_names|not_in_names|not_in_names| |exact Hold].
    apply status_key_not_written; [assumption|].
    apply (process_orders_status_absent _ _ _ _ _ Hacc). exact Habsent.
Qed.

End StaleCells.

Section StaleExamples.
Import Collector Examples.

(** After the first cycle product 1 is ranked and one order is refunded;
    after the second cycle, where product 1 is eleventh and no order is
    refunded, both cells still hold the values of the first cycle. *)
Lemma stale_cells_persist_witness :
  let s1 := (collectStoreMetrics clock0 shop_before s_init).2 in
  let final := (collectStoreMetrics clock0 shop_after s1).2 in
  (Client.getAllOrders shop_after (cycle_params clock0 (S (ticks s1))) s1).1 = Ok orders_after
  /\ gauges (register s1) !! (topProductsSoldGauge, ["store1"; "Main"; "1"; "P1"]) = Some 3
  /\ gauges (register final) !! (topProductsSoldGauge, ["store1"; "Main"; "1"; "P1"])
     = Some 3
  /\ GaugeSample (topProductsSoldGauge, ["store1"; "Main"; "1"; "P1"]) 3
       ∈ render (register final)
  /\ gauges (register final) !! (ordersByStatusGauge, ["store1"; "Main"; "refunded"; "USD"])
     = Some 1.
Proof.
  intros s1 final.
  assert (Hfetch : (Client.getAllOrders shop_after (cycle_params clock0 (S (ticks s1))) s1).1
                   = Ok orders_after) by (vm_compute; reflexivity).
  destruct (process_orders (cycle_today clock0 (S (ticks s1)))
              (cycle_thisMonth clock0 (S (ticks s1))) order_acc0 orders_after)
    as [acc|e] eqn:Hacc; [|vm_compute in Hacc; discriminate Hacc].
  assert (Hold : gauges (register s1) !! (topProductsSoldGauge, ["store1"; "Main"; "1"; "P1"])
                 = Some 3) by (vm_compute; reflexivity).
  destruct (stale_cells_persist clock0 shop_after s1 orders_after acc Hfetch Hacc)
    as [Hproduct Hstatus].
  split; [exact Hfetch|]. split; [exact Hold|].
  destruct (Hproduct "1" "P1" 3 Hold) as (Hnew & Hrender & _).
  { vm_compute in Hacc. injection Hacc as <-. intros e He [Hpid Hname].
    vm_compute in He.
    repeat (apply elem_of_cons in He as [->|He]; [discriminate Hname|]).
    inversion He. }
  split; [exact Hnew|]. split; [exact Hrender|].
  destruct (Hstatus "refunded" 1) as (Hnew' & _).
  - vm_compute. reflexivity.
  - intros o Ho. apply list_elem_of_singleton in Ho as ->. discriminate.
  - exact Hnew'.
Defined.

End StaleExamples.

(** ** The model at work *)

Section Scenarios.
Import Collector Examples.

Example parseInt_leading_integer : parseInt (JStr "  -42px") = Some (-42).
Proof. reflexivity. Qed.

Example parseInt_hexadecimal : parseInt (JStr "0x1f") = Some 31.
Proof. reflexivity. Qed.

Example parseInt_not_a_number : parseInt (JStr "abc") = None.
Proof. reflexivity. Qed.

Example parseInt_null_or_0 : parseInt_or_0 JNull = 0.
Proof. reflexivity. Qed.

(** Quantities 5, 20, 20 and 1 for the products 1 to 4: products 2 and 3
    are ranked first, in the order of their keys. *)
Example top_products_ranking :
  sale_id <$> topProducts
    [ {| sale_id := 4; sale_name := "P4"; sale_quantity := 1 |};
      {| sale_id := 3; sale_name := "P3"; sale_quantity := 20 |};
      {| sale_id := 1; sale_name := "P1"; sale_quantity := 5 |};
      {| sale_id := 2; sale_name := "P2"; sale_quantity := 20 |} ]
  = [2; 3; 1; 4].
Proof. reflexivity. Qed.

(** A cycle over three stores, the orders of store B failing: the cycle
    returns normally; the order and product gauges of A and C are written;
    the error counter of B for [orders] is 1 and B has no [general] error;
    the products of B are counted and its scrape time is set. *)
Example partial_failure_three_stores :
  let run := App.collectAllMetrics clock0 three_stores s_init in
  let reg := register run.2 in
  run.1 = Ok tt
  /\ gauges reg !! (totalOrdersGauge, ["a"; "A"; "all"; "USD"]) = Some 1
  /\ gauges reg !! (totalOrdersGauge, ["c"; "C"; "all"; "USD"]) = Some 1
  /\ gauges reg !! (totalOrdersGauge, ["b"; "B"; "all"; "USD"]) = None
  /\ gauges reg !! (outOfStockProductsGauge, ["a"; "A"]) = Some 1
  /\ gauges reg !! (outOfStockProductsGauge, ["b"; "B"]) = Some 1
  /\ gauges reg !! (lowStockProductsGauge, ["b"; "B"; "10"]) = Some 1
  /\ gauges reg !! (totalCustomersGauge, ["b"; "B"]) = Some 1
  /\ counters reg !! error_key store_b "orders" = Some 1%N
  /\ counters reg !! error_key store_b "general" = None
  /\ counters reg !! error_key store_a "orders" = None
  /\ is_Some (gauges reg !! last_scrape_key store_b)
  /\ is_Some (gauges reg !! scrape_duration_key store_b).
Proof. vm_compute. repeat split; eauto. Qed.

End Scenarios.

(** * Further properties *)

(** ** Cells with one value *)

Section CellValues.
Context {num : Type}.

(** When every write of a batch to the cell [k] carries the value [v], and
    the cell is written by the batch or holds [v] already, it holds [v]
    afterwards. *)
Lemma lookup_set_gauges_agree (kvs : list (SampleKey * num)) (r : Registry num)
    (k : SampleKey) (v : num) :
  (forall kv, kv ∈ kvs -> kv.1 = k -> kv.2 = v) ->
  (k ∈ kvs.*1 \/ gauges r !! k = Some v) ->
  gauges (set_gauges kvs r) !! k = Some v.
Proof.
  revert r. induction kvs as [|[k' v'] kvs IH]; intros r Hall Hor.
  - destruct Hor as [Hin|Hr]; [inversion Hin|exact Hr].
  - change (set_gauges ((k', v') :: kvs) r) with (set_gauges kvs (registry_set k' v' r)).
    apply IH.
    + intros kv Hin. apply Hall. apply list_elem_of_further. exact Hin.
    + destruct (decide (k' = k)) as [->|Hne].
      * right. cbn. rewrite lookup_insert_eq. f_equal.
        apply (Hall (k, v')); [apply list_elem_of_here|reflexivity].
      * destruct Hor as [Hin|Hr].
        -- left. rewrite fmap_cons in Hin. apply elem_of_cons in Hin as [Heq|Hin];
             [cbn in Heq; congruence|exact Hin].
        -- right. cbn. rewrite lookup_insert_ne by exact Hne. exact Hr.
Qed.

Lemma errors_registry_inc (k : SampleKey) (r : Registry num) :
  errors (registry_inc k r) k = (errors r k + 1)%N.
Proof. unfold errors, registry_inc. cbn. rewrite lookup_insert_eq. reflexivity. Qed.

Lemma errors_set_gauges (kvs : list (SampleKey * num)) (r : Registry num) (k : SampleKey) :
  errors (set_gauges kvs r) k = errors r k.
Proof. unfold errors. rewrite counters_set_gauges. reflexivity. Qed.

End CellValues.

(** ** Tallies of the product reduction *)

Section ProductTallies.
Import Collector.

Lemma process_product_tallies (acc : ProductAcc) (p : Product) :
  pa_outOfStockCount (process_product acc p)
  = (pa_outOfStockCount acc + if decide (is_out_of_stock p) then 1 else 0)%nat
  /\ pa_lowStockCount (process_product acc p)
     = (pa_lowStockCount acc
        + if decide (~ is_out_of_stock p /\ is_low_stock p) then 1 else 0)%nat.
Proof.
  unfold process_product.
  pose proof (out_of_stock_test p) as Ho. pose proof (low_stock_test p) as Hl.
  destruct (String.eqb (product_stock_status p) "outofstock"
            || (parseInt_or_0 (product_stock_quantity p) =? 0)) eqn:Eo;
  destruct (truthy (product_manage_stock p)
            && (parseInt_or_0 (product_stock_quantity p) <=? lowStockThreshold)) eqn:El;
  cbn [pa_outOfStockCount pa_lowStockCount pa_statusCounts];
  repeat case_decide; intuition (try congruence; try lia).
Qed.

Lemma fold_process_product_tallies (products : list Product) (acc : ProductAcc) :
  pa_outOfStockCount (fold_left process_product products acc)
  = (pa_outOfStockCount acc + length (filter is_out_of_stock products))%nat
  /\ pa_lowStockCount (fold_left process_product products acc)
     = (pa_lowStockCount acc
        + length (filter (fun p => ~ is_out_of_stock p /\ is_low_stock p) products))%nat.
Proof.
  revert acc. induction products as [|p products IH]; intros acc; cbn [fold_left].
  - repeat split; intros; rewrite ?filter_nil; cbn; lia.
  - destruct (IH (process_product acc p)) as (Ho & Hl).
    destruct (process_product_tallies acc p) as (Ho1 & Hl1).
    rewrite Ho, Hl, Ho1, Hl1. rewrite !filter_cons.
    split.
    + destruct (decide (is_out_of_stock p)); cbn [length]; lia.
    + destruct (decide (~ is_out_of_stock p /\ is_low_stock p)); cbn [length]; lia.
Qed.

Lemma process_products_stock (products : list Product) :
  pa_outOfStockCount (process_products products)
  = length (filter is_out_of_stock products)
  /\ pa_lowStockCount (process_products products)
     = length (filter (fun p => ~ is_out_of_stock p /\ is_low_stock p) products).
Proof.
  unfold process_products.
  destruct (fold_process_product_tallies products product_acc0) as (Ho & Hl).
  rewrite Ho, Hl. split; reflexivity.
Qed.

Lemma disjoint_filters_length {A : Type} (P Q : A -> Prop) `{forall x, Decision (P x)}
    `{forall x, Decision (Q x)} (l : list A) :
  (forall x, P x -> Q x -> False) ->
  (length (filter P l) + length (filter Q l) <= length l)%nat.
Proof.
  intros Hdis. induction l as [|x l IH]; [cbn; lia|].
  rewrite !filter_cons. specialize (Hdis x).
  destruct (decide (P x)), (decide (Q x)); cbn [length]; try lia. tauto.
Qed.

(** What a status that was counted reads. *)
Lemma count_of_shadowing (sc : StatusCounts) (k : string) (n : nat) :
  own sc k = counted n k -> shadows_member k = true -> n <> 0%nat ->
  count_of sc k = Text n.
Proof.
  intros Hown Hsh Hn. unfold count_of, get. rewrite Hown. unfold counted.
  unfold shadows_member in Hsh. apply andb_true_iff in Hsh as [Hinh Hp].
  apply negb_true_iff in Hp. rewrite Hp, Hinh.
  destruct n as [|n]; [congruence|]. reflexivity.
Qed.

Lemma counted_proto (n : nat) : counted n "__proto__" = None.
Proof. unfold counted. destruct (Nat.eqb n 0); reflexivity. Qed.

(** X1. The tallies of the product reduction.  [outOfStockCount] is the
    number of products that are out of stock, [lowStockCount] the number of
    those that are not out of stock and are low in stock.  The own property
    of [statusCounts] for a status is the one of a status counted as many
    times as there are products with that status: so the count read for a
    status that is not the name of a member of [Object.prototype] is the
    number of products with that status; the count read for the name of a
    function of [Object.prototype] that some product has as its status is a
    string; and nothing is recorded for [__proto__].  No product is in both
    stock counts: their sum is at most the number of products. *)
Theorem product_tallies (products : list Product) :
  let statusCounts := pa_statusCounts (process_products products) in
  let n status := length (products_with_status status products) in
  pa_outOfStockCount (process_products products)
  = length (filter is_out_of_stock products)
  /\ pa_lowStockCount (process_products products)
     = length (filter (fun p => ~ is_out_of_stock p /\ is_low_stock p) products)
  /\ (forall status, own statusCounts status = counted (n status) status)
  /\ (forall status, inherited status = false ->
        count_of statusCounts status = Count (n status))
  /\ (forall status, shadows_member status = true -> n status <> 0%nat ->
        count_of statusCounts status = Text (n status))
  /\ own statusCounts "__proto__" = None
  /\ (pa_outOfStockCount (process_products products)
      + pa_lowStockCount (process_products products) <= length products)%nat.
Proof.
  intros statusCounts n. subst statusCounts n. cbv beta.
  destruct (process_products_stock products) as (Ho & Hl). rewrite Ho, Hl.
  split; [reflexivity|]. split; [reflexivity|].
  split; [apply process_products_own|].
  split; [intros status Hinh; apply count_of_counted;
          [apply process_products_own|exact Hinh]|].
  split; [intros status Hsh Hn; apply count_of_shadowing;
          [apply process_products_own|exact Hsh|exact Hn]|].
  split; [rewrite process_products_own; apply counted_proto|].
  apply disjoint_filters_length. tauto.
Qed.

End ProductTallies.

(** ** The cells of a reduction, by status *)

(** Every write of a batch to a cell carries one value: the members of the
    batch are taken apart, and a write to another metric is discarded. *)
Ltac split_members H :=
  repeat first
    [ apply elem_of_cons in H as [H|H]
    | apply elem_of_app in H as [H|H]
    | apply list_elem_of_fmap in H as (? & ? & H) ].

Section StatusCells.
Context `{RT : JsRuntime num}.
Import Collector.

(** When every count is a number, the by-status writes are those of the own
    properties. *)
Lemma elem_of_status_writes (sc : StatusCounts) (k : string) (n : nat) :
  NoDup sc.*1 -> numeric sc = true ->
  (k, n) ∈ counts_before_text (status_entries sc) <-> own sc k = Some (Count n).
Proof.
  intros Hnd Hnum. split.
  - intros Hin. apply elem_of_counts_before_text in Hin.
    rewrite status_entries_perm in Hin. apply elem_of_own; assumption.
  - intros Hown. apply own_elem_of in Hown. rewrite <- status_entries_perm in Hown.
    rewrite counts_before_text_numeric by (rewrite numeric_status_entries; exact Hnum).
    apply (list_elem_of_fmap_2' _ _ (k, Count n)); [exact Hown|reflexivity].
Qed.

Lemma process_products_NoDup (products : list Product) :
  NoDup (pa_statusCounts (process_products products)).*1.
Proof.
  unfold process_products. rewrite process_products_statusCounts.
  apply NoDup_fold_count_status. constructor.
Qed.

Lemma process_orders_NoDup (today thisMonth : string) (orders : list Order) (acc : OrderAcc) :
  process_orders today thisMonth order_acc0 orders = Ok acc ->
  NoDup (oa_statusCounts acc).*1.
Proof.
  intros Hacc. rewrite (process_orders_statusCounts _ _ _ _ _ Hacc).
  apply NoDup_fold_count_status. constructor.
Qed.

(** A status that some record has, none of the statuses being named like a
    function of [Object.prototype]. *)
Lemma present_plain {A : Type} (f : A -> string) (l : list A) (status : string) :
  plain_statuses (f <$> l) = true ->
  length (filter (fun x => f x = status) l) <> 0%nat ->
  shadows_member status = false.
Proof.
  intros Hplain Hn. apply (proj1 (plain_statuses_true _) Hplain).
  destruct (filter (fun x => f x = status) l) as [|x r] eqn:Hf; [cbn in Hn; lia|].
  assert (Hx : x ∈ filter (fun x => f x = status) l) by (rewrite Hf; apply list_elem_of_here).
  apply list_elem_of_filter in Hx as [<- Hx]. apply list_elem_of_fmap_2. exact Hx.
Qed.

(** The own property of a status that is counted as a number, or not
    recorded. *)
Lemma counted_plain (n : nat) (status : string) :
  (n <> 0%nat -> shadows_member status = false) ->
  counted n status
  = if decide (n = 0%nat \/ status = "__proto__") then None else Some (Count n).
Proof.
  intros Hplain. unfold counted.
  destruct n as [|n]; cbn [Nat.eqb]; [rewrite decide_True by tauto; reflexivity|].
  destruct (String.eqb status "__proto__") eqn:Hp;
    [apply String.eqb_eq in Hp|apply String.eqb_neq in Hp].
  - rewrite decide_True by tauto. reflexivity.
  - rewrite decide_False by (intros [?|?]; [lia|congruence]).
    specialize (Hplain ltac:(lia)). unfold shadows_member in Hplain.
    rewrite (proj2 (String.eqb_neq _ _) Hp) in Hplain. cbn in Hplain.
    rewrite andb_true_r in Hplain. rewrite Hplain. reflexivity.
Qed.

(** The cell of a status after the by-status writes and some writes to
    other cells, every count being a number. *)
Lemma lookup_status_writes (metric : string) (labels : string -> list string)
    (sc : StatusCounts) (rest : list (SampleKey * num)) (r : Registry num)
    (status : string) :
  (forall s1 s2, labels s1 = labels s2 -> s1 = s2) ->
  NoDup sc.*1 -> numeric sc = true ->
  (metric, labels status) ∉ rest.*1 ->
  gauges (set_gauges (((fun e : string * nat => ((metric, labels e.1), of_nat e.2))
                         <$> counts_before_text (status_entries sc)) ++ rest) r)
    !! (metric, labels status)
  = match own sc status with
    | Some (Count n) => Some (of_nat n)
    | _ => gauges r !! (metric, labels status)
    end.
Proof.
  intros Hinj Hnd Hnum Hrest.
  assert (Hcases : (exists n, own sc status = Some (Count n))
                   \/ forall n, own sc status <> Some (Count n)).
  { destruct (own sc status) as [[n| |]|]; eauto; right; intros n; discriminate. }
  destruct Hcases as [[n Hown]|Hnone].
  - rewrite Hown. apply lookup_set_gauges_agree.
    + intros kv Hin Hk. apply elem_of_app in Hin as [Hin|Hin].
      * apply list_elem_of_fmap in Hin as ([st m] & -> & Hin). cbn in Hk.
        injection Hk as Hk. apply Hinj in Hk. subst st.
        apply (elem_of_status_writes _ _ _ Hnd Hnum) in Hin. cbn. congruence.
      * exfalso. apply Hrest. rewrite <- Hk. apply list_elem_of_fmap_2. exact Hin.
    + left. rewrite fmap_app. apply elem_of_app. left. rewrite <- list_fmap_compose.
      apply (list_elem_of_fmap_2' _ _ (status, n)); [|reflexivity].
      apply elem_of_status_writes; assumption.
  - transitivity (gauges r !! (metric, labels status)).
    + apply lookup_set_gauges_notin. rewrite fmap_app, not_elem_of_app.
      split; [|exact Hrest]. rewrite <- list_fmap_compose.
      intros ([st m] & Hk & Hin)%list_elem_of_fmap. cbn in Hk.
      injection Hk as Hk. apply Hinj in Hk. subst st.
      apply (elem_of_status_writes _ _ _ Hnd Hnum) in Hin. exact (Hnone m Hin).
    + destruct (own sc status) as [[n| |]|]; try reflexivity.
      exfalso. exact (Hnone n eq_refl).
Qed.

End StatusCells.

(** The cell of a status after the by-status writes of a reduction. *)
Ltac status_cell metric labels sc status :=
  match goal with
  | |- context [gauges (set_gauges (_ ++ ?rest) ?r) !! _] =>
      let Hs := fresh "Hs" in
      pose proof (lookup_status_writes metric labels sc rest r status) as Hs;
      cbv beta in Hs; etransitivity; [apply Hs; clear Hs|clear Hs]
  end.

(** ** The cells of the product reduction *)

Section ReductionCells.
Context `{RT : JsRuntime num}.
Variable clock : nat -> Z.
Import Collector.

Lemma collectProductMetrics_register (c : WooCommerceClient) (s : State num)
    (products : list Product) :
  (Client.getAllProducts c no_params s).1 = Ok products ->
  plain_statuses (product_status <$> products) = true ->
  exists x : SampleKey * num,
    x.1.1 = apiResponseTimeGauge
    /\ (collectProductMetrics clock c s).1 = Ok tt
    /\ register (collectProductMetrics clock c s).2
       = set_gauges (x :: product_writes (storeId c) (storeName c) (length products)
                            (process_products products))
                    (register s).
Proof.
  intros Hfetch Hplain. pose proof (collectProductMetrics_run clock c s) as H.
  rewrite Hfetch in H. cbv zeta in H.
  rewrite process_products_numeric, Hplain in H. destruct H as ((Hok & Hreg) & _).
  eexists. split; [|split; [exact Hok|exact Hreg]]. reflexivity.
Qed.

(** The product reduction when a product has a status named like a function
    of [Object.prototype]. *)
Lemma collectProductMetrics_not_plain (c : WooCommerceClient) (s : State num)
    (products : list Product) :
  (Client.getAllProducts c no_params s).1 = Ok products ->
  plain_statuses (product_status <$> products) = false ->
  exists x : SampleKey * num,
    x.1.1 = apiResponseTimeGauge
    /\ numeric (pa_statusCounts (process_products products)) = false
    /\ (collectProductMetrics clock c s).1 = Throw not_a_number
    /\ register (collectProductMetrics clock c s).2
       = registry_inc (error_key c "products")
           (set_gauges (x :: product_writes (storeId c) (storeName c) (length products)
                               (process_products products))
                       (register s)).
Proof.
  intros Hfetch Hplain. pose proof (collectProductMetrics_run clock c s) as H.
  rewrite Hfetch in H. cbv zeta in H.
  rewrite process_products_numeric, Hplain in H. destruct H as ((Hok & Hreg) & _).
  eexists. split; [|split; [|split; [exact Hok|exact Hreg]]]; [reflexivity|].
  rewrite process_products_numeric. exact Hplain.
Qed.

Lemma collectOrderMetrics_register (c : WooCommerceClient) (s : State num)
    (orders : list Order) (acc : OrderAcc) :
  (Client.getAllOrders c (cycle_params clock (ticks s)) s).1 = Ok orders ->
  process_orders (cycle_today clock (ticks s)) (cycle_thisMonth clock (ticks s))
                 order_acc0 orders = Ok acc ->
  plain_statuses (order_status <$> orders) = true ->
  exists x : SampleKey * num,
    x.1.1 = apiResponseTimeGauge
    /\ numeric (oa_statusCounts acc) = true
    /\ (collectOrderMetrics clock c s).1 = Ok tt
    /\ register (collectOrderMetrics clock c s).2
       = set_gauges (x :: order_writes (storeId c) (storeName c) (currency (storeConfig c))
                            (length orders) acc)
                    (register s).
Proof.
  intros Hfetch Hacc Hplain.
  pose proof (collectOrderMetrics_run clock c s) as H. cbv zeta in H.
  fold (cycle_params clock (ticks s)) (cycle_today clock (ticks s))
       (cycle_thisMonth clock (ticks s)) in H.
  rewrite Hfetch, Hacc in H.
  assert (Hnum : numeric (oa_statusCounts acc) = true)
    by (rewrite (process_orders_numeric _ _ _ _ Hacc); exact Hplain).
  rewrite Hnum in H. destruct H as ((Hok & Hreg) & _).
  eexists. split; [|split; [exact Hnum|split; [exact Hok|exact Hreg]]]. reflexivity.
Qed.

(** The order reduction when an order has a status named like a function
    of [Object.prototype]. *)
Lemma collectOrderMetrics_not_plain (c : WooCommerceClient) (s : State num)
    (orders : list Order) (acc : OrderAcc) :
  (Client.getAllOrders c (cycle_params clock (ticks s)) s).1 = Ok orders ->
  process_orders (cycle_today clock (ticks s)) (cycle_thisMonth clock (ticks s))
                 order_acc0 orders = Ok acc ->
  plain_statuses (order_status <$> orders) = false ->
  exists x : SampleKey * num,
    x.1.1 = apiResponseTimeGauge
    /\ numeric (oa_statusCounts acc) = false
    /\ (collectOrderMetrics clock c s).1 = Throw not_a_number
    /\ register (collectOrderMetrics clock c s).2
       = registry_inc (error_key c "orders")
           (set_gauges (x :: order_writes (storeId c) (storeName c)
                               (currency (storeConfig c)) (length orders) acc)
                       (register s)).
Proof.
  intros Hfetch Hacc Hplain.
  pose proof (collectOrderMetrics_run clock c s) as H. cbv zeta in H.
  fold (cycle_params clock (ticks s)) (cycle_today clock (ticks s))
       (cycle_thisMonth clock (ticks s)) in H.
  rewrite Hfetch, Hacc in H.
  assert (Hnum : numeric (oa_statusCounts acc) = false)
    by (rewrite (process_orders_numeric _ _ _ _ Hacc); exact Hplain).
  rewrite Hnum in H. destruct H as ((Hok & Hreg) & _).
  eexists. split; [|split; [exact Hnum|split; [exact Hok|exact Hreg]]]. reflexivity.
Qed.

(** The cells that are not written when a count is not a number. *)
Lemma product_writes_stop (storeId storeName : string) (n : nat) (acc : ProductAcc)
    (x : SampleKey * num) (r : Registry num) (k : SampleKey) :
  x.1.1 = apiResponseTimeGauge ->
  numeric (pa_statusCounts acc) = false ->
  k.1 ∉ [apiResponseTimeGauge; totalProductsGauge] ->
  gauges (set_gauges (x :: product_writes storeId storeName n acc) r) !! k = gauges r !! k.
Proof.
  intros Hx Hnum Hk.
  apply (lookup_set_gauges_other [apiResponseTimeGauge; totalProductsGauge]); [|exact Hk].
  apply writes_within_cons; [rewrite Hx; apply list_elem_of_here|].
  unfold product_writes. rewrite Hnum. split_writes; in_names.
Qed.

Lemma order_writes_stop (storeId storeName currency : string) (n : nat) (acc : OrderAcc)
    (x : SampleKey * num) (r : Registry num) (k : SampleKey) :
  x.1.1 = apiResponseTimeGauge ->
  numeric (oa_statusCounts acc) = false ->
  k.1 ∉ [apiResponseTimeGauge; totalOrdersGauge; ordersByStatusGauge] ->
  gauges (set_gauges (x :: order_writes storeId storeName currency n acc) r) !! k
  = gauges r !! k.
Proof.
  intros Hx Hnum Hk.
  apply (lookup_set_gauges_other [apiResponseTimeGauge; totalOrdersGauge; ordersByStatusGauge]);
    [|exact Hk].
  apply writes_within_cons; [rewrite Hx; apply list_elem_of_here|].
  unfold order_writes. rewrite Hnum. split_writes; in_names.
Qed.

(** X2. The product gauges by status.  After a product reduction whose fetch
    succeeded and none of whose products has a status named like a function
    of [Object.prototype], the cell of a status other than [all] and
    [__proto__] that some product has holds the number of products with
    that status, and the cell of a status that no product has, and that of
    [__proto__], is left as it was.  The cell [all] holds the number of
    products, unless some product has the status [all]: the write of that
    status comes later and wins.  The two stock cells hold the two stock
    counts.  When a product has a status named like a function of
    [Object.prototype], the reduction fails with the [TypeError] of the
    gauge, the error counter of the branch goes up by one, and the two
    stock cells are left as they were. *)
Theorem product_cells (c : WooCommerceClient) (s : State num) (products : list Product) :
  (Client.getAllProducts c no_params s).1 = Ok products ->
  let reg := register (collectProductMetrics clock c s).2 in
  let cell status := (totalProductsGauge, [storeId c; storeName c; status]) in
  let n status := length (products_with_status status products) in
  let out_of_stock := (outOfStockProductsGauge, [storeId c; storeName c]) in
  let low_stock :=
    (lowStockProductsGauge, [storeId c; storeName c; pretty lowStockThreshold]) in
  (plain_statuses (product_status <$> products) = true ->
   (collectProductMetrics clock c s).1 = Ok tt
   /\ gauges reg !! cell "all"
      = Some (of_nat (if decide (n "all" = 0%nat) then length products else n "all"))
   /\ (forall status,
         status <> "all" ->
         gauges reg !! cell status
         = if decide (n status = 0%nat \/ status = "__proto__")
           then gauges (register s) !! cell status
           else Some (of_nat (n status)))
   /\ gauges reg !! out_of_stock = Some (of_nat (length (filter is_out_of_stock products)))
   /\ gauges reg !! low_stock
      = Some (of_nat (length (filter (fun p => ~ is_out_of_stock p /\ is_low_stock p)
                                     products))))
  /\
  (plain_statuses (product_status <$> products) = false ->
   (collectProductMetrics clock c s).1 = Throw not_a_number
   /\ errors reg (error_key c "products")
      = (errors (register s) (error_key c "products") + 1)%N
   /\ gauges reg !! out_of_stock = gauges (register s) !! out_of_stock
   /\ gauges reg !! low_stock = gauges (register s) !! low_stock).
Proof.
  intros Hfetch reg cell n out_of_stock low_stock.
  subst reg cell n out_of_stock low_stock. cbv beta.
  split; intros Hplain.
  - destruct (collectProductMetrics_register c s products Hfetch Hplain)
      as (x & Hx & Hok & ->).
    assert (Hnum : numeric (pa_statusCounts (process_products products)) = true)
      by (rewrite process_products_numeric; exact Hplain).
    destruct (process_products_stock products) as [Hout Hlow].
    split; [exact Hok|].
    assert (Hw : product_writes (storeId c) (storeName c) (length products)
                   (process_products products)
                 = ([((totalProductsGauge, [storeId c; storeName c; "all"]),
                      of_nat (length products))]
                    ++ ((fun sc : string * nat =>
                           ((totalProductsGauge, [storeId c; storeName c; sc.1]),
                            of_nat sc.2))
                          <$> counts_before_text
                                (status_entries (pa_statusCounts (process_products products))))
                    ++ [((lowStockProductsGauge,
                          [storeId c; storeName c; pretty lowStockThreshold]),
                         of_nat (pa_lowStockCount (process_products products)));
                        ((outOfStockProductsGauge, [storeId c; storeName c]),
                         of_nat (pa_outOfStockCount (process_products products)))])%list)
      by (unfold product_writes; rewrite Hnum; reflexivity).
    assert (Hstatus : forall status,
              gauges (set_gauges
                        (x :: product_writes (storeId c) (storeName c) (length products)
                                (process_products products)) (register s))
                !! (totalProductsGauge, [storeId c; storeName c; status])
              = if decide (length (products_with_status status products) = 0%nat
                           \/ status = "__proto__")
                then gauges (set_gauges
                               [x; ((totalProductsGauge, [storeId c; storeName c; "all"]),
                                    of_nat (length products))] (register s))
                       !! (totalProductsGauge, [storeId c; storeName c; status])
                else Some (of_nat (length (products_with_status status products)))).
    { intros status. rewrite Hw.
      change (x :: [?t] ++ ?rest)%list with ([x; t] ++ rest)%list.
      rewrite set_gauges_app.
      status_cell totalProductsGauge (fun status : string => [storeId c; storeName c; status])
                  (pa_statusCounts (process_products products)) status;
        [intros s1 s2 [=]; assumption|apply process_products_NoDup|exact Hnum
        |cbn [fmap list_fmap]; not_in_names|].
      rewrite process_products_own.
      rewrite counted_plain by (apply present_plain; exact Hplain).
      case_decide; reflexivity. }
    split; [|split].
    + rewrite Hstatus.
      destruct (decide (length (products_with_status "all" products) = 0%nat)) as [Hz|Hnz].
      * rewrite decide_True by (left; exact Hz).
        apply (lookup_set_gauges_last [x] []). intros Hin. inversion Hin.
      * rewrite decide_False by (intros [?|?]; [contradiction|discriminate]). reflexivity.
    + intros status Hne. rewrite Hstatus. case_decide; [|reflexivity].
      apply lookup_set_gauges_notin. intros Hin.
      apply list_elem_of_fmap in Hin as (kv & Hk & Hin). split_members Hin; subst.
      * rewrite <- Hk in Hx. discriminate Hx.
      * cbn in Hk. congruence.
      * inversion Hin.
    + rewrite <- Hout, <- Hlow.
      split; [apply lookup_out_of_stock|apply lookup_low_stock]; exact Hnum.
  - destruct (collectProductMetrics_not_plain c s products Hfetch Hplain)
      as (x & Hx & Hnum & Hres & ->).
    split; [exact Hres|]. split.
    + rewrite errors_registry_inc, errors_set_gauges. reflexivity.
    + cbn [registry_inc gauges].
      split; apply product_writes_stop; try assumption; not_in_names.
Qed.

End ReductionCells.

(** ** The cells of the order reduction *)

Section OrderCells.
Context `{RT : JsRuntime num}.
Variable clock : nat -> Z.
Import Collector.

Lemma process_order_revenue (today thisMonth : string) (acc acc' : OrderAcc) (o : Order) :
  process_order today thisMonth acc o = Ok acc' ->
  oa_totalRevenue acc'
  = (if decide (order_status o = "completed")
     then nadd (oa_totalRevenue acc) (parseFloat_or_0 (order_total o))
     else oa_totalRevenue acc)
  /\ oa_revenueToday acc'
     = (if decide (order_status o = "completed"
                   /\ toDateString (Date_parse (order_date_created o)) = today)
        then nadd (oa_revenueToday acc) (parseFloat_or_0 (order_total o))
        else oa_revenueToday acc)
  /\ oa_revenueThisMonth acc'
     = (if decide (order_status o = "completed"
                   /\ getFullYear (Date_parse (order_date_created o))
                      +:+ "-" +:+ getMonth1 (Date_parse (order_date_created o))
                      = thisMonth)
        then nadd (oa_revenueThisMonth acc) (parseFloat_or_0 (order_total o))
        else oa_revenueThisMonth acc).
Proof.
  unfold process_order.
  destruct (match order_line_items o with
            | Some items => process_items (oa_productSales acc) items
            | None => Ok (oa_productSales acc)
            end) as [ps|e]; [|discriminate].
  intros [= <-]. cbn [oa_totalRevenue oa_revenueToday oa_revenueThisMonth].
  destruct (String.eqb (order_status o) "completed") eqn:Hc;
    [apply String.eqb_eq in Hc|apply String.eqb_neq in Hc].
  - split; [rewrite decide_True by exact Hc; reflexivity|]. split.
    + destruct (String.eqb (toDateString (Date_parse (order_date_created o))) today) eqn:Hd;
        [apply String.eqb_eq in Hd|apply String.eqb_neq in Hd]; cbn [andb].
      * rewrite decide_True by tauto. reflexivity.
      * rewrite decide_False by tauto. reflexivity.
    + destruct (String.eqb (getFullYear (Date_parse (order_date_created o))
                            +:+ "-" +:+ getMonth1 (Date_parse (order_date_created o)))
                           thisMonth) eqn:Hd;
        [apply String.eqb_eq in Hd|apply String.eqb_neq in Hd]; cbn [andb].
      * rewrite decide_True by tauto. reflexivity.
      * rewrite decide_False by tauto. reflexivity.
  - cbn [andb]. rewrite !decide_False by tauto. repeat split; reflexivity.
Qed.

Lemma process_orders_revenue (today thisMonth : string) (orders : list Order)
    (acc acc' : OrderAcc) :
  process_orders today thisMonth acc orders = Ok acc' ->
  oa_totalRevenue acc'
  = fold_left nadd ((fun o => parseFloat_or_0 (order_total o)) <$> completed_orders orders)
              (oa_totalRevenue acc)
  /\ oa_revenueToday acc'
     = fold_left nadd
         ((fun o => parseFloat_or_0 (order_total o)) <$> completed_on today orders)
         (oa_revenueToday acc)
  /\ oa_revenueThisMonth acc'
     = fold_left nadd
         ((fun o => parseFloat_or_0 (order_total o)) <$> completed_in thisMonth orders)
         (oa_revenueThisMonth acc).
Proof.
  revert acc. induction orders as [|o orders IH]; intros acc; simpl.
  - intros [= <-]. repeat split; reflexivity.
  - destruct (process_order today thisMonth acc o) as [acc1|e] eqn:Ho; [|discriminate].
    intros Hrest. destruct (IH acc1 Hrest) as (Ht & Hd & Hm).
    destruct (process_order_revenue _ _ _ _ _ Ho) as (Ht1 & Hd1 & Hm1).
    rewrite Ht, Hd, Hm, Ht1, Hd1, Hm1.
    unfold completed_orders, completed_on, completed_in. rewrite !filter_cons.
    repeat split.
    + destruct (decide (order_status o = "completed")); reflexivity.
    + destruct (decide (order_status o = "completed"
                        /\ toDateString (Date_parse (order_date_created o)) = today));
        reflexivity.
    + destruct (decide (order_status o = "completed"
                        /\ getFullYear (Date_parse (order_date_created o))
                           +:+ "-" +:+ getMonth1 (Date_parse (order_date_created o))
                           = thisMonth)); reflexivity.
Qed.

(** A cell of the order reduction that is written once, every count being
    a number. *)
Ltac scalar_cell Hx Hnum :=
  apply lookup_set_gauges_agree;
  [ let kv := fresh "kv" in
    let Hin := fresh "Hin" in
    let Hk := fresh "Hk" in
    intros kv Hin Hk; unfold order_writes in Hin; rewrite Hnum in Hin;
    split_members Hin; subst;
    try (rewrite Hk in Hx; discriminate Hx);
    try discriminate Hk; try (inversion Hin; fail); reflexivity
  | left; rewrite fmap_cons; apply list_elem_of_further; unfold order_writes;
    rewrite Hnum, !fmap_app; apply elem_of_app; right; apply elem_of_app; right;
    apply elem_of_app; left; cbn [fmap list_fmap fst];
    repeat first [ apply list_elem_of_here | apply list_elem_of_further ] ].

(** The count read for a status that is not the name of a member of
    [Object.prototype]. *)
Lemma count_nat_orders (today thisMonth : string) (orders : list Order) (acc : OrderAcc)
    (status : string) :
  process_orders today thisMonth order_acc0 orders = Ok acc ->
  inherited status = false ->
  count_nat (count_of (oa_statusCounts acc) status)
  = length (orders_with_status status orders).
Proof.
  intros Hacc Hinh.
  rewrite (count_of_counted _ status (length (orders_with_status status orders)));
    [reflexivity| |exact Hinh].
  apply (process_orders_own _ _ _ _ status Hacc).
Qed.

(** X3. The count cells of the order reduction.  After an order reduction
    whose orders were fetched and read, none of them having a status named
    like a function of [Object.prototype], the reduction succeeds, the cell
    [all] holds the number of orders fetched, the cell of each status other
    than [__proto__] that some order has holds the number of orders with
    that status, the cell of a status that no order has, and that of
    [__proto__], is left as it was, and the cells of pending, failed and
    processing orders hold their counts, 0 when there is none.  When an
    order has a status named like a function of [Object.prototype], the
    reduction fails with the [TypeError] of the gauge: the error counter of
    the branch goes up by one, the cell [all] is written, and apart from
    the response time and the cells by status no other cell changes. *)
Theorem order_count_cells (c : WooCommerceClient) (s : State num) (orders : list Order)
    (acc : OrderAcc) :
  (Client.getAllOrders c (cycle_params clock (ticks s)) s).1 = Ok orders ->
  process_orders (cycle_today clock (ticks s)) (cycle_thisMonth clock (ticks s))
                 order_acc0 orders = Ok acc ->
  let reg := register (collectOrderMetrics clock c s).2 in
  let n status := length (orders_with_status status orders) in
  let cell status :=
    (ordersByStatusGauge, [storeId c; storeName c; status; currency (storeConfig c)]) in
  let all := (totalOrdersGauge, [storeId c; storeName c; "all"; currency (storeConfig c)]) in
  (plain_statuses (order_status <$> orders) = true ->
   (collectOrderMetrics clock c s).1 = Ok tt
   /\ gauges reg !! all = Some (of_nat (length orders))
   /\ (forall status,
         gauges reg !! cell status
         = if decide (n status = 0%nat \/ status = "__proto__")
           then gauges (register s) !! cell status
           else Some (of_nat (n status)))
   /\ gauges reg !! (pendingOrdersGauge, [storeId c; storeName c])
      = Some (of_nat (n "pending"))
   /\ gauges reg !! (failedOrdersGauge, [storeId c; storeName c])
      = Some (of_nat (n "failed"))
   /\ gauges reg !! (processingOrdersGauge, [storeId c; storeName c])
      = Some (of_nat (n "processing")))
  /\
  (plain_statuses (order_status <$> orders) = false ->
   (collectOrderMetrics clock c s).1 = Throw not_a_number
   /\ errors reg (error_key c "orders")
      = (errors (register s) (error_key c "orders") + 1)%N
   /\ gauges reg !! all = Some (of_nat (length orders))
   /\ (forall k, k.1 ∉ [apiResponseTimeGauge; totalOrdersGauge; ordersByStatusGauge] ->
         gauges reg !! k = gauges (register s) !! k)).
Proof.
  intros Hfetch Hacc reg n cell all. subst reg n cell all. cbv beta.
  split; intros Hplain.
  - destruct (collectOrderMetrics_register clock c s orders acc Hfetch Hacc Hplain)
      as (x & Hx & Hnum & Hok & ->).
    split; [exact Hok|]. split; [apply lookup_total_orders|]. split.
    + intros status. unfold order_writes. rewrite Hnum.
      change (x :: [?t] ++ ?rest)%list with ([x; t] ++ rest)%list.
      rewrite set_gauges_app.
      status_cell ordersByStatusGauge
                  (fun status : string =>
                     [storeId c; storeName c; status; currency (storeConfig c)])
                  (oa_statusCounts acc) status;
        [intros s1 s2 [=]; assumption|apply (process_orders_NoDup _ _ _ _ Hacc)|exact Hnum
        | |].
      * rewrite fmap_app, not_elem_of_app. split; [cbn [fmap list_fmap]; not_in_names|].
        rewrite <- list_fmap_compose. not_in_fmap.
      * rewrite (process_orders_own _ _ _ _ status Hacc).
        fold (orders_with_status status orders).
        rewrite counted_plain by (apply present_plain; exact Hplain).
        case_decide; [|reflexivity].
        apply lookup_set_gauges_notin. intros Hin.
        apply list_elem_of_fmap in Hin as (kv & Hk & Hin). split_members Hin; subst.
        -- rewrite <- Hk in Hx. discriminate Hx.
        -- discriminate Hk.
        -- inversion Hin.
    + rewrite <- (count_nat_orders _ _ _ _ "pending" Hacc eq_refl).
      rewrite <- (count_nat_orders _ _ _ _ "failed" Hacc eq_refl).
      rewrite <- (count_nat_orders _ _ _ _ "processing" Hacc eq_refl).
      split; [|split]; scalar_cell Hx Hnum.
  - destruct (collectOrderMetrics_not_plain clock c s orders acc Hfetch Hacc Hplain)
      as (x & Hx & Hnum & Hres & ->).
    split; [exact Hres|]. split.
    + rewrite errors_registry_inc, errors_set_gauges. reflexivity.
    + cbn [registry_inc gauges]. split; [apply lookup_total_orders|].
      intros k Hk. apply order_writes_stop; assumption.
Qed.

(** X4. The revenue cells of the order reduction.  After an order reduction
    whose orders were fetched and read, none of them having a status named
    like a function of [Object.prototype], the total revenue is the sum of
    the totals of the completed orders, the revenue of the day the sum over
    the completed orders created on the day of the cycle, and the revenue
    of the month the sum over those created in its month: an order that is
    not completed counts in none of them. *)
Theorem revenue_cells (c : WooCommerceClient) (s : State num) (orders : list Order)
    (acc : OrderAcc) :
  (Client.getAllOrders c (cycle_params clock (ticks s)) s).1 = Ok orders ->
  process_orders (cycle_today clock (ticks s)) (cycle_thisMonth clock (ticks s))
                 order_acc0 orders = Ok acc ->
  plain_statuses (order_status <$> orders) = true ->
  let reg := register (collectOrderMetrics clock c s).2 in
  gauges reg !! (totalRevenueGauge,
                 [storeId c; storeName c; currency (storeConfig c); "all_time"])
  = Some (revenue_of (completed_orders orders))
  /\ gauges reg !! (revenueTodayGauge, [storeId c; storeName c; currency (storeConfig c)])
     = Some (revenue_of (completed_on (cycle_today clock (ticks s)) orders))
  /\ gauges reg
       !! (revenueThisMonthGauge, [storeId c; storeName c; currency (storeConfig c)])
     = Some (revenue_of (completed_in (cycle_thisMonth clock (ticks s)) orders)).
Proof.
  intros Hfetch Hacc Hplain reg. subst reg.
  destruct (collectOrderMetrics_register clock c s orders acc Hfetch Hacc Hplain)
    as (x & Hx & Hnum & Hok & ->).
  destruct (process_orders_revenue _ _ _ _ _ Hacc) as (Ht & Hd & Hm).
  unfold revenue_of. cbn [order_acc0 oa_totalRevenue oa_revenueToday oa_revenueThisMonth]
    in Ht, Hd, Hm.
  rewrite <- Ht, <- Hd, <- Hm. split; [|split]; scalar_cell Hx Hnum.
Qed.

End OrderCells.
(** ** The sales by product and their ranking *)

Section Sales.
Context `{RT : JsRuntime num}.
Import Collector.

Lemma add_sale_ids (pid : Z) (pname : string) (qty : Z) (ps : list Sale) :
  sale_id <$> add_sale pid pname qty ps
  = if decide (pid ∈ sale_id <$> ps) then sale_id <$> ps else ((sale_id <$> ps) ++ [pid])%list.
Proof.
  induction ps as [|e ps IH]; cbn [add_sale fmap list_fmap].
  - rewrite decide_False by (intros Hin; inversion Hin). reflexivity.
  - destruct (sale_id e =? pid) eqn:He; [apply Z.eqb_eq in He|apply Z.eqb_neq in He].
    + rewrite decide_True by (rewrite He; apply list_elem_of_here). cbn. congruence.
    + cbn [fmap list_fmap]. fold (sale_id <$> add_sale pid pname qty ps).
      fold (sale_id <$> ps). rewrite IH.
      destruct (decide (pid ∈ sale_id <$> ps)) as [Hin|Hnin].
      * rewrite decide_True by (apply list_elem_of_further; exact Hin). reflexivity.
      * rewrite decide_False; [reflexivity|].
        intros [Heq|Hin]%elem_of_cons; congruence.
Qed.

Lemma add_sale_NoDup (pid : Z) (pname : string) (qty : Z) (ps : list Sale) :
  NoDup (sale_id <$> ps) -> NoDup (sale_id <$> add_sale pid pname qty ps).
Proof.
  intros Hnd. rewrite add_sale_ids. case_decide; [exact Hnd|].
  apply NoDup_app. split; [exact Hnd|]. split.
  - intros x Hx Hx'. apply list_elem_of_singleton in Hx'. congruence.
  - apply NoDup_singleton.
Qed.

Lemma add_sale_quantity (pid : Z) (pname : string) (qty : Z) (ps : list Sale) (pid' : Z) :
  recorded_quantity pid' (add_sale pid pname qty ps)
  = recorded_quantity pid' ps + if decide (pid = pid') then qty else 0.
Proof.
  unfold recorded_quantity. induction ps as [|e ps IH]; cbn [add_sale].
  - rewrite filter_cons, filter_nil. cbn [sale_id].
    destruct (decide (pid = pid')); cbn; lia.
  - destruct (sale_id e =? pid) eqn:He; [apply Z.eqb_eq in He|apply Z.eqb_neq in He].
    + rewrite !filter_cons. cbn [sale_id]. rewrite He.
      destruct (decide (pid = pid')); cbn; lia.
    + rewrite !filter_cons.
      destruct (decide (sale_id e = pid')); cbn [fmap list_fmap foldr];
        fold (sale_quantity <$> filter (fun e0 => sale_id e0 = pid')
                                       (add_sale pid pname qty ps));
        fold (sale_quantity <$> filter (fun e0 => sale_id e0 = pid') ps);
        rewrite IH; lia.
Qed.

Lemma process_items_app (ps : list Sale) (l1 l2 : list LineItem) :
  process_items ps (l1 ++ l2)
  = match process_items ps l1 with
    | Ok ps1 => process_items ps1 l2
    | Throw e => Throw e
    end.
Proof.
  revert ps. induction l1 as [|item l1 IH]; intros ps; [reflexivity|].
  cbn [app process_items]. destruct (process_item ps item); [apply IH|reflexivity].
Qed.

(** The sales after some line items were read. *)
Lemma process_items_spec (items : list LineItem) (ps ps' : list Sale) :
  process_items ps items = Ok ps' ->
  (NoDup (sale_id <$> ps) -> NoDup (sale_id <$> ps'))
  /\ (forall pid, recorded_quantity pid ps'
                  = recorded_quantity pid ps + quantity_sold pid items)
  /\ (forall pid, pid ∈ sale_id <$> ps'
                  <-> pid ∈ sale_id <$> ps
                      \/ exists item, item ∈ items /\ li_product_id item = Some pid).
Proof.
  revert ps. induction items as [|item items IH]; intros ps; cbn [process_items].
  - intros [= <-]. split; [tauto|]. split.
    + intros pid. unfold quantity_sold. rewrite filter_nil. cbn. lia.
    + intros pid. split; [tauto|]. intros [H|(item & Hin & _)]; [exact H|inversion Hin].
  - unfold process_item. destruct (li_product_id item) as [pid0|] eqn:Hpid; [|discriminate].
    intros Hrest. destruct (IH _ Hrest) as (Hnd & Hq & Hids).
    split; [|split].
    + intros H0. apply Hnd. apply add_sale_NoDup. exact H0.
    + intros pid. rewrite Hq, add_sale_quantity. unfold quantity_sold.
      rewrite filter_cons, Hpid.
      destruct (decide (pid0 = pid)) as [->|Hne].
      * rewrite decide_True by reflexivity. cbn. lia.
      * rewrite decide_False by congruence. lia.
    + intros pid. rewrite Hids, add_sale_ids. split.
      * intros [Hin|(it & Hin & Hit)].
        -- case_decide; [tauto|]. apply elem_of_app in Hin as [Hin|Hin]; [tauto|].
           apply list_elem_of_singleton in Hin as ->.
           right. exists item. split; [apply list_elem_of_here|exact Hpid].
        -- right. exists it. split; [apply list_elem_of_further; exact Hin|exact Hit].
      * intros [Hin|(it & Hin & Hit)].
        -- left. case_decide; [exact Hin|]. apply elem_of_app. tauto.
        -- apply elem_of_cons in Hin as [->|Hin]; [|right; eauto].
           left. assert (pid0 = pid) as -> by congruence.
           case_decide; [assumption|]. apply elem_of_app. right.
           apply list_elem_of_singleton. reflexivity.
Qed.

Lemma process_orders_items (today thisMonth : string) (orders : list Order)
    (acc acc' : OrderAcc) :
  process_orders today thisMonth acc orders = Ok acc' ->
  process_items (oa_productSales acc) (all_items orders) = Ok (oa_productSales acc').
Proof.
  revert acc. induction orders as [|o orders IH]; intros acc; cbn [process_orders].
  - intros [= <-]. reflexivity.
  - destruct (process_order today thisMonth acc o) as [acc1|e] eqn:Ho; [|discriminate].
    intros Hrest. apply IH in Hrest.
    unfold all_items. rewrite bind_cons, process_items_app.
    fold (all_items orders).
    unfold process_order in Ho.
    destruct (order_line_items o) as [items|]; unfold default, from_option, Datatypes.id.
    + destruct (process_items (oa_productSales acc) items) as [ps|e]; [|discriminate].
      injection Ho as Ho. subst acc1. exact Hrest.
    + injection Ho as Ho. subst acc1. exact Hrest.
Qed.

Lemma recorded_quantity_NoDup (ps : list Sale) (e : Sale) :
  NoDup (sale_id <$> ps) -> e ∈ ps -> recorded_quantity (sale_id e) ps = sale_quantity e.
Proof.
  unfold recorded_quantity. induction ps as [|a ps IH]; intros Hnd Hin; [inversion Hin|].
  rewrite fmap_cons in Hnd. apply NoDup_cons in Hnd as [Hna Hnd].
  rewrite filter_cons. apply elem_of_cons in Hin as [->|Hin].
  - rewrite decide_True by reflexivity. cbn [fmap list_fmap foldr].
    replace (filter (fun e0 => sale_id e0 = sale_id a) ps) with (@nil Sale); [cbn; lia|].
    destruct (filter (fun e0 => sale_id e0 = sale_id a) ps) as [|b l] eqn:Hf; [reflexivity|].
    assert (Hb : b ∈ filter (fun e0 => sale_id e0 = sale_id a) ps)
      by (rewrite Hf; apply list_elem_of_here).
    apply list_elem_of_filter in Hb as [Heq Hb].
    exfalso. apply Hna. rewrite <- Heq. apply list_elem_of_fmap_2. exact Hb.
  - rewrite decide_False; [apply IH; assumption|].
    intros Heq. apply Hna. rewrite Heq. apply list_elem_of_fmap_2. exact Hin.
Qed.

(** X5. The sales by product.  When the orders were all read, [productSales]
    has one entry for each product id of a line item and no other, and the
    quantity of an entry is the sum of the quantities of the line items of
    that product, a quantity that does not parse counting for 0. *)
Theorem product_sales_invariant (today thisMonth : string) (orders : list Order)
    (acc : OrderAcc) :
  process_orders today thisMonth order_acc0 orders = Ok acc ->
  NoDup (sale_id <$> oa_productSales acc)
  /\ (forall pid, pid ∈ sale_id <$> oa_productSales acc
                  <-> exists item, item ∈ all_items orders /\ li_product_id item = Some pid)
  /\ (forall e, e ∈ oa_productSales acc ->
                sale_quantity e = quantity_sold (sale_id e) (all_items orders)).
Proof.
  intros Hacc. apply process_orders_items in Hacc. cbn [order_acc0 oa_productSales] in Hacc.
  destruct (process_items_spec _ _ _ Hacc) as (Hnd & Hq & Hids).
  assert (Hnd' : NoDup (sale_id <$> oa_productSales acc)) by (apply Hnd; constructor).
  split; [exact Hnd'|]. split.
  - intros pid. rewrite Hids. split; [|tauto].
    intros [Hin|H]; [inversion Hin|exact H].
  - intros e He. rewrite <- (recorded_quantity_NoDup _ _ Hnd' He), Hq.
    unfold recorded_quantity. rewrite filter_nil. cbn. lia.
Qed.

End Sales.
(** ** The ranking of the products sold *)

Section Ranking.
Context `{RT : JsRuntime num}.
Variable clock : nat -> Z.
Import Collector.

Lemma insert_by_key_perm (e : Sale) (l : list Sale) : insert_by_key e l ≡ₚ e :: l.
Proof.
  induction l as [|y r IH]; cbn [insert_by_key]; [reflexivity|].
  destruct (sale_id y <? sale_id e); [|reflexivity].
  rewrite IH. apply Permutation_swap.
Qed.

Lemma Object_entries_perm (ps : list Sale) : Object_entries ps ≡ₚ ps.
Proof.
  unfold Object_entries.
  assert (Hsort : forall l : list Sale, foldr insert_by_key [] l ≡ₚ l).
  { induction l as [|e l IH]; [reflexivity|].
    cbn [foldr]. rewrite insert_by_key_perm, IH. reflexivity. }
  rewrite Hsort. induction ps as [|e ps IH]; [reflexivity|].
  rewrite !filter_cons. destruct (is_index_key (sale_id e)) eqn:He.
  - rewrite decide_True by reflexivity. rewrite decide_False by discriminate.
    cbn [app]. rewrite IH. reflexivity.
  - rewrite decide_False by discriminate. rewrite decide_True by reflexivity.
    rewrite <- Permutation_middle, IH. reflexivity.
Qed.

Lemma insert_by_quantity_perm (e : Sale) (l : list Sale) : insert_by_quantity e l ≡ₚ e :: l.
Proof.
  induction l as [|y r IH]; cbn [insert_by_quantity]; [reflexivity|].
  destruct (sale_quantity e <? sale_quantity y); [|reflexivity].
  rewrite IH. apply Permutation_swap.
Qed.

Lemma sort_by_quantity_perm (l : list Sale) : sort_by_quantity l ≡ₚ l.
Proof.
  unfold sort_by_quantity. induction l as [|e l IH]; [reflexivity|].
  cbn [foldr]. rewrite insert_by_quantity_perm, IH. reflexivity.
Qed.

Lemma insert_by_quantity_sorted (e : Sale) (l : list Sale) :
  sorted_desc l -> sorted_desc (insert_by_quantity e l).
Proof.
  induction l as [|y r IH]; cbn [insert_by_quantity sorted_desc].
  - intros _. split; [|exact I]. intros b Hb. inversion Hb.
  - intros [Hy Hr]. destruct (sale_quantity e <? sale_quantity y) eqn:Hlt;
      [apply Z.ltb_lt in Hlt|apply Z.ltb_ge in Hlt]; cbn [sorted_desc].
    + split; [|apply IH; exact Hr]. intros b Hb.
      rewrite insert_by_quantity_perm in Hb.
      apply elem_of_cons in Hb as [->|Hb]; [lia|apply Hy; exact Hb].
    + split; [|split; assumption]. intros b Hb.
      apply elem_of_cons in Hb as [->|Hb]; [lia|]. specialize (Hy b Hb). lia.
Qed.

Lemma sort_by_quantity_sorted (l : list Sale) : sorted_desc (sort_by_quantity l).
Proof.
  unfold sort_by_quantity. induction l as [|e l IH]; [exact I|].
  cbn [foldr]. apply insert_by_quantity_sorted. exact IH.
Qed.

Lemma sorted_desc_lookup (l : list Sale) (i j : nat) (a b : Sale) :
  sorted_desc l -> l !! i = Some a -> l !! j = Some b -> (i <= j)%nat ->
  sale_quantity b <= sale_quantity a.
Proof.
  revert i j. induction l as [|x l IH]; intros i j Hs Hi Hj Hij; [discriminate|].
  destruct Hs as [Hx Hs]. destruct i as [|i].
  - injection Hi as <-. destruct j as [|j]; [injection Hj as <-; lia|].
    apply Hx. apply list_elem_of_lookup. exists j. exact Hj.
  - destruct j as [|j]; [lia|]. apply (IH i j Hs Hi Hj). lia.
Qed.

Lemma topProducts_rest (productSales : list Sale) :
  let sorted := sort_by_quantity (Object_entries productSales) in
  sorted ≡ₚ productSales /\ sorted_desc sorted
  /\ topProducts productSales = take 10 sorted.
Proof.
  cbv zeta. split; [|split; [apply sort_by_quantity_sorted|reflexivity]].
  rewrite sort_by_quantity_perm. apply Object_entries_perm.
Qed.

Lemma topProducts_subset (productSales : list Sale) (a : Sale) :
  a ∈ topProducts productSales -> a ∈ productSales.
Proof.
  destruct (topProducts_rest productSales) as (Hperm & _ & ->). intros Ha.
  rewrite <- Hperm. apply list_elem_of_lookup in Ha as [i Hi].
  apply lookup_take_Some in Hi as [Hi _]. apply list_elem_of_lookup. eauto.
Qed.

(** X6. The ranking of the products sold.  [topProducts] keeps the ten
    entries of [productSales] that sold most, or all of them when there are
    fewer: it is sorted by descending quantity, and with the entries it
    leaves out it is a rearrangement of [productSales], none of the entries
    left out having sold more than an entry that it keeps. *)
Theorem top_products_are_best_sellers (productSales : list Sale) :
  let top := topProducts productSales in
  length top = (length productSales `min` 10)%nat
  /\ (forall i j a b,
        top !! i = Some a -> top !! j = Some b -> (i <= j)%nat ->
        sale_quantity b <= sale_quantity a)
  /\ exists rest,
       (top ++ rest)%list ≡ₚ productSales
       /\ forall a b, a ∈ top -> b ∈ rest -> sale_quantity b <= sale_quantity a.
Proof.
  intros top. subst top.
  destruct (topProducts_rest productSales) as (Hperm & Hsorted & ->).
  set (sorted := sort_by_quantity (Object_entries productSales)) in *.
  split; [|split].
  - rewrite length_take, (Permutation_length Hperm). lia.
  - intros i j a b Hi Hj Hij.
    apply lookup_take_Some in Hi as [Hi _]. apply lookup_take_Some in Hj as [Hj _].
    exact (sorted_desc_lookup _ _ _ _ _ Hsorted Hi Hj Hij).
  - exists (drop 10 sorted). split; [rewrite take_drop; exact Hperm|].
    intros a b Ha Hb.
    apply list_elem_of_lookup in Ha as [i Hi]. apply list_elem_of_lookup in Hb as [j Hj].
    apply lookup_take_Some in Hi as [Hi Hlt]. rewrite lookup_drop in Hj.
    apply (sorted_desc_lookup _ _ _ _ _ Hsorted Hi Hj). lia.
Qed.

(** X7. The cells of the products sold.  After an order reduction whose
    orders were fetched and read, none of them having a status named like a
    function of [Object.prototype], the cell of every ranked product,
    labelled with the id and the name of the product, holds the quantity
    sold of the product over the line items of the orders fetched. *)
Theorem top_product_cells (c : WooCommerceClient) (s : State num) (orders : list Order)
    (acc : OrderAcc) (e : Sale) :
  (Client.getAllOrders c (cycle_params clock (ticks s)) s).1 = Ok orders ->
  process_orders (cycle_today clock (ticks s)) (cycle_thisMonth clock (ticks s))
                 order_acc0 orders = Ok acc ->
  plain_statuses (order_status <$> orders) = true ->
  e ∈ topProducts (oa_productSales acc) ->
  gauges (register (collectOrderMetrics clock c s).2)
    !! (topProductsSoldGauge, [storeId c; storeName c; pretty (sale_id e); sale_name e])
  = Some (of_Z (quantity_sold (sale_id e) (all_items orders))).
Proof.
  intros Hfetch Hacc Hplain He.
  destruct (collectOrderMetrics_register clock c s orders acc Hfetch Hacc Hplain)
    as (x & Hx & Hnum & _ & ->).
  pose proof (process_orders_items _ _ _ _ _ Hacc) as Hitems.
  cbn [order_acc0 oa_productSales] in Hitems.
  destruct (process_items_spec _ _ _ Hitems) as (Hnd0 & Hq0 & _).
  assert (Hnd : NoDup (sale_id <$> oa_productSales acc)) by (apply Hnd0; constructor).
  assert (Hq : forall a, a ∈ oa_productSales acc ->
                 sale_quantity a = quantity_sold (sale_id a) (all_items orders)).
  { intros a Ha. rewrite <- (recorded_quantity_NoDup _ _ Hnd Ha), Hq0.
    unfold recorded_quantity. rewrite filter_nil. cbn. lia. }
  pose proof (topProducts_subset (oa_productSales acc)) as Htop.
  apply lookup_set_gauges_agree.
  - intros kv Hin Hk. unfold order_writes in Hin. rewrite Hnum in Hin.
    split_members Hin; subst;
      try (rewrite Hk in Hx; discriminate Hx);
      try discriminate Hk; try (inversion Hin; fail).
    match type of Hin with ?a ∈ _ => rename a into e' end.
    cbn in Hk. injection Hk as Hid Hname. apply (inj pretty) in Hid.
    cbn [snd]. f_equal. rewrite <- (Hq e (Htop e He)).
    rewrite <- (recorded_quantity_NoDup _ _ Hnd (Htop e He)).
    rewrite <- (recorded_quantity_NoDup _ _ Hnd (Htop e' Hin)).
    rewrite Hid. reflexivity.
  - left. rewrite fmap_cons. apply list_elem_of_further. unfold order_writes.
    rewrite Hnum, !fmap_app. do 3 (apply elem_of_app; right).
    rewrite <- list_fmap_compose.
    apply (list_elem_of_fmap_2' _ _ e); [exact He|reflexivity].
Qed.

End Ranking.
(** ** Pagination: failures and the number of requests *)

Section PagedLoopOutcomes.
Context {num A : Type}.
Variable fetch : nat -> M num (list A).
Variable loop : nat -> list A -> M num (list A).
Variable page_of : nat -> Result (list A).
Variable req : nat -> Request.
Variable advisory : Level * string.

Hypothesis fetch_eq : forall (pg : nat) (s : State num),
  exists lgs, fetch pg s = (page_of pg, with_trace s [req pg] lgs).

Hypothesis loop_step : forall (pg : nat) (acc : list A) (s : State num),
  loop pg acc s
  = match fetch pg s with
    | (Throw e, s1) => (Throw e, s1)
    | (Ok l, s1) =>
        if Nat.eqb (length l) 0 then (Ok acc, s1)
        else if decide (pg + 1 <= 100)%nat
             then loop (pg + 1)%nat (acc ++ l)%list s1
             else (Ok (acc ++ l)%list, with_trace s1 [] [advisory])
    end.

(** [k] non-empty pages, then a page that fails. *)
Lemma loop_fails (e : Error) (k : nat) :
  forall (pg : nat) (acc : list A) (s : State num),
    (pg + k <= 100)%nat ->
    (forall j, (pg <= j < pg + k)%nat -> nonempty_page page_of j) ->
    page_of (pg + k) = Throw e ->
    exists lgs,
      loop pg acc s = (Throw e, with_trace s (req <$> seq pg (S k)) lgs).
Proof.
  induction k as [|k IH]; intros pg acc s Hle Hfull Hfail.
  - rewrite Nat.add_0_r in Hfail. rewrite loop_step.
    destruct (fetch_eq pg s) as [lgs ->]. rewrite Hfail. eauto.
  - destruct (Hfull pg) as (l & Hl & Hne); [lia|].
    rewrite loop_step. destruct (fetch_eq pg s) as [lgs ->]. rewrite Hl.
    assert (Hlen : Nat.eqb (length l) 0 = false)
      by (destruct l; [congruence|reflexivity]).
    rewrite Hlen. destruct (decide (pg + 1 <= 100)%nat); [|lia].
    destruct (IH (pg + 1)%nat (acc ++ l)%list (with_trace s [req pg] lgs))
      as (lgs' & ->); [lia|intros j Hj; apply Hfull; lia| |].
    + replace (pg + 1 + k)%nat with (pg + S k)%nat by lia. exact Hfail.
    + rewrite with_trace_twice. replace (pg + 1)%nat with (S pg) by lia. eauto.
Qed.

(** Whatever the pages are, the loop asks for consecutive pages, and for
    none past 100. *)
Lemma loop_requests (d : nat) :
  forall (pg : nat) (acc : list A) (s : State num),
    (pg + d = 100)%nat ->
    exists n lgs,
      (1 <= n <= S d)%nat
      /\ (loop pg acc s).2 = with_trace s (req <$> seq pg n) lgs.
Proof.
  induction d as [|d IH]; intros pg acc s Hd;
    rewrite loop_step; destruct (fetch_eq pg s) as [lgs ->];
    (destruct (page_of pg) as [l|e]; [|exists 1%nat, lgs; split; [lia|reflexivity]]);
    (destruct (Nat.eqb (length l) 0); [exists 1%nat, lgs; split; [lia|reflexivity]|]);
    destruct (decide (pg + 1 <= 100)%nat); try lia.
  - cbn [snd]. rewrite with_trace_twice. exists 1%nat. eexists. split; [lia|reflexivity].
  - destruct (IH (pg + 1)%nat (acc ++ l)%list (with_trace s [req pg] lgs))
      as (n & lgs' & Hn & ->); [lia|].
    rewrite with_trace_twice. exists (S n). eexists. split; [lia|].
    replace (pg + 1)%nat with (S pg) by lia. reflexivity.
Qed.

End PagedLoopOutcomes.

Section PaginationOutcomes.
Context {num : Type}.

Lemma requests_with_trace (s : State num) (reqs : list Request) (lgs : list (Level * string)) :
  requests (with_trace s reqs lgs) = (requests s ++ reqs)%list.
Proof. reflexivity. Qed.

(** X8. A page that fails.  When the first [k] pages of the orders
    (products) are not empty and the next page fails, the paginated fetch
    fails with the error of that page: the records of the pages read so far
    are not returned, and the requests made are those for the pages 1 to
    [k + 1]. *)
Theorem page_failure_aborts_fetch (c : WooCommerceClient) (params : Params)
    (s : State num) (k : nat) (e : Error) :
  (k < 100)%nat ->
  ((forall j, (1 <= j <= k)%nat -> nonempty_page (orders_page c params) j) ->
   orders_page c params (k + 1) = Throw e ->
   (Client.getAllOrders c params s).1 = Throw e
   /\ requests (Client.getAllOrders c params s).2
      = (requests s
         ++ ((fun pg => orders_request c (page_request params pg)) <$> seq 1 (k + 1)))%list
   /\ register (Client.getAllOrders c params s).2 = register s)
  /\
  ((forall j, (1 <= j <= k)%nat -> nonempty_page (products_page c params) j) ->
   products_page c params (k + 1) = Throw e ->
   (Client.getAllProducts c params s).1 = Throw e
   /\ requests (Client.getAllProducts c params s).2
      = (requests s
         ++ ((fun pg => products_request c (page_request params pg)) <$> seq 1 (k + 1)))%list
   /\ register (Client.getAllProducts c params s).2 = register s).
Proof.
  intros Hk. split; intros Hfull Hfail.
  - destruct (loop_fails (fun pg => Client.getOrders c (Client.pageParams params pg))
                (Client.getAllOrders_loop c params) (orders_page c params)
                (fun pg => orders_request c (page_request params pg))
                (Warn, "Reached page limit (100) for orders in store " +:+ storeId c)
                (orders_fetch_eq c params) (getAllOrders_loop_step c params)
                e k 1%nat [] s) as (lgs & Hloop);
      [lia|intros j Hj; apply Hfull; lia|rewrite Nat.add_comm; exact Hfail|].
    destruct (getAllOrders_of_loop c params s) as [lgs' ->]. rewrite Hloop.
    cbn [fst snd]. rewrite with_trace_twice, requests_with_trace, app_nil_r.
    replace (k + 1)%nat with (S k) by lia. repeat split.
  - destruct (loop_fails (fun pg => Client.getProducts c (Client.pageParams params pg))
                (Client.getAllProducts_loop c params) (products_page c params)
                (fun pg => products_request c (page_request params pg))
                (Warn, "Reached page limit (100) for products in store " +:+ storeId c)
                (products_fetch_eq c params) (getAllProducts_loop_step c params)
                e k 1%nat [] s) as (lgs & Hloop);
      [lia|intros j Hj; apply Hfull; lia|rewrite Nat.add_comm; exact Hfail|].
    destruct (getAllProducts_of_loop c params s) as [lgs' ->]. rewrite Hloop.
    cbn [fst snd]. rewrite with_trace_twice, requests_with_trace, app_nil_r.
    replace (k + 1)%nat with (S k) by lia. repeat split.
Qed.

(** X9. The requests of a paginated fetch.  Whatever the upstream answers,
    a paginated fetch of the orders (products) asks for the pages 1 to [n]
    in this order, each with 100 records a page and the parameters of the
    caller, for some [n] between 1 and 100, and asks for nothing else. *)
Theorem paginated_fetch_requests (c : WooCommerceClient) (params : Params) (s : State num) :
  (exists n, (1 <= n <= 100)%nat
     /\ requests (Client.getAllOrders c params s).2
        = (requests s
           ++ ((fun pg => orders_request c (page_request params pg)) <$> seq 1 n))%list)
  /\
  (exists n, (1 <= n <= 100)%nat
     /\ requests (Client.getAllProducts c params s).2
        = (requests s
           ++ ((fun pg => products_request c (page_request params pg)) <$> seq 1 n))%list).
Proof.
  split.
  - destruct (loop_requests (fun pg => Client.getOrders c (Client.pageParams params pg))
                (Client.getAllOrders_loop c params) (orders_page c params)
                (fun pg => orders_request c (page_request params pg))
                (Warn, "Reached page limit (100) for orders in store " +:+ storeId c)
                (orders_fetch_eq c params) (getAllOrders_loop_step c params)
                99 1%nat [] s) as (n & lgs & Hn & Hloop); [lia|].
    destruct (getAllOrders_of_loop c params s) as [lgs' ->]. rewrite Hloop.
    cbn [snd]. rewrite with_trace_twice, requests_with_trace, app_nil_r. eauto.
  - destruct (loop_requests (fun pg => Client.getProducts c (Client.pageParams params pg))
                (Client.getAllProducts_loop c params) (products_page c params)
                (fun pg => products_request c (page_request params pg))
                (Warn, "Reached page limit (100) for products in store " +:+ storeId c)
                (products_fetch_eq c params) (getAllProducts_loop_step c params)
                99 1%nat [] s) as (n & lgs & Hn & Hloop); [lia|].
    destruct (getAllProducts_of_loop c params s) as [lgs' ->]. rewrite Hloop.
    cbn [snd]. rewrite with_trace_twice, requests_with_trace, app_nil_r. eauto.
Qed.

End PaginationOutcomes.

(** ** Reductions that fail *)

Section FailedReductions.
Context `{RT : JsRuntime num}.
Variable clock : nat -> Z.
Import Collector.

(** X10. A fetch that fails.  When the fetch of a reduction fails, the
    reduction fails with the same error, no gauge cell changes, not even the
    response time of the endpoint, and the error counter of the branch goes
    up by one. *)
Theorem failed_fetch_writes_no_gauge (c : WooCommerceClient) (s : State num) (e : Error) :
  ((Client.getAllOrders c (cycle_params clock (ticks s)) s).1 = Throw e ->
   (collectOrderMetrics clock c s).1 = Throw e
   /\ gauges (register (collectOrderMetrics clock c s).2) = gauges (register s)
   /\ errors (register (collectOrderMetrics clock c s).2) (error_key c "orders")
      = (errors (register s) (error_key c "orders") + 1)%N)
  /\
  ((Client.getAllProducts c no_params s).1 = Throw e ->
   (collectProductMetrics clock c s).1 = Throw e
   /\ gauges (register (collectProductMetrics clock c s).2) = gauges (register s)
   /\ errors (register (collectProductMetrics clock c s).2) (error_key c "products")
      = (errors (register s) (error_key c "products") + 1)%N)
  /\
  (get_customers (api c) customers_probe_params = Throw e ->
   (collectCustomerMetrics clock c s).1 = Throw e
   /\ gauges (register (collectCustomerMetrics clock c s).2) = gauges (register s)
   /\ errors (register (collectCustomerMetrics clock c s).2) (error_key c "customers")
      = (errors (register s) (error_key c "customers") + 1)%N).
Proof.
  split; [|split]; intros Hfail.
  - pose proof (collectOrderMetrics_run clock c s) as H. cbv zeta in H.
    fold (cycle_params clock (ticks s)) in H. rewrite Hfail in H.
    destruct H as (Hres & -> & _).
    split; [exact Hres|]. split; [reflexivity|apply errors_registry_inc].
  - pose proof (collectProductMetrics_run clock c s) as H. rewrite Hfail in H.
    destruct H as (Hres & -> & _).
    split; [exact Hres|]. split; [reflexivity|apply errors_registry_inc].
  - pose proof (collectCustomerMetrics_run clock c s) as H. rewrite Hfail in H.
    destruct H as (Hres & -> & _).
    split; [exact Hres|]. split; [reflexivity|apply errors_registry_inc].
Qed.

(** The line items are read until one has no product id. *)
Lemma process_items_outcome (items : list LineItem) (ps : list Sale) :
  match process_items ps items with
  | Ok _ => forall item, item ∈ items -> is_Some (li_product_id item)
  | Throw _ => exists item, item ∈ items /\ li_product_id item = None
  end.
Proof.
  revert ps. induction items as [|item items IH]; intros ps; cbn [process_items].
  - intros item Hin. inversion Hin.
  - unfold process_item. destruct (li_product_id item) as [pid|] eqn:Hpid.
    + specialize (IH (add_sale pid (li_name item) (parseInt_or_0 (li_quantity item)) ps)).
      destruct (process_items _ items) as [ps'|e].
      * intros it [->|Hin]%elem_of_cons; [rewrite Hpid; eauto|auto].
      * destruct IH as (it & Hin & Hit). exists it.
        split; [apply list_elem_of_further; exact Hin|exact Hit].
    + exists item. split; [apply list_elem_of_here|exact Hpid].
Qed.

Lemma process_orders_outcome (today thisMonth : string) (orders : list Order)
    (acc : OrderAcc) :
  match process_orders today thisMonth acc orders with
  | Ok _ => forall item, item ∈ all_items orders -> is_Some (li_product_id item)
  | Throw _ => exists item, item ∈ all_items orders /\ li_product_id item = None
  end.
Proof.
  revert acc. induction orders as [|o orders IH]; intros acc; cbn [process_orders].
  - intros item Hin. inversion Hin.
  - unfold all_items. rewrite bind_cons. fold (all_items orders).
    destruct (process_order today thisMonth acc o) as [acc1|e] eqn:Ho.
    + specialize (IH acc1).
      assert (Hitems : forall item, item ∈ default [] (order_line_items o) ->
                                    is_Some (li_product_id item)).
      { unfold process_order in Ho. destruct (order_line_items o) as [items|];
          [|intros item Hin; inversion Hin].
        pose proof (process_items_outcome items (oa_productSales acc)) as Hi.
        destruct (process_items (oa_productSales acc) items); [exact Hi|discriminate]. }
      destruct (process_orders today thisMonth acc1 orders) as [acc2|e].
      * intros item [Hin|Hin]%elem_of_app; auto.
      * destruct IH as (item & Hin & Hit). exists item.
        split; [apply elem_of_app; right; exact Hin|exact Hit].
    + unfold process_order in Ho. destruct (order_line_items o) as [items|];
        [|discriminate].
      pose proof (process_items_outcome items (oa_productSales acc)) as Hi.
      destruct (process_items (oa_productSales acc) items); [discriminate|].
      destruct Hi as (item & Hin & Hit). exists item.
      split; [apply elem_of_app; left; exact Hin|exact Hit].
Qed.

Lemma plain_statuses_false (statuses : list string) :
  plain_statuses statuses = false
  <-> exists status, status ∈ statuses /\ shadows_member status = true.
Proof.
  split.
  - intros Hplain. induction statuses as [|status statuses IH]; [discriminate Hplain|].
    unfold plain_statuses in *. cbn [forallb] in Hplain.
    destruct (shadows_member status) eqn:Hsh.
    + exists status. split; [apply list_elem_of_here|exact Hsh].
    + destruct (IH Hplain) as (st & Hin & Hst). exists st.
      split; [apply list_elem_of_further; exact Hin|exact Hst].
  - intros (status & Hin & Hsh).
    destruct (plain_statuses statuses) eqn:Hplain; [|reflexivity].
    rewrite (proj1 (plain_statuses_true _) Hplain status Hin) in Hsh. discriminate Hsh.
Qed.

(** X11. A line item without a product id.  When the orders were fetched,
    the order reduction succeeds exactly when every line item of every
    order has a product id and no order has a status named like a function
    of [Object.prototype].  One line item without a product id makes the
    reduction fail: of the gauges only the response time is written, no
    order gauge of the store changes, and the error counter of the branch
    goes up by one. *)
Theorem line_item_without_product_id (c : WooCommerceClient) (s : State num)
    (orders : list Order) :
  (Client.getAllOrders c (cycle_params clock (ticks s)) s).1 = Ok orders ->
  ((collectOrderMetrics clock c s).1 = Ok tt
   <-> (forall item, item ∈ all_items orders -> is_Some (li_product_id item))
       /\ plain_statuses (order_status <$> orders) = true)
  /\ ((exists item, item ∈ all_items orders /\ li_product_id item = None) ->
      (forall k, k.1 <> apiResponseTimeGauge ->
                 gauges (register (collectOrderMetrics clock c s).2) !! k
                 = gauges (register s) !! k)
      /\ errors (register (collectOrderMetrics clock c s).2) (error_key c "orders")
         = (errors (register s) (error_key c "orders") + 1)%N).
Proof.
  intros Hfetch.
  pose proof (collectOrderMetrics_run clock c s) as H. cbv zeta in H.
  fold (cycle_params clock (ticks s)) (cycle_today clock (ticks s))
       (cycle_thisMonth clock (ticks s)) in H.
  rewrite Hfetch in H.
  pose proof (process_orders_outcome (cycle_today clock (ticks s))
                (cycle_thisMonth clock (ticks s)) orders order_acc0) as Hout.
  destruct (process_orders (cycle_today clock (ticks s)) (cycle_thisMonth clock (ticks s))
              order_acc0 orders) as [acc|e] eqn:Hacc.
  - destruct H as (Hres & _). rewrite (process_orders_numeric _ _ _ _ Hacc) in Hres.
    split.
    + destruct (plain_statuses (order_status <$> orders)); destruct Hres as [Hres _];
        rewrite Hres; split; try tauto; try discriminate.
      intros [_ Hfalse]. discriminate Hfalse.
    + intros (item & Hin & Hnone). destruct (Hout item Hin) as [pid Hpid]. congruence.
  - destruct H as (Hres & Hreg & _). split.
    + split; [rewrite Hres; discriminate|].
      intros [Hall _]. destruct Hout as (item & Hin & Hnone).
      destruct (Hall item Hin) as [pid Hpid]. congruence.
    + intros _. rewrite Hreg. split.
      * intros k Hk. cbn [registry_inc gauges]. apply lookup_set_gauges_notin.
        cbn. intros Hin. apply list_elem_of_singleton in Hin. apply Hk.
        rewrite Hin. reflexivity.
      * rewrite errors_registry_inc, errors_set_gauges. reflexivity.
Qed.

(** C5. An order list for which the gauge of the average order value is not
    set.  When the orders were fetched and read and one of them has a
    status named like a function of [Object.prototype], as [constructor],
    the count of that status is a string, the write of the gauge by status
    throws the [TypeError] of prom-client, and the reduction fails before
    the average order value is written: whatever the number of completed
    orders, the cell of the average order value is left as it was (without
    a value when it had none), and the error counter of the branch goes up
    by one. *)
Theorem average_order_value_not_set (c : WooCommerceClient) (s : State num)
    (orders : list Order) (acc : OrderAcc) :
  (Client.getAllOrders c (cycle_params clock (ticks s)) s).1 = Ok orders ->
  process_orders (cycle_today clock (ticks s)) (cycle_thisMonth clock (ticks s))
                 order_acc0 orders = Ok acc ->
  (exists o, o ∈ orders /\ shadows_member (order_status o) = true) ->
  let reg := register (collectOrderMetrics clock c s).2 in
  let average :=
    (averageOrderValueGauge,
     [storeId c; storeName c; currency (storeConfig c); "all_time"]) in
  (collectOrderMetrics clock c s).1 = Throw not_a_number
  /\ gauges reg !! average = gauges (register s) !! average
  /\ errors reg (error_key c "orders")
     = (errors (register s) (error_key c "orders") + 1)%N.
Proof.
  intros Hfetch Hacc (o & Ho & Hsh) reg average. subst reg average.
  assert (Hplain : plain_statuses (order_status <$> orders) = false).
  { apply plain_statuses_false. exists (order_status o).
    split; [apply list_elem_of_fmap_2; exact Ho|exact Hsh]. }
  destruct (collectOrderMetrics_not_plain clock c s orders acc Hfetch Hacc Hplain)
    as (x & Hx & Hnum & Hres & ->).
  split; [exact Hres|]. split.
  - cbn [registry_inc gauges]. apply order_writes_stop; try assumption. not_in_names.
  - rewrite errors_registry_inc, errors_set_gauges. reflexivity.
Qed.

End FailedReductions.

(** ** The cells of other stores *)

Section OtherStores.
Context `{RT : JsRuntime num}.
Variable clock : nat -> Z.
Import Collector.

Lemma set_gauges_other_store (c : WooCommerceClient) (kvs : list (SampleKey * num))
    (r : Registry num) (k : SampleKey) :
  (forall kv, kv ∈ kvs -> store_cell c kv.1) -> ~ store_cell c k ->
  gauges (set_gauges kvs r) !! k = gauges r !! k.
Proof.
  intros Hall Hk. apply lookup_set_gauges_notin.
  intros (kv & -> & Hin)%list_elem_of_fmap. apply Hk. apply Hall. exact Hin.
Qed.

Lemma registry_inc_other_store (c : WooCommerceClient) (branch : string)
    (r : Registry num) (k : SampleKey) :
  ~ store_cell c k ->
  counters (registry_inc (error_key c branch) r) !! k = counters r !! k.
Proof.
  intros Hk. cbn. apply lookup_insert_ne. intros <-. apply Hk.
  eexists. reflexivity.
Qed.

Lemma order_writes_store (c : WooCommerceClient) (cur : string) (n : nat) (acc : OrderAcc)
    (kv : SampleKey * num) :
  kv ∈ order_writes (storeId c) (storeName c) cur n acc -> store_cell c kv.1.
Proof.
  intros Hin. unfold order_writes in Hin.
  destruct (numeric (oa_statusCounts acc)); split_members Hin; subst;
    try (inversion Hin; fail); eexists; reflexivity.
Qed.

Lemma product_writes_store (c : WooCommerceClient) (n : nat) (acc : ProductAcc)
    (kv : SampleKey * num) :
  kv ∈ product_writes (storeId c) (storeName c) n acc -> store_cell c kv.1.
Proof.
  intros Hin. unfold product_writes in Hin.
  destruct (numeric (pa_statusCounts acc)); split_members Hin; subst;
    try (inversion Hin; fail); eexists; reflexivity.
Qed.

Lemma api_time_write_store (c : WooCommerceClient) (endpoint : string) (t0 t1 : Z) :
  store_cell c (api_time_write (num := num) c endpoint t0 t1).1.
Proof. eexists. reflexivity. Qed.

Lemma cons_store (c : WooCommerceClient) (x : SampleKey * num)
    (kvs : list (SampleKey * num)) :
  store_cell c x.1 -> (forall kv, kv ∈ kvs -> store_cell c kv.1) ->
  forall kv, kv ∈ x :: kvs -> store_cell c kv.1.
Proof. intros Hx Hall kv [->|Hin]%elem_of_cons; auto. Qed.

Lemma nil_store (c : WooCommerceClient) :
  forall kv : SampleKey * num, kv ∈ [] -> store_cell c kv.1.
Proof. intros kv Hin. inversion Hin. Qed.

Lemma collectOrderMetrics_other_store (c : WooCommerceClient) (s : State num)
    (k : SampleKey) :
  ~ store_cell c k ->
  gauges (register (collectOrderMetrics clock c s).2) !! k = gauges (register s) !! k
  /\ counters (register (collectOrderMetrics clock c s).2) !! k
     = counters (register s) !! k.
Proof.
  intros Hk. pose proof (collectOrderMetrics_run clock c s) as H. cbv zeta in H.
  destruct (Client.getAllOrders c _ s).1 as [orders|e].
  - destruct (process_orders _ _ order_acc0 orders) as [acc|e];
      [destruct H as (H & _); destruct (numeric (oa_statusCounts acc));
       destruct H as (_ & ->)
      |destruct H as (_ & -> & _)].
    + rewrite counters_set_gauges. split; [|reflexivity].
      apply (set_gauges_other_store c); [|exact Hk].
      apply cons_store; [apply api_time_write_store|apply order_writes_store].
    + rewrite registry_inc_other_store by exact Hk. rewrite counters_set_gauges.
      split; [|reflexivity]. cbn [registry_inc gauges].
      apply (set_gauges_other_store c); [|exact Hk].
      apply cons_store; [apply api_time_write_store|apply order_writes_store].
    + rewrite registry_inc_other_store by exact Hk. rewrite counters_set_gauges.
      split; [|reflexivity]. cbn [registry_inc gauges].
      apply (set_gauges_other_store c); [|exact Hk].
      apply cons_store; [apply api_time_write_store|apply nil_store].
  - destruct H as (_ & -> & _). rewrite registry_inc_other_store by exact Hk.
    split; reflexivity.
Qed.

Lemma collectProductMetrics_other_store (c : WooCommerceClient) (s : State num)
    (k : SampleKey) :
  ~ store_cell c k ->
  gauges (register (collectProductMetrics clock c s).2) !! k = gauges (register s) !! k
  /\ counters (register (collectProductMetrics clock c s).2) !! k
     = counters (register s) !! k.
Proof.
  intros Hk. pose proof (collectProductMetrics_run clock c s) as H. cbv zeta in H.
  destruct (Client.getAllProducts c no_params s).1 as [products|e];
    [destruct H as (H & _);
     destruct (numeric (pa_statusCounts (process_products products)));
     destruct H as (_ & ->)
    |destruct H as (_ & -> & _)].
  - rewrite counters_set_gauges. split; [|reflexivity].
    apply (set_gauges_other_store c); [|exact Hk].
    apply cons_store; [apply api_time_write_store|apply product_writes_store].
  - rewrite registry_inc_other_store by exact Hk. rewrite counters_set_gauges.
    split; [|reflexivity]. cbn [registry_inc gauges].
    apply (set_gauges_other_store c); [|exact Hk].
    apply cons_store; [apply api_time_write_store|apply product_writes_store].
  - rewrite registry_inc_other_store by exact Hk. split; reflexivity.
Qed.

Lemma collectCustomerMetrics_other_store (c : WooCommerceClient) (s : State num)
    (k : SampleKey) :
  ~ store_cell c k ->
  gauges (register (collectCustomerMetrics clock c s).2) !! k = gauges (register s) !! k
  /\ counters (register (collectCustomerMetrics clock c s).2) !! k
     = counters (register s) !! k.
Proof.
  intros Hk. pose proof (collectCustomerMetrics_run clock c s) as H.
  destruct (get_customers (api c) customers_probe_params) as [customers|e].
  - destruct H as (n & _ & -> & _).
    rewrite counters_set_gauges. split; [|reflexivity].
    apply (set_gauges_other_store c); [|exact Hk].
    apply cons_store; [apply api_time_write_store|].
    apply cons_store; [eexists; reflexivity|apply nil_store].
  - destruct H as (_ & -> & _). rewrite registry_inc_other_store by exact Hk.
    split; reflexivity.
Qed.

Lemma collectStoreMetrics_other_store (c : WooCommerceClient) (s : State num)
    (k : SampleKey) :
  ~ store_cell c k ->
  gauges (register (collectStoreMetrics clock c s).2) !! k = gauges (register s) !! k
  /\ counters (register (collectStoreMetrics clock c s).2) !! k
     = counters (register s) !! k.
Proof.
  intros Hk. destruct (collectStoreMetrics_run clock c s) as (_ & ->).
  rewrite counters_set_gauges.
  rewrite (set_gauges_other_store c) by
    first [ exact Hk
          | apply cons_store; [eexists; reflexivity|];
            apply cons_store; [eexists; reflexivity|apply nil_store] ].
  unfold customers_run.
  destruct (collectCustomerMetrics_other_store c (products_run clock c s).2 k Hk)
    as [-> ->].
  unfold products_run.
  destruct (collectProductMetrics_other_store c (orders_run clock c s).2 k Hk)
    as [-> ->].
  unfold orders_run.
  destruct (collectOrderMetrics_other_store c (store_start c s) k Hk) as [-> ->].
  split; reflexivity.
Qed.

Lemma allSettled_other_stores (storeClients : list (string * WooCommerceClient))
    (s : State num) (k : SampleKey) :
  (forall entry, entry ∈ storeClients -> ~ store_cell entry.2 k) ->
  gauges (register (App.allSettled clock storeClients s).2) !! k = gauges (register s) !! k
  /\ counters (register (App.allSettled clock storeClients s).2) !! k
     = counters (register s) !! k.
Proof.
  revert s. induction storeClients as [|[storeId0 c] rest IH]; intros s Hk;
    [split; reflexivity|].
  change (App.allSettled clock ((storeId0, c) :: rest))
    with (r ← settle (App.collect_one clock (storeId0, c));
          rs ← App.allSettled clock rest;
          mret (r :: rs)).
  rewrite (mbind_ok _ _ _ _ _ (settle_eq _ _)), collect_one_eq. cbn [fst snd].
  destruct (IH (collectStoreMetrics clock c s).2) as [Hg Hc].
  { intros entry Hin. apply Hk. apply list_elem_of_further. exact Hin. }
  destruct (App.allSettled clock rest (collectStoreMetrics clock c s).2) as [r s1] eqn:Hrest.
  cbn [snd] in Hg, Hc.
  destruct r as [rs|e].
  - erewrite mbind_ok by exact Hrest.
    change (gauges (register s1) !! k = gauges (register s) !! k
            /\ counters (register s1) !! k = counters (register s) !! k).
    rewrite Hg, Hc.
    apply (collectStoreMetrics_other_store c s k).
    apply (Hk (storeId0, c)). apply list_elem_of_here.
  - erewrite mbind_throw by exact Hrest. cbn [snd]. rewrite Hg, Hc.
    apply (collectStoreMetrics_other_store c s k).
    apply (Hk (storeId0, c)). apply list_elem_of_here.
Qed.

Lemma collectStoreMetrics_ticks (c : WooCommerceClient) (s : State num) :
  (ticks s < ticks (collectStoreMetrics clock c s).2)%nat.
Proof.
  assert (Hend : ticks (collectStoreMetrics clock c s).2
                 = S (S (ticks (customers_run clock c s).2))).
  { unfold collectStoreMetrics. mstep.
    erewrite try_catch_ok.
    2:{ mstep. erewrite mbind_ok by apply allSettled3_eq. do 4 mstep. apply logger_eq. }
    reflexivity. }
  rewrite Hend. unfold customers_run, products_run, orders_run.
  assert (Hc : forall s0, (ticks s0 <= ticks (collectCustomerMetrics clock c s0).2)%nat).
  { intros s0. pose proof (collectCustomerMetrics_run clock c s0) as H.
    destruct (get_customers (api c) customers_probe_params);
      [destruct H as (n & _ & _ & ->)|destruct H as (_ & _ & ->)]; lia. }
  assert (Hp : forall s0, (ticks s0 <= ticks (collectProductMetrics clock c s0).2)%nat).
  { intros s0. pose proof (collectProductMetrics_run clock c s0) as H. cbv zeta in H.
    destruct (Client.getAllProducts c no_params s0).1;
      [destruct H as (_ & ->)|destruct H as (_ & _ & ->)]; lia. }
  assert (Ho : forall s0, (ticks s0 <= ticks (collectOrderMetrics clock c s0).2)%nat).
  { intros s0. pose proof (collectOrderMetrics_run clock c s0) as H. cbv zeta in H.
    destruct (Client.getAllOrders c _ s0).1 as [orders|e];
      [destruct (process_orders _ _ order_acc0 orders);
       [destruct H as (_ & ->)|destruct H as (_ & _ & ->)]
      |destruct H as (_ & _ & ->)]; lia. }
  specialize (Hc (collectProductMetrics clock c
                    (collectOrderMetrics clock c (store_start c s)).2).2).
  specialize (Hp (collectOrderMetrics clock c (store_start c s)).2).
  specialize (Ho (store_start c s)). cbn in Ho. lia.
Qed.

Lemma all_completed (storeClients : list (string * WooCommerceClient)) :
  length (filter (fun r => App.is_completed r = true)
            ((fun entry : string * WooCommerceClient =>
                Ok {| App.cr_storeId := entry.1; App.cr_success := true;
                      App.cr_error := None |}) <$> storeClients))
  = length storeClients.
Proof.
  induction storeClients as [|entry rest IH]; [reflexivity|].
  rewrite fmap_cons, filter_cons. cbn [App.is_completed App.cr_success].
  rewrite decide_True by reflexivity. cbn [length]. rewrite IH. reflexivity.
Qed.

(** The state in which a cycle collects its stores, and the cycle over at
    least one store: its last log line tells of no failed store. *)
Lemma collectAllMetrics_run (storeClients : list (string * WooCommerceClient))
    (s : State num) :
  storeClients <> [] ->
  let s1 := (App.allSettled clock storeClients
               (with_trace (tick s) []
                  [(Info, "Starting metrics collection for all stores")])).2 in
  App.collectAllMetrics clock storeClients s
  = (Ok tt,
     {| register := register s1; requests := requests s1;
        logs := logs s1
                ++ [(Info, "Metrics collection completed: "
                           +:+ pretty (length storeClients) +:+ " successful, "
                           +:+ pretty 0%nat +:+ " failed in "
                           +:+ toFixed2 (seconds_since (clock (ticks s)) (clock (ticks s1)))
                           +:+ "s")];
        ticks := S (S (ticks s1));
        lastCollectionTime := Some (clock (S (ticks s1))) |}).
Proof.
  intros Hne s1. subst s1. unfold App.collectAllMetrics.
  mstep. mstep.
  destruct storeClients as [|entry rest]; [congruence|].
  cbn [length Nat.eqb]. set (storeClients := entry :: rest).
  change (S (length rest)) with (length storeClients).
  match goal with
  | |- context [mbind _ (App.allSettled clock storeClients) ?s0] =>
      pose proof (allSettled_all_success clock storeClients s0) as Hres;
      destruct (App.allSettled clock storeClients s0) as [r s1] eqn:Hrun
  end.
  cbn [fst snd] in Hres |- *. subst r.
  erewrite mbind_ok by exact Hrun.
  rewrite length_fmap, all_completed, Nat.sub_diag.
  mstep. mstep. reflexivity.
Qed.

(** X12. The cells of other stores.  The collection of a store changes only
    cells labelled with the id and the name of that store: every other
    gauge cell and counter cell is as it was.  Likewise a full cycle
    changes no cell that is labelled with none of its stores. *)
Theorem other_stores_untouched (k : SampleKey) (s : State num) :
  (forall c : WooCommerceClient,
     ~ store_cell c k ->
     gauges (register (collectStoreMetrics clock c s).2) !! k = gauges (register s) !! k
     /\ counters (register (collectStoreMetrics clock c s).2) !! k
        = counters (register s) !! k)
  /\
  (forall storeClients : list (string * WooCommerceClient),
     (forall entry, entry ∈ storeClients -> ~ store_cell entry.2 k) ->
     gauges (register (App.collectAllMetrics clock storeClients s).2) !! k
     = gauges (register s) !! k
     /\ counters (register (App.collectAllMetrics clock storeClients s).2) !! k
        = counters (register s) !! k).
Proof.
  split; [intros c; apply collectStoreMetrics_other_store|].
  intros storeClients Hk.
  destruct storeClients as [|entry rest].
  { unfold App.collectAllMetrics. mstep. mstep. split; reflexivity. }
  rewrite collectAllMetrics_run by discriminate. cbn [snd register].
  apply (allSettled_other_stores (entry :: rest)
           (with_trace (tick s) [] [(Info, "Starting metrics collection for all stores")])
           k Hk).
Qed.

(** X13. A cycle over at least one store.  It returns normally whatever the
    upstream of each store answers, sets the time of the last collection to
    a reading of the clock taken after the stores were collected, and ends
    with the log line that counts every store as successful and none as
    failed. *)
Theorem cycle_reports_no_failed_store (storeClients : list (string * WooCommerceClient))
    (s : State num) :
  storeClients <> [] ->
  let run := App.collectAllMetrics clock storeClients s in
  run.1 = Ok tt
  /\ (exists t, (ticks s < t)%nat /\ lastCollectionTime run.2 = Some (clock t))
  /\ exists duration,
       last (logs run.2)
       = Some (Info, "Metrics collection completed: "
                     +:+ pretty (length storeClients) +:+ " successful, "
                     +:+ pretty 0%nat +:+ " failed in " +:+ duration +:+ "s").
Proof.
  intros Hne run. subst run. rewrite collectAllMetrics_run by exact Hne.
  cbn [fst snd lastCollectionTime logs]. split; [reflexivity|]. split.
  - eexists. split; [|reflexivity].
    assert (Hticks : forall (l : list (string * WooCommerceClient)) (s0 : State num),
              (ticks s0 <= ticks (App.allSettled clock l s0).2)%nat).
    { induction l as [|[storeId0 c] rest IH]; intros s0; [reflexivity|].
      change (App.allSettled clock ((storeId0, c) :: rest))
        with (r ← settle (App.collect_one clock (storeId0, c));
              rs ← App.allSettled clock rest;
              mret (r :: rs)).
      rewrite (mbind_ok _ _ _ _ _ (settle_eq _ _)), collect_one_eq. cbn [fst snd].
      specialize (IH (collectStoreMetrics clock c s0).2).
      pose proof (collectStoreMetrics_ticks c s0) as Hc.
      destruct (App.allSettled clock rest (collectStoreMetrics clock c s0).2)
        as [[rs|e] s1] eqn:Hrest; cbn [snd] in IH;
        [erewrite mbind_ok by exact Hrest|erewrite mbind_throw by exact Hrest];
        cbn; lia. }
    specialize (Hticks storeClients
                  (with_trace (tick s) []
                     [(Info, "Starting metrics collection for all stores")])).
    cbn in Hticks. lia.
  - eexists. rewrite last_snoc. reflexivity.
Qed.

End OtherStores.

(** ** The collection of one store by its id *)

Section SingleStore.
Context `{RT : JsRuntime num}.
Variable clock : nat -> Z.
Import Collector.

Lemma last_scrape_is_set (c : WooCommerceClient) (s : State num) :
  is_Some (gauges (register (collectStoreMetrics clock c s).2) !! last_scrape_key c).
Proof.
  destruct (collectStoreMetrics_run clock c s) as (_ & ->).
  eexists. apply lookup_set_gauges_agree.
  - intros kv [->|[->|Hin]%elem_of_cons]%elem_of_cons Hk;
      [reflexivity|discriminate Hk|inversion Hin].
  - left. apply list_elem_of_here.
Qed.

(** X14. The collection of one store.  For an id that is not a key of the
    map of clients, [collectStoreMetrics(storeId)] throws
    [Store <id> not found or not initialized] and does nothing else: no
    request, no log line, no write.  For the id of a client it returns
    normally whatever the upstream answers, sets the time of the last
    scrape of that store, and leaves the cells of other stores as they
    were. *)
Theorem collect_store_by_id (storeClients : list (string * WooCommerceClient))
    (storeId0 : string) (s : State num) :
  NoDup storeClients.*1 ->
  let run := App.collectStoreMetrics clock storeClients storeId0 s in
  (storeId0 ∉ (storeClients.*1) ->
   run = (Throw {| message := "Store " +:+ storeId0 +:+ " not found or not initialized" |},
          s))
  /\ (forall c, (storeId0, c) ∈ storeClients ->
        run.1 = Ok tt
        /\ is_Some (gauges (register run.2) !! last_scrape_key c)
        /\ forall k, ~ store_cell c k ->
             gauges (register run.2) !! k = gauges (register s) !! k
             /\ counters (register run.2) !! k = counters (register s) !! k).
Proof.
  intros Hnd run. subst run. unfold App.collectStoreMetrics.
  destruct (list_find (fun e : string * WooCommerceClient => e.1 = storeId0) storeClients)
    as [[i [sid c']]|] eqn:Hfind; cbn [fmap option_fmap option_map snd].
  - apply list_find_Some in Hfind as (Hi & Hsid & _). cbn in Hsid. subst sid.
    split.
    + intros Hnot. exfalso. apply Hnot.
      apply list_elem_of_fmap. exists (storeId0, c'). split; [reflexivity|].
      apply list_elem_of_lookup. eauto.
    + intros c Hc.
      assert (c' = c) as ->.
      { apply list_elem_of_lookup in Hc as [j Hj].
        assert (i = j).
        { apply (NoDup_lookup storeClients.*1 i j storeId0 Hnd);
            rewrite list_lookup_fmap; [rewrite Hi|rewrite Hj]; reflexivity. }
        subst j. congruence. }
      mstep.
      match goal with
      | |- context [mbind _ (collectStoreMetrics clock c) ?s0] =>
          destruct (collectStoreMetrics_run clock c s0) as [Hok _];
          pose proof (last_scrape_is_set c s0) as Hlast;
          pose proof (collectStoreMetrics_other_store clock c s0) as Hother;
          destruct (collectStoreMetrics clock c s0) as [r s1] eqn:Hrun
      end.
      cbn [fst snd] in Hok, Hlast, Hother. subst r.
      erewrite mbind_ok by exact Hrun. rewrite logger_eq. cbn [fst snd].
      split; [reflexivity|]. split; [exact Hlast|exact Hother].
  - apply list_find_None in Hfind. split; [reflexivity|].
    intros c Hc. exfalso.
    rewrite Forall_forall in Hfind. exact (Hfind _ Hc eq_refl).
Qed.

End SingleStore.

(** ** The store configuration *)

Section ConfigProperties.

Lemma length_append (s t : string) :
  String.length (s +:+ t) = (String.length s + String.length t)%nat.
Proof. induction s as [|a s IH]; [reflexivity|]. simpl. f_equal. exact IH. Qed.

Lemma append_inj_r (s1 s2 t : string) : s1 +:+ t = s2 +:+ t -> s1 = s2.
Proof.
  revert s2. induction s1 as [|a s1 IH]; intros [|b s2] Heq.
  - reflexivity.
  - apply (f_equal String.length) in Heq.
    change (("" +:+ t)) with t in Heq.
    change (String b s2 +:+ t) with (String b (s2 +:+ t)) in Heq.
    change (String.length (String b (s2 +:+ t))) with (S (String.length (s2 +:+ t))) in Heq.
    rewrite length_append in Heq. lia.
  - apply (f_equal String.length) in Heq.
    change (("" +:+ t)) with t in Heq.
    change (String a s1 +:+ t) with (String a (s1 +:+ t)) in Heq.
    change (String.length (String a (s1 +:+ t))) with (S (String.length (s1 +:+ t))) in Heq.
    rewrite length_append in Heq. lia.
  - change (String a (s1 +:+ t) = String b (s2 +:+ t)) in Heq.
    injection Heq as -> Heq. f_equal. apply IH. exact Heq.
Qed.

Lemma env_key_inj (i j : nat) (suffix : string) :
  Config.env_key i suffix = Config.env_key j suffix -> i = j.
Proof.
  unfold Config.env_key. intros Heq. apply (inj (String.append "STORE")) in Heq.
  apply append_inj_r in Heq. apply (inj pretty) in Heq. exact Heq.
Qed.

(** There are no more configured indices than variables. *)
Lemma configured_count (env : Config.Env) (n : nat) :
  (forall j, (1 <= j <= n)%nat -> is_Some (env !! Config.env_key j "_URL")) ->
  (n <= size env)%nat.
Proof.
  intros Hall.
  assert (Hsub : ((fun j => Config.env_key j "_URL") <$> seq 1 n) ⊆+ (map_to_list env).*1).
  { apply NoDup_submseteq.
    - apply NoDup_fmap_2; [|apply NoDup_seq].
      intros i j Heq. exact (env_key_inj i j _ Heq).
    - intros k (j & -> & Hj)%list_elem_of_fmap. apply elem_of_seq in Hj.
      destruct (Hall j) as [v Hv]; [lia|].
      apply list_elem_of_fmap. exists (Config.env_key j "_URL", v).
      split; [reflexivity|]. apply elem_of_map_to_list. exact Hv. }
  apply submseteq_length in Hsub.
  rewrite !length_fmap, length_seq in Hsub. rewrite <- (length_map_to_list env). exact Hsub.
Qed.

Lemma is_set_Some (v : option string) :
  Config.is_set v = true -> exists s, v = Some s /\ s <> "".
Proof.
  destruct v as [s|]; [|discriminate]. cbn. intros Hs. exists s. split; [reflexivity|].
  intros ->. discriminate Hs.
Qed.

Lemma configured_dec (env : Config.Env) (j : nat) :
  (negb (Config.is_set (env !! Config.env_key j "_URL"))
   || negb (Config.is_set (env !! Config.env_key j "_CONSUMER_KEY"))
   || negb (Config.is_set (env !! Config.env_key j "_CONSUMER_SECRET"))) = false
  <-> configured env j.
Proof.
  unfold configured.
  destruct (Config.is_set (env !! Config.env_key j "_URL")),
    (Config.is_set (env !! Config.env_key j "_CONSUMER_KEY")),
    (Config.is_set (env !! Config.env_key j "_CONSUMER_SECRET")); cbn;
    intuition congruence.
Qed.

(** The loop, started at an index before which every index is configured,
    stops at the first index that is not, and has rounds enough for it. *)
Lemma loadStoreConfigurations_loop_spec (env : Config.Env) (fuel : nat) :
  forall (storeIndex : nat) (stores : list Config.Store),
    (1 <= storeIndex)%nat ->
    (forall j, (1 <= j < storeIndex)%nat -> configured env j) ->
    (size env + 1 < fuel + storeIndex)%nat ->
    exists n,
      Config.loadStoreConfigurations_loop env fuel storeIndex stores
      = Some (stores ++ (store_at env <$> seq storeIndex n))%list
      /\ (forall j, (1 <= j < storeIndex + n)%nat -> configured env j)
      /\ ~ configured env (storeIndex + n).
Proof.
  induction fuel as [|fuel IH]; intros storeIndex stores Hpos Hbefore Hfuel.
  - exfalso.
    assert (storeIndex - 1 <= size env)%nat; [|lia].
    apply configured_count. intros j Hj.
    destruct (Hbefore j) as (Hurl & _); [lia|].
    apply is_set_Some in Hurl as (v & -> & _). eauto.
  - cbn [Config.loadStoreConfigurations_loop].
    destruct (negb (Config.is_set (env !! Config.env_key storeIndex "_URL"))
              || negb (Config.is_set (env !! Config.env_key storeIndex "_CONSUMER_KEY"))
              || negb (Config.is_set (env !! Config.env_key storeIndex "_CONSUMER_SECRET")))
      eqn:Hstop.
    + exists 0%nat. rewrite app_nil_r, Nat.add_0_r. split; [reflexivity|].
      split; [exact Hbefore|]. intros Hc. apply configured_dec in Hc. congruence.
    + apply configured_dec in Hstop.
      destruct (IH (S storeIndex)
                  (stores ++ [store_at env storeIndex])%list) as (n & Heq & Hall & Hnot);
        [lia| |lia|].
      { intros j Hj. destruct (decide (j = storeIndex)) as [->|]; [exact Hstop|].
        apply Hbefore. lia. }
      exists (S n). fold (store_at env storeIndex). rewrite Heq, <- app_assoc.
      replace (storeIndex + S n)%nat with (S storeIndex + n)%nat by lia.
      split; [reflexivity|]. split; [exact Hall|exact Hnot].
Qed.

Lemma loadStoreConfigurations_spec (env : Config.Env) :
  exists n,
    Config.loadStoreConfigurations env = Some (store_at env <$> seq 1 n)
    /\ (forall j, (1 <= j <= n)%nat -> configured env j)
    /\ ~ configured env (S n).
Proof.
  destruct (loadStoreConfigurations_loop_spec env (S (size env)) 1 [])
    as (n & Heq & Hall & Hnot); [lia|intros j Hj; lia|lia|].
  exists n. split; [exact Heq|]. split; [intros j Hj; apply Hall; lia|exact Hnot].
Qed.

(** X15. The stores that are loaded.  [loadStoreConfigurations] returns,
    whatever the environment: the loop ends.  It returns the stores of the
    indices 1 to [n], in this order and with the distinct ids [store1] to
    [storeN], where [n + 1] is the first index one of whose three required variables
    is not set or is empty: a store configured after such an index is not
    loaded. *)
Theorem stores_loaded_up_to_first_gap (env : Config.Env) :
  exists (n : nat) (stores : list Config.Store),
    Config.loadStoreConfigurations env = Some stores
    /\ stores = store_at env <$> seq 1 n
    /\ Config.id <$> stores = (fun j : nat => "store" +:+ pretty j) <$> seq 1 n
    /\ NoDup (Config.id <$> stores)
    /\ (forall j, (1 <= j <= n)%nat -> configured env j)
    /\ ~ configured env (S n)
    /\ (n <= size env)%nat.
Proof.
  destruct (loadStoreConfigurations_spec env) as (n & Heq & Hall & Hnot).
  exists n, (store_at env <$> seq 1 n).
  split; [exact Heq|]. split; [reflexivity|]. split.
  { rewrite <- list_fmap_compose. reflexivity. }
  split.
  { rewrite <- list_fmap_compose. apply NoDup_fmap_2; [|apply NoDup_seq].
    intros i j Hij. cbn in Hij. apply (inj (String.append "store")) in Hij.
    apply (inj pretty) in Hij. exact Hij. }
  split; [exact Hall|]. split; [exact Hnot|].
  apply configured_count. intros j Hj. destruct (Hall j Hj) as (Hurl & _).
  apply is_set_Some in Hurl as (v & -> & _). eauto.
Qed.

Lemma find_store_at (env : Config.Env) (storeId : string) (start n : nat) :
  Config.getStoreById (store_at env <$> seq start n) storeId
  = match list_find (fun j : nat => "store" +:+ pretty j = storeId) (seq start n) with
    | Some (_, j) => Some (store_at env j)
    | None => None
    end.
Proof.
  revert start. induction n as [|n IH]; intros start; [reflexivity|].
  cbn [seq fmap list_fmap Config.getStoreById find]. cbn [list_find].
  change (Config.id (store_at env start)) with ("store" +:+ pretty start).
  destruct (decide ("store" +:+ pretty start = storeId)) as [Heq|Hne].
  - rewrite (proj2 (String.eqb_eq _ _) Heq). reflexivity.
  - rewrite (proj2 (String.eqb_neq _ _) Hne).
    specialize (IH (S start)). unfold Config.getStoreById in IH.
    fold (store_at env <$> seq (S start) n). rewrite IH.
    destruct (list_find _ (seq (S start) n)) as [[i j]|]; reflexivity.
Qed.

(** X16. A store by its id.  Among the stores that were loaded, the id
    [storeJ] finds the store of the index [J], for every [J] from 1 to the
    number of stores, and any other id finds nothing. *)
Theorem getStoreById_loaded (env : Config.Env) (stores : list Config.Store) :
  Config.loadStoreConfigurations env = Some stores ->
  (forall j, (1 <= j <= length stores)%nat ->
     Config.getStoreById stores ("store" +:+ pretty j) = Some (store_at env j)
     /\ stores !! (j - 1)%nat = Some (store_at env j))
  /\ (forall storeId,
        (forall j, (1 <= j <= length stores)%nat -> storeId <> "store" +:+ pretty j) ->
        Config.getStoreById stores storeId = None).
Proof.
  intros Hload. destruct (loadStoreConfigurations_spec env) as (n & Heq & _).
  rewrite Heq in Hload. injection Hload as <-.
  rewrite length_fmap, length_seq. split.
  - intros j Hj. split.
    + rewrite find_store_at.
      destruct (list_find _ (seq 1 n)) as [[i j']|] eqn:Hfind.
      * apply list_find_Some in Hfind as (_ & Hid & _).
        apply (inj (String.append "store")) in Hid. apply (inj pretty) in Hid.
        subst j'. reflexivity.
      * apply list_find_None in Hfind. rewrite Forall_forall in Hfind.
        exfalso. apply (Hfind j); [apply elem_of_seq; lia|reflexivity].
    + rewrite list_lookup_fmap, lookup_seq_lt by lia. cbn. f_equal. f_equal. lia.
  - intros storeId Hother. rewrite find_store_at.
    destruct (list_find _ (seq 1 n)) as [[i j']|] eqn:Hfind; [|reflexivity].
    apply list_find_Some in Hfind as (Hin & Hid & _).
    exfalso. apply (Hother j'); [|symmetry; exact Hid].
    apply list_elem_of_lookup_2 in Hin. apply elem_of_seq in Hin. lia.
Qed.

Lemma validate_store_at (env : Config.Env) (j : nat) :
  configured env j ->
  Config.url (store_at env j) <> ""
  /\ Config.consumerKey (store_at env j) <> ""
  /\ Config.consumerSecret (store_at env j) <> ""
  /\ (Config.validate_store (store_at env j) = [] <-> well_configured (store_at env j)).
Proof.
  intros (Hurl & Hkey & Hsecret).
  apply is_set_Some in Hurl as (u & Hu & Hune).
  apply is_set_Some in Hkey as (k & Hk & Hkne).
  apply is_set_Some in Hsecret as (sec & Hs & Hsne).
  unfold well_configured, Config.validate_store, store_at.
  cbn [Config.store_of_env Config.url Config.consumerKey Config.consumerSecret
       Config.scrapeInterval Config.timeout Config.id].
  rewrite Hu, Hk, Hs. cbn [default from_option Datatypes.id].
  split; [exact Hune|]. split; [exact Hkne|]. split; [exact Hsne|].
  rewrite (proj2 (String.eqb_neq _ _) Hune), (proj2 (String.eqb_neq _ _) Hkne),
    (proj2 (String.eqb_neq _ _) Hsne). cbn [negb andb app].
  destruct (String.prefix "http" u);
    destruct (Z.ltb_spec (Config.parseInt_or (env !! Config.env_key j "_SCRAPE_INTERVAL")
                            300000) 60000);
    destruct (Z.ltb_spec (Config.parseInt_or (env !! Config.env_key j "_TIMEOUT") 30000)
                5000);
    cbn; split; try discriminate; try (intros (? & ? & ?); first [discriminate|lia]);
    intros _; repeat split; lia.
Qed.

Lemma validateStores_nil (env : Config.Env) (stores : list Config.Store) :
  (forall store, store ∈ stores -> exists j, store = store_at env j /\ configured env j) ->
  (Config.validateStores stores = []
   <-> forall store, store ∈ stores -> well_configured store).
Proof.
  unfold Config.validateStores. induction stores as [|store rest IH]; intros Hmem.
  - split; [intros _ store Hin; inversion Hin|reflexivity].
  - rewrite bind_cons.
    destruct (Hmem store) as (j & -> & Hc); [apply list_elem_of_here|].
    destruct (validate_store_at env j Hc) as (_ & _ & _ & Hj).
    assert (Hrest : forall st, st ∈ rest ->
                      exists j', st = store_at env j' /\ configured env j')
      by (intros st Hst; apply Hmem; apply list_elem_of_further; exact Hst).
    specialize (IH Hrest). split.
    + intros [Hstore Hnil]%app_eq_nil store' [->|Hin]%elem_of_cons.
      * apply Hj. exact Hstore.
      * apply IH; [exact Hnil|exact Hin].
    + intros Hwell.
      rewrite (proj2 Hj (Hwell _ (list_elem_of_here _ _))).
      apply IH. intros st Hst. apply Hwell. apply list_elem_of_further. exact Hst.
Qed.

(** X17. The validation of loaded stores.  A store that was loaded has a
    URL, a consumer key and a consumer secret, so none of the three
    [is required] errors is reported for it; the validation reports no
    error exactly when the URL of every store starts with [http], every
    scrape interval is at least 60000 and every timeout at least 5000. *)
Theorem validateStores_loaded (env : Config.Env) (stores : list Config.Store) :
  Config.loadStoreConfigurations env = Some stores ->
  (forall store, store ∈ stores ->
     Config.url store <> "" /\ Config.consumerKey store <> ""
     /\ Config.consumerSecret store <> "")
  /\ (Config.validateStores stores = []
      <-> forall store, store ∈ stores -> well_configured store).
Proof.
  intros Hload. destruct (loadStoreConfigurations_spec env) as (n & Heq & Hall & _).
  rewrite Heq in Hload. injection Hload as <-.
  assert (Hmem : forall store, store ∈ store_at env <$> seq 1 n ->
                   exists j, store = store_at env j /\ configured env j).
  { intros store (j & -> & Hj)%list_elem_of_fmap. apply elem_of_seq in Hj.
    exists j. split; [reflexivity|apply Hall; lia]. }
  split.
  - intros store (j & -> & Hc)%Hmem.
    destruct (validate_store_at env j Hc) as (? & ? & ? & _). auto.
  - apply (validateStores_nil env). exact Hmem.
Qed.

End ConfigProperties.

(** ** Start-up *)

Section StartupProperties.
Context {num : Type}.
Variable connect : Config.Store -> Result Upstream.

Lemma testConnection_eq (c : WooCommerceClient) (s : State num) :
  exists lgs,
    Client.testConnection c s
    = (Ok (match get_system_status (api c) with Ok _ => true | Throw _ => false end),
       with_trace s [status_request c] lgs).
Proof.
  unfold Client.testConnection, Client.api_get_system_status, status_request. munfold.
  unfold with_trace. simpl.
  destruct (get_system_status (api c)) as [[]|e]; simpl; eexists;
    rewrite <- ?app_assoc; reflexivity.
Qed.

Lemma forEach_logger (f : string -> string) (l : Level) (xs : list string) (s : State num) :
  forEach (fun x => logger l (f x)) xs s
  = (Ok tt, with_trace s [] ((fun x => (l, f x)) <$> xs)).
Proof.
  revert s. induction xs as [|x xs IH]; intros s.
  - cbn [forEach fmap list_fmap]. unfold ret. rewrite with_trace_nil. reflexivity.
  - cbn [forEach]. unfold bind. rewrite logger_eq, IH, with_trace_twice.
    reflexivity.
Qed.

Lemma initialize_store_eq (storeConf : Config.Store)
    (storeClients : list (string * WooCommerceClient)) (s : State num) :
  exists lgs,
    Startup.initialize_store connect storeConf storeClients s
    = (Ok (match client_of connect storeConf with
           | Some (k, c) => Startup.Map_set k c storeClients
           | None => storeClients
           end),
       with_trace s (match client_of connect storeConf with
                     | Some (_, c) => [status_request c]
                     | None => []
                     end) lgs).
Proof.
  unfold Startup.initialize_store, Startup.new_WooCommerceClient, client_of.
  destruct (connect storeConf) as [upstream|e].
  - erewrite mbind_ok by reflexivity. mstep. cbn [mret M_ret ret].
    match goal with
    | |- context [mbind _ (Client.testConnection ?c) ?s0] =>
        destruct (testConnection_eq c s0) as [lgs Htest]
    end.
    cbn [mret M_ret ret].
    erewrite mbind_ok by exact Htest. cbn [api].
    destruct (get_system_status upstream); rewrite logger_eq, !with_trace_twice;
      eexists; reflexivity.
  - erewrite mbind_throw by reflexivity.
    unfold Startup.failed_to_initialize. mstep. cbn. eexists. reflexivity.
Qed.

Lemma initialize_stores_eq (stores : list Config.Store) :
  forall (storeClients : list (string * WooCommerceClient)) (s : State num),
  exists lgs,
    Startup.initialize_stores connect stores storeClients s
    = (Ok (fold_left (fun m storeConf =>
                        match client_of connect storeConf with
                        | Some (k, c) => Startup.Map_set k c m
                        | None => m
                        end) stores storeClients),
       with_trace s (status_request ∘ snd <$> omap (client_of connect) stores) lgs).
Proof.
  induction stores as [|storeConf rest IH]; intros storeClients s.
  - exists []. cbn. rewrite with_trace_nil. reflexivity.
  - cbn [Startup.initialize_stores].
    destruct (initialize_store_eq storeConf storeClients s) as [lgs Hone].
    erewrite mbind_ok by exact Hone.
    destruct (IH (match client_of connect storeConf with
                  | Some (k, c) => Startup.Map_set k c storeClients
                  | None => storeClients
                  end)
                 (with_trace s (match client_of connect storeConf with
                                | Some (_, c) => [status_request c]
                                | None => []
                                end) lgs)) as [lgs' ->].
    rewrite with_trace_twice. exists (lgs ++ lgs')%list.
    cbn [fold_left omap list_omap]. fold (omap (client_of connect) rest).
    destruct (client_of connect storeConf) as [[k c]|]; reflexivity.
Qed.

Lemma Map_set_fresh (k : string) (v : WooCommerceClient)
    (m : list (string * WooCommerceClient)) :
  k ∉ m.*1 -> Startup.Map_set k v m = (m ++ [(k, v)])%list.
Proof.
  induction m as [|[k' v'] m IH]; intros Hk; [reflexivity|].
  rewrite fmap_cons in Hk. apply not_elem_of_cons in Hk as [Hne Hk].
  cbn [Startup.Map_set fst]. cbn [fst] in Hne.
  rewrite (proj2 (String.eqb_neq k' k)) by (intros ->; apply Hne; reflexivity).
  rewrite IH by exact Hk. reflexivity.
Qed.

Lemma client_of_id (storeConf : Config.Store) (entry : string * WooCommerceClient) :
  client_of connect storeConf = Some entry -> entry.1 = Config.id storeConf.
Proof.
  unfold client_of. destruct (connect storeConf); [|discriminate].
  intros [= <-]. reflexivity.
Qed.

(** With distinct ids every client is added at the end of the map. *)
Lemma fold_Map_set_fresh (stores : list Config.Store) :
  forall m : list (string * WooCommerceClient),
    NoDup (m.*1 ++ (Config.id <$> stores)) ->
    fold_left (fun m storeConf =>
                 match client_of connect storeConf with
                 | Some (k, c) => Startup.Map_set k c m
                 | None => m
                 end) stores m
    = (m ++ omap (client_of connect) stores)%list.
Proof.
  induction stores as [|storeConf rest IH]; intros m Hnd.
  - cbn. rewrite app_nil_r. reflexivity.
  - cbn [fold_left omap list_omap]. fold (omap (client_of connect) rest).
    rewrite fmap_cons in Hnd.
    destruct (client_of connect storeConf) as [[k c]|] eqn:Hc.
    + apply client_of_id in Hc. cbn in Hc. subst k.
      rewrite Map_set_fresh.
      * rewrite IH; [rewrite <- app_assoc; reflexivity|].
        rewrite fmap_app, <- app_assoc. exact Hnd.
      * apply NoDup_app in Hnd as (_ & Hdis & _). intros Hin.
        apply (Hdis _ Hin). apply list_elem_of_here.
    + apply IH. apply NoDup_app in Hnd as (Hm & Hdis & Hrest).
      apply NoDup_cons in Hrest as [_ Hrest].
      apply NoDup_app. split; [exact Hm|]. split; [|exact Hrest].
      intros x Hx Hin. apply (Hdis x Hx). apply list_elem_of_further. exact Hin.
Qed.

(** X18. A start-up that registers no client.  With no enabled store,
    [initializeStores] returns [false] after one warning.  With an enabled
    store and a validation error for any configured store, enabled or not,
    it throws [Invalid store configuration] after logging every error.  In
    both cases no client is constructed and no request is made. *)
Theorem startup_without_clients (allStores : list Config.Store)
    (storeClients : list (string * WooCommerceClient)) (s : State num) :
  (Config.getEnabledStores allStores = [] ->
   Startup.initializeStores connect allStores storeClients s
   = (Ok (false, storeClients),
      with_trace s [] [(Warn, "No enabled stores found in configuration")]))
  /\ (Config.getEnabledStores allStores <> [] ->
      Config.validateStores allStores <> [] ->
      let run := Startup.initializeStores connect allStores storeClients s in
      run.1 = Throw {| message := "Invalid store configuration" |}
      /\ requests run.2 = requests s
      /\ register run.2 = register s
      /\ forall error, error ∈ Config.validateStores allStores ->
                       (LError, "  - " +:+ error) ∈ logs run.2).
Proof.
  unfold Startup.initializeStores. split.
  - intros ->. cbn [length Nat.eqb]. mstep. reflexivity.
  - intros Henabled Herrors.
    destruct (Config.getEnabledStores allStores) as [|st enabled]; [congruence|].
    cbn [length Nat.eqb]. mstep.
    destruct (Config.validateStores allStores) as [|error errors] eqn:Hval; [congruence|].
    cbn [length Nat.ltb Nat.leb]. mstep.
    erewrite mbind_ok by apply forEach_logger.
    cbn [throw fst snd]. rewrite !with_trace_twice.
    split; [reflexivity|]. split; [cbn; rewrite app_nil_r; reflexivity|].
    split; [reflexivity|].
    intros err Herr. cbn [logs with_trace]. do 3 (apply elem_of_app; right).
    apply (list_elem_of_fmap_2' _ _ err); [exact Herr|reflexivity].
Qed.

(** X19. The clients registered at start-up.  With an enabled store, no
    validation error and distinct store ids, [initializeStores] on an empty
    map registers, in the order of the configuration, a client for every
    enabled store whose client can be constructed, whatever the outcome of
    its connection test, and makes one status request for each; it returns
    whether the map is not empty. *)
Theorem startup_registers_clients (allStores : list Config.Store) (s : State num) :
  Config.getEnabledStores allStores <> [] ->
  Config.validateStores allStores = [] ->
  NoDup (Config.id <$> allStores) ->
  let clients := omap (client_of connect) (Config.getEnabledStores allStores) in
  let run := Startup.initializeStores connect allStores [] s in
  run.1 = Ok ((0 <? length clients)%nat, clients)
  /\ requests run.2 = (requests s ++ (status_request ∘ snd <$> clients))%list
  /\ register run.2 = register s.
Proof.
  intros Henabled Hvalid Hnd clients run. subst clients run.
  unfold Startup.initializeStores.
  destruct (Config.getEnabledStores allStores) as [|st enabled] eqn:Hen; [congruence|].
  cbn [length Nat.eqb]. mstep. rewrite Hvalid. cbn [length Nat.ltb Nat.leb].
  destruct (initialize_stores_eq (st :: enabled) []
              (with_trace s [] [(Info, "Initializing " +:+ pretty (S (length enabled))
                                       +:+ " enabled stores")])) as [lgs Hrun].
  erewrite mbind_ok by exact Hrun.
  rewrite fold_Map_set_fresh.
  2:{ rewrite <- Hen. change (NoDup (Config.id <$> Config.getEnabledStores allStores)).
      apply (sublist_NoDup _ _ Hnd). apply fmap_sublist. apply sublist_filter. }
  cbn [app]. mstep. cbn [mret M_ret ret fst snd]. rewrite !with_trace_twice.
  split; [|split; [cbn [requests with_trace app]; rewrite app_nil_r; reflexivity
                  |reflexivity]].
  reflexivity.
Qed.

End StartupProperties.

(** ** The customer count when the walk ends *)

Section CustomerWalk.
Context `{RT : JsRuntime num}.
Variable clock : nat -> Z.
Import Collector.

Lemma records_of_ok {A : Type} (page_of : nat -> Result (list A)) (pg : nat) (l : list A) :
  page_of pg = Ok l -> records_of page_of pg = l.
Proof. unfold records_of. intros ->. reflexivity. Qed.

(** The walk from page [pg] over [d] non-empty pages to an empty one. *)
Lemma customers_loop_stops (c : WooCommerceClient) :
  forall (d pg total : nat) (s : State num),
    (pg + d <= 10)%nat ->
    (forall j, (pg <= j < pg + d)%nat -> exists l, customers_page c j = Ok l /\ l <> []) ->
    customers_page c (pg + d) = Ok [] ->
    exists lgs,
      customers_loop c pg total s
      = (Ok (total + length (concat (records_of (customers_page c) <$> seq pg d)))%nat,
         with_trace s ((fun j => customers_request c (customers_walk_params j))
                         <$> seq pg (S d)) lgs).
Proof.
  induction d as [|d IH]; intros pg total s Hd Hfull Hempty; rewrite customers_loop_step;
    (destruct (decide (pg <= 10)%nat) as [Hle|]; [|lia]);
    destruct (customers_fetch_eq c pg s) as [lgs ->].
  - rewrite Nat.add_0_r in Hempty. rewrite Hempty. cbn [length Nat.eqb].
    exists lgs. cbn. f_equal. f_equal. lia.
  - destruct (Hfull pg) as (l & Hl & Hne); [lia|]. rewrite Hl.
    destruct l as [|x l]; [congruence|]. cbn [length Nat.eqb].
    destruct (IH (pg + 1)%nat (total + S (length l))%nat
                 (with_trace s [customers_request c (customers_walk_params pg)] lgs))
      as [lgs' ->]; [lia|intros j Hj; apply Hfull; lia| |].
    + replace (pg + 1 + d)%nat with (pg + S d)%nat by lia. exact Hempty.
    + rewrite with_trace_twice. replace (pg + 1)%nat with (S pg) by lia.
      exists (lgs ++ lgs')%list. f_equal. f_equal.
      change (seq pg (S d)) with (pg :: seq (S pg) d).
      rewrite fmap_cons. cbn [concat]. rewrite (records_of_ok _ _ _ Hl), length_app.
      cbn [length]. lia.
Qed.

Lemma count_all_customers_first_page (c : WooCommerceClient) (l : list Customer)
    (s : State num) :
  customers_page c 1 = Ok l ->
  exists lgs,
    Client.getCustomers c {| page := None; per_page := Some 100%nat; after := None |} s
    = (Ok l, with_trace s [customers_request c (customers_walk_params 1)] lgs).
Proof.
  intros Hl.
  destruct (getCustomers_eq c {| page := None; per_page := Some 100%nat; after := None |} s)
    as [lgs Hg].
  change (Client.defaultParams _) with (customers_walk_params 1) in Hg.
  fold (customers_page c 1) in Hg. rewrite Hl in Hg. eauto.
Qed.

(** The customer reduction when the walk returns [n] after the requests
    [reqs]. *)
Lemma collectCustomerMetrics_counted (c : WooCommerceClient) (s : State num)
    (customers : list Customer) (n : nat) (reqs : list Request) :
  get_customers (api c) customers_probe_params = Ok customers ->
  (forall s0 : State num,
     exists lgs, count_all_customers c s0 = (Ok n, with_trace s0 reqs lgs)) ->
  (collectCustomerMetrics clock c s).1 = Ok tt
  /\ gauges (register (collectCustomerMetrics clock c s).2)
       !! (totalCustomersGauge, [storeId c; storeName c]) = Some (of_nat n)
  /\ requests (collectCustomerMetrics clock c s).2
     = (requests s ++ customers_request c customers_probe_params :: reqs)%list.
Proof.
  intros Hprobe Hcount.
  assert (Hstart : forall s0 : State num,
            exists lgs,
              Client.getCustomers c {| page := None; per_page := Some 1%nat; after := None |} s0
              = (Ok customers,
                 with_trace s0 [customers_request c customers_probe_params] lgs)).
  { intros s0.
    destruct (getCustomers_eq c {| page := None; per_page := Some 1%nat; after := None |} s0)
      as [lgs Hg].
    change (Client.defaultParams _) with customers_probe_params in Hg.
    rewrite Hprobe in Hg. eauto. }
  destruct (collectCustomerMetrics clock c s) as [r s'] eqn:Hrun. revert Hrun.
  unfold collectCustomerMetrics. mstep.
  match goal with
  | |- try_catch ?body _ ?s0 = _ -> _ =>
      assert (Hbody : exists sf, body s0 = (Ok tt, sf)
                /\ gauges (register sf) !! (totalCustomersGauge, [storeId c; storeName c])
                   = Some (of_nat n)
                /\ requests sf
                   = (requests s ++ customers_request c customers_probe_params :: reqs)%list)
  end.
  { mstep.
    match goal with
    | |- context [mbind _ _ ?s0] => destruct (Hstart s0) as [lgs0 Hg0]
    end.
    erewrite mbind_ok by exact Hg0. do 2 mstep.
    match goal with
    | |- context [mbind _ (try_catch _ _) ?s0] => destruct (Hcount s0) as [lgs1 Hw]
    end.
    erewrite mbind_ok by (erewrite try_catch_ok by exact Hw; reflexivity).
    mstep. rewrite logger_eq.
    eexists. split; [reflexivity|]. cbn -[seq]. rewrite lookup_insert_eq.
    split; [reflexivity|].
    rewrite <- !app_assoc. rewrite !app_nil_r. reflexivity. }
  destruct Hbody as (sf & Hbody & Hfacts).
  erewrite try_catch_ok by exact Hbody. intros [= <- <-]. exact (conj eq_refl Hfacts).
Qed.

(** X20. The customer count of a walk that ends.  After the probe, when the
    first page of 100 does not hold exactly 100 customers, the gauge is the
    number of customers of that page and no other page is asked for.  When
    it holds exactly 100 and the pages up to [k - 1] are not empty and the
    page [k], at most the tenth, is empty, the gauge is the number of
    customers of the pages 1 to [k - 1], and the pages 1 to [k] are asked
    for. *)
Theorem customer_count_of_walk (c : WooCommerceClient) (s : State num)
    (customers : list Customer) :
  get_customers (api c) customers_probe_params = Ok customers ->
  (forall l : list Customer,
     customers_page c 1 = Ok l -> length l <> 100%nat ->
     (collectCustomerMetrics clock c s).1 = Ok tt
     /\ gauges (register (collectCustomerMetrics clock c s).2)
          !! (totalCustomersGauge, [storeId c; storeName c]) = Some (of_nat (length l))
     /\ requests (collectCustomerMetrics clock c s).2
        = (requests s ++ [customers_request c customers_probe_params;
                          customers_request c (customers_walk_params 1)])%list)
  /\
  (forall k : nat,
     (2 <= k <= 10)%nat ->
     (forall j, (1 <= j < k)%nat ->
        exists l, customers_page c j = Ok l /\ l <> []
                  /\ (j = 1%nat -> length l = 100%nat)) ->
     customers_page c k = Ok [] ->
     (collectCustomerMetrics clock c s).1 = Ok tt
     /\ gauges (register (collectCustomerMetrics clock c s).2)
          !! (totalCustomersGauge, [storeId c; storeName c])
        = Some (of_nat (length (concat (records_of (customers_page c)
                                          <$> seq 1 (k - 1)))))
     /\ requests (collectCustomerMetrics clock c s).2
        = (requests s
           ++ customers_request c customers_probe_params
              :: ((fun j => customers_request c (customers_walk_params j))
                    <$> seq 1 k))%list).
Proof.
  intros Hprobe. split.
  - intros l Hl Hlen.
    apply (collectCustomerMetrics_counted c s customers (length l)
             [customers_request c (customers_walk_params 1)] Hprobe).
    intros s0. unfold count_all_customers.
    destruct (count_all_customers_first_page c l s0 Hl) as [lgs Hg].
    erewrite mbind_ok by exact Hg.
    rewrite (proj2 (Nat.eqb_neq _ _) Hlen). eauto.
  - intros k Hk Hfull Hempty.
    apply (collectCustomerMetrics_counted c s customers _ _ Hprobe).
    intros s0. unfold count_all_customers.
    destruct (Hfull 1%nat) as (l & Hl & Hne & Hlen); [lia|].
    destruct (count_all_customers_first_page c l s0 Hl) as [lgs Hg].
    erewrite mbind_ok by exact Hg. rewrite Hlen by reflexivity. cbn [Nat.eqb].
    destruct (customers_loop_stops c (k - 2) 2%nat 100%nat
                (with_trace s0 [customers_request c (customers_walk_params 1)] lgs))
      as [lgs' ->]; [lia| | |].
    + intros j Hj. destruct (Hfull j) as (l' & Hl' & Hne' & _); [lia|]. eauto.
    + replace (2 + (k - 2))%nat with k by lia. exact Hempty.
    + rewrite with_trace_twice. exists (lgs ++ lgs')%list. f_equal.
      * f_equal. replace (k - 1)%nat with (S (k - 2)) by lia.
        change (seq 1 (S (k - 2))) with (1%nat :: seq 2 (k - 2)).
        rewrite fmap_cons. cbn [concat].
        rewrite (records_of_ok _ _ _ Hl), length_app, Hlen by reflexivity. reflexivity.
      * f_equal. replace k with (S (S (k - 2))) at 2 by lia. reflexivity.
Qed.

End CustomerWalk.

(** ** Clearing the registry *)

Section ClearMetrics.
Context `{RT : JsRuntime num}.
Variable clock : nat -> Z.
Import Collector.

(** X21. Clearing the registry.  [clearMetrics] leaves no cell, so the
    exposition is empty afterwards; when a store is collected next, the
    registry holds no gauge cell and no counter cell other than cells of
    that store. *)
Theorem clearMetrics_drops_every_cell (c : WooCommerceClient) (s : State num) :
  let cleared := (clearMetrics s).2 in
  (clearMetrics s).1 = Ok tt
  /\ render (register cleared) = []
  /\ (getMetrics cleared).1 = Ok []
  /\ forall k,
       ~ store_cell c k ->
       gauges (register (collectStoreMetrics clock c cleared).2) !! k = None
       /\ counters (register (collectStoreMetrics clock c cleared).2) !! k = None.
Proof.
  cbv zeta. unfold clearMetrics. munfold. cbn [fst snd register].
  split; [reflexivity|]. split; [reflexivity|]. split; [reflexivity|].
  intros k Hk.
  match goal with
  | |- context [collectStoreMetrics clock c ?s0] =>
      destruct (collectStoreMetrics_other_store clock c s0 k Hk) as [Hg Hc]
  end.
  rewrite Hg, Hc. split; apply lookup_empty.
Qed.

End ClearMetrics.

(** ** The POST routes *)

Section RouteProperties.
Context `{RT : JsRuntime num}.
Variable clock : nat -> Z.
Import Collector.

Lemma Map_get_unknown (storeClients : list (string * WooCommerceClient))
    (storeId0 : string) :
  storeId0 ∉ storeClients.*1 ->
  snd <$> list_find (fun e : string * WooCommerceClient => e.1 = storeId0) storeClients
  = None.
Proof.
  intros Hnot.
  destruct (list_find _ storeClients) as [[i [sid c]]|] eqn:Hfind; [|reflexivity].
  apply list_find_Some in Hfind as (Hi & Hsid & _). cbn in Hsid. subst sid.
  exfalso. apply Hnot. apply list_elem_of_fmap. exists (storeId0, c).
  split; [reflexivity|]. apply list_elem_of_lookup. eauto.
Qed.

Lemma Map_get_known (storeClients : list (string * WooCommerceClient))
    (storeId0 : string) (c : WooCommerceClient) :
  NoDup storeClients.*1 -> (storeId0, c) ∈ storeClients ->
  snd <$> list_find (fun e : string * WooCommerceClient => e.1 = storeId0) storeClients
  = Some (storeId0, c).
Proof.
  intros Hnd Hc.
  destruct (list_find _ storeClients) as [[i [sid c']]|] eqn:Hfind.
  - apply list_find_Some in Hfind as (Hi & Hsid & _). cbn in Hsid. subst sid.
    apply list_elem_of_lookup in Hc as [j Hj].
    assert (i = j).
    { apply (NoDup_lookup storeClients.*1 i j storeId0 Hnd);
        rewrite list_lookup_fmap; [rewrite Hi|rewrite Hj]; reflexivity. }
    subst j. cbn. congruence.
  - apply list_find_None in Hfind. rewrite Forall_forall in Hfind.
    exfalso. exact (Hfind _ Hc eq_refl).
Qed.

(** A cycle returns normally, whatever the clients are. *)
Lemma collectAllMetrics_returns (storeClients : list (string * WooCommerceClient))
    (s : State num) :
  (App.collectAllMetrics clock storeClients s).1 = Ok tt.
Proof.
  destruct storeClients as [|entry rest].
  - unfold App.collectAllMetrics. mstep. mstep. reflexivity.
  - rewrite collectAllMetrics_run by discriminate. reflexivity.
Qed.

(** X22. The manual trigger of a cycle.  [POST /collect] always answers 200
    with the message [Metrics collection completed for all stores],
    whatever the clients are and whatever their upstreams answer: the
    answer 500 of its [catch] is never sent. *)
Theorem post_collect_always_200 (storeClients : list (string * WooCommerceClient))
    (s : State num) :
  exists timestamp,
    (Routes.post_collect clock storeClients s).1
    = Ok {| Routes.status := 200;
            Routes.body := Routes.Completed "Metrics collection completed for all stores"
                                            timestamp |}.
Proof.
  unfold Routes.post_collect.
  pose proof (collectAllMetrics_returns storeClients
                (with_trace s [] [(Info, "Manual collection triggered for all stores")]))
    as Hok.
  destruct (App.collectAllMetrics clock storeClients
              (with_trace s [] [(Info, "Manual collection triggered for all stores")]))
    as [r s1] eqn:Hrun.
  cbn [fst] in Hok. subst r. exists (clock (ticks s1)).
  erewrite try_catch_ok; [reflexivity|].
  mstep. erewrite mbind_ok by exact Hrun. mstep. reflexivity.
Qed.

(** X23. The manual trigger for one store.  With distinct keys in the map
    of clients, [POST /collect/:storeId] answers 500 with the message
    [Store <id> not found or not initialized] for an id that is not a key,
    without a request or a write, and answers 200 for the id of a client,
    whatever the upstream of the store answers. *)
Theorem post_collect_store_status (storeClients : list (string * WooCommerceClient))
    (storeId0 : string) (s : State num) :
  NoDup storeClients.*1 ->
  let run := Routes.post_collect_store clock storeClients storeId0 s in
  (storeId0 ∉ storeClients.*1 ->
   run.1 = Ok {| Routes.status := 500;
                 Routes.body := Routes.Failed "Collection failed"
                                  ("Store " +:+ storeId0 +:+ " not found or not initialized") |}
   /\ requests run.2 = requests s /\ register run.2 = register s)
  /\ (storeId0 ∈ storeClients.*1 ->
      exists timestamp,
        run.1 = Ok {| Routes.status := 200;
                      Routes.body := Routes.Completed
                                       ("Metrics collection completed for store: "
                                        +:+ storeId0) timestamp |}).
Proof.
  intros Hnd run. subst run. unfold Routes.post_collect_store. split.
  - intros Hnot. erewrite try_catch_throw.
    2:{ mstep. unfold App.collectStoreMetrics.
        rewrite (Map_get_unknown _ _ Hnot). apply mbind_throw. reflexivity. }
    mstep. cbn. rewrite !app_nil_r. repeat split.
  - intros ((sid & c) & Hsid & Hc)%list_elem_of_fmap. cbn in Hsid. subst sid.
    assert (Hone : forall s0 : State num,
              exists s1, App.collectStoreMetrics clock storeClients storeId0 s0
                         = (Ok tt, s1)).
    { intros s0. unfold App.collectStoreMetrics. rewrite (Map_get_known _ _ _ Hnd Hc).
      mstep.
      match goal with
      | |- context [mbind _ (collectStoreMetrics clock c) ?s2] =>
          destruct (collectStoreMetrics_run clock c s2) as [Hok _];
          destruct (collectStoreMetrics clock c s2) as [r s1] eqn:Hrun
      end.
      cbn [fst] in Hok. subst r. erewrite mbind_ok by exact Hrun.
      rewrite logger_eq. eauto. }
    destruct (Hone (with_trace s []
                      [(Info, "Manual collection triggered for store: " +:+ storeId0)]))
      as [s1 Hrun].
    exists (clock (ticks s1)).
    erewrite try_catch_ok; [reflexivity|].
    mstep. erewrite mbind_ok by exact Hrun. mstep. reflexivity.
Qed.

(** X24. The connection test of a store.  With distinct keys in the map of
    clients, [POST /test/:storeId] answers 404 for an id that is not a key
    and does nothing else; for the id of a client it makes one status
    request and answers 200 with [connected] telling whether the request
    succeeded.  The answer 500 of its [catch] is never sent. *)
Theorem post_test_status (storeClients : list (string * WooCommerceClient))
    (storeId0 : string) (s : State num) :
  NoDup storeClients.*1 ->
  (storeId0 ∉ storeClients.*1 ->
   Routes.post_test clock storeClients storeId0 s
   = (Ok {| Routes.status := 404;
            Routes.body := Routes.NotFound "Store not found" storeId0 |}, s))
  /\ (forall c, (storeId0, c) ∈ storeClients ->
        exists timestamp,
          (Routes.post_test clock storeClients storeId0 s).1
          = Ok {| Routes.status := 200;
                  Routes.body := Routes.Connection storeId0
                                   (match get_system_status (api c) with
                                    | Ok _ => true
                                    | Throw _ => false
                                    end) timestamp |}
          /\ requests (Routes.post_test clock storeClients storeId0 s).2
             = (requests s ++ [status_request c])%list
          /\ register (Routes.post_test clock storeClients storeId0 s).2 = register s).
Proof.
  intros Hnd. unfold Routes.post_test. split.
  - intros Hnot. rewrite (Map_get_unknown _ _ Hnot). reflexivity.
  - intros c Hc. rewrite (Map_get_known _ _ _ Hnd Hc).
    destruct (testConnection_eq c s) as [lgs Htest].
    exists (clock (ticks s)). erewrite try_catch_ok.
    2:{ erewrite mbind_ok by exact Htest. mstep. reflexivity. }
    cbn. repeat split.
Qed.

End RouteProperties.

(** ** Instances *)

Section FurtherInstances.
Import Collector Examples MoreExamples.

Lemma product_cells_witness :
  (Client.getAllProducts store_a no_params s_init).1
  = Ok [a_product "outofstock" (JNum 0) (JBool true);
        a_product "instock" (JNum 4) (JBool true)]
  /\ gauges (register (collectProductMetrics clock0 store_a s_init).2)
       !! (totalProductsGauge, ["a"; "A"; "publish"]) = Some 2
  /\ gauges (register (collectProductMetrics clock0 store_a s_init).2)
       !! (totalProductsGauge, ["a"; "A"; "draft"]) = None
  /\ (Client.getAllProducts shop_constructor no_params s_init).1 = Ok products_constructor
  /\ (collectProductMetrics clock0 shop_constructor s_init).1 = Throw not_a_number
  /\ gauges (register (collectProductMetrics clock0 shop_constructor s_init).2)
       !! (outOfStockProductsGauge, ["store1"; "Main"]) = None.
Proof.
  assert (Hfetch : (Client.getAllProducts store_a no_params s_init).1
                   = Ok [a_product "outofstock" (JNum 0) (JBool true);
                         a_product "instock" (JNum 4) (JBool true)])
    by (vm_compute; reflexivity).
  assert (Hfetch' : (Client.getAllProducts shop_constructor no_params s_init).1
                    = Ok products_constructor)
    by (vm_compute; reflexivity).
  split; [exact Hfetch|].
  destruct (product_cells clock0 store_a s_init _ Hfetch) as [Hplain _].
  destruct (Hplain eq_refl) as (_ & _ & Hstatus & _).
  split; [etransitivity; [apply (Hstatus "publish"); discriminate|reflexivity]|].
  split; [etransitivity; [apply (Hstatus "draft"); discriminate|reflexivity]|].
  split; [exact Hfetch'|].
  destruct (product_cells clock0 shop_constructor s_init _ Hfetch') as [_ Hstops].
  destruct (Hstops eq_refl) as (Hres & _ & Hout & _).
  split; [exact Hres|]. etransitivity; [exact Hout|reflexivity].
Defined.

Lemma order_count_cells_witness :
  exists acc acc' : OrderAcc,
    (Client.getAllOrders shop_three (cycle_params clock0 0) s_init).1 = Ok three_orders
    /\ process_orders (cycle_today clock0 0) (cycle_thisMonth clock0 0)
                      order_acc0 three_orders = Ok acc
    /\ gauges (register (collectOrderMetrics clock0 shop_three s_init).2)
         !! (ordersByStatusGauge, ["store1"; "Main"; "completed"; "USD"]) = Some 2
    /\ gauges (register (collectOrderMetrics clock0 shop_three s_init).2)
         !! (failedOrdersGauge, ["store1"; "Main"]) = Some 0
    /\ (Client.getAllOrders shop_constructor (cycle_params clock0 0) s_init).1
       = Ok orders_constructor
    /\ process_orders (cycle_today clock0 0) (cycle_thisMonth clock0 0)
                      order_acc0 orders_constructor = Ok acc'
    /\ (collectOrderMetrics clock0 shop_constructor s_init).1 = Throw not_a_number
    /\ gauges (register (collectOrderMetrics clock0 shop_constructor s_init).2)
         !! (pendingOrdersGauge, ["store1"; "Main"]) = None.
Proof.
  eexists _, _. split; [vm_compute; reflexivity|]. split; [vm_compute; reflexivity|].
  destruct (order_count_cells clock0 shop_three s_init three_orders _ eq_refl eq_refl)
    as [Hplain _].
  destruct (Hplain eq_refl) as (_ & _ & Hstatus & _ & Hfailed & _).
  split; [etransitivity; [apply (Hstatus "completed")|reflexivity]|].
  split; [exact Hfailed|].
  split; [vm_compute; reflexivity|]. split; [vm_compute; reflexivity|].
  destruct (order_count_cells clock0 shop_constructor s_init orders_constructor _
              eq_refl eq_refl) as [_ Hstops].
  destruct (Hstops eq_refl) as (Hres & _ & _ & Hkeep).
  split; [exact Hres|]. etransitivity; [apply Hkeep|reflexivity].
  apply (bool_decide_unpack _). vm_compute. exact I.
Defined.

Lemma revenue_cells_witness :
  exists acc : OrderAcc,
    (Client.getAllOrders shop_three (cycle_params clock0 0) s_init).1 = Ok three_orders
    /\ process_orders (cycle_today clock0 0) (cycle_thisMonth clock0 0)
                      order_acc0 three_orders = Ok acc
    /\ plain_statuses (order_status <$> three_orders) = true
    /\ gauges (register (collectOrderMetrics clock0 shop_three s_init).2)
         !! (totalRevenueGauge, ["store1"; "Main"; "USD"; "all_time"]) = Some 50.
Proof.
  eexists. split; [vm_compute; reflexivity|]. split; [vm_compute; reflexivity|].
  split; [reflexivity|].
  exact (proj1 (revenue_cells clock0 shop_three s_init three_orders _ eq_refl eq_refl
                  eq_refl)).
Defined.

Lemma product_sales_invariant_witness :
  exists acc : OrderAcc,
    process_orders "day" "month" order_acc0 three_orders = Ok acc
    /\ NoDup (sale_id <$> oa_productSales acc)
    /\ forall e, e ∈ oa_productSales acc ->
                 sale_quantity e = quantity_sold (sale_id e) (all_items three_orders).
Proof.
  eexists. split; [vm_compute; reflexivity|].
  destruct (product_sales_invariant "day" "month" three_orders _ eq_refl)
    as (Hnd & _ & Hq).
  split; [exact Hnd|exact Hq].
Defined.

Lemma top_product_cells_witness :
  exists acc : OrderAcc,
    (Client.getAllOrders shop_three (cycle_params clock0 0) s_init).1 = Ok three_orders
    /\ process_orders (cycle_today clock0 0) (cycle_thisMonth clock0 0)
                      order_acc0 three_orders = Ok acc
    /\ {| sale_id := 7; sale_name := "P7"; sale_quantity := 3 |}
         ∈ topProducts (oa_productSales acc)
    /\ gauges (register (collectOrderMetrics clock0 shop_three s_init).2)
         !! (topProductsSoldGauge, ["store1"; "Main"; "7"; "P7"]) = Some 3.
Proof.
  eexists. split; [vm_compute; reflexivity|]. split; [vm_compute; reflexivity|].
  assert (Hin : {| sale_id := 7; sale_name := "P7"; sale_quantity := 3 |}
                  ∈ topProducts
                      [ {| sale_id := 7; sale_name := "P7"; sale_quantity := 3 |};
                        {| sale_id := 8; sale_name := "P8"; sale_quantity := 1 |} ])
    by apply list_elem_of_here.
  split; [exact Hin|].
  exact (top_product_cells clock0 shop_three s_init three_orders _ _ eq_refl eq_refl
           eq_refl Hin).
Defined.

Lemma page_failure_aborts_fetch_witness :
  (2 < 100)%nat
  /\ (Client.getAllOrders (breaks_on_page 3) no_params s_init).1 = Throw down
  /\ length (requests (Client.getAllOrders (breaks_on_page 3) no_params s_init).2) = 3%nat
  /\ (Client.getAllProducts (breaks_on_page 3) no_params s_init).1 = Throw down.
Proof.
  assert (Hlt : (2 < 100)%nat) by lia. split; [exact Hlt|].
  destruct (page_failure_aborts_fetch (breaks_on_page 3) no_params s_init 2 down Hlt)
    as [HO HP].
  destruct HO as (Hres & Hreq & _).
  { intros j Hj. assert (j = 1 \/ j = 2)%nat as [-> | ->] by lia;
      (eexists; split; [reflexivity|discriminate]). }
  { reflexivity. }
  destruct HP as (Hres' & _).
  { intros j Hj. assert (j = 1 \/ j = 2)%nat as [-> | ->] by lia;
      (eexists; split; [reflexivity|discriminate]). }
  { reflexivity. }
  split; [exact Hres|]. split; [rewrite Hreq; reflexivity|exact Hres'].
Defined.

End FurtherInstances.

Section FurtherInstances2.
Import Collector Examples MoreExamples.

Lemma failed_fetch_writes_no_gauge_witness :
  (Client.getAllOrders store_b (cycle_params clock0 0) s_init).1 = Throw down
  /\ (collectOrderMetrics clock0 store_b s_init).1 = Throw down
  /\ gauges (register (collectOrderMetrics clock0 store_b s_init).2) = ∅
  /\ errors (register (collectOrderMetrics clock0 store_b s_init).2)
            (error_key store_b "orders") = 1%N.
Proof.
  assert (Hfail : (Client.getAllOrders store_b (cycle_params clock0 0) s_init).1
                  = Throw down) by (vm_compute; reflexivity).
  split; [exact Hfail|].
  destruct (failed_fetch_writes_no_gauge clock0 store_b s_init down) as [HO _].
  exact (HO Hfail).
Defined.

Lemma line_item_without_product_id_witness :
  exists orders item,
    (Client.getAllOrders shop_bad_item (cycle_params clock0 0) s_init).1 = Ok orders
    /\ item ∈ all_items orders /\ li_product_id item = None
    /\ (collectOrderMetrics clock0 shop_bad_item s_init).1 <> Ok tt
    /\ gauges (register (collectOrderMetrics clock0 shop_bad_item s_init).2)
         !! (totalOrdersGauge, ["store1"; "Main"; "all"; "USD"]) = None.
Proof.
  eexists _, {| li_product_id := None; li_name := "Gift card"; li_quantity := JNum 1 |}.
  split; [vm_compute; reflexivity|].
  assert (Hin : {| li_product_id := None; li_name := "Gift card"; li_quantity := JNum 1 |}
                  ∈ all_items [an_order "completed" "30" [an_item 7 2];
                               an_order "completed" "20"
                                 [ {| li_product_id := None; li_name := "Gift card";
                                      li_quantity := JNum 1 |} ]])
    by (apply list_elem_of_further, list_elem_of_here).
  split; [exact Hin|]. split; [reflexivity|].
  destruct (line_item_without_product_id clock0 shop_bad_item s_init _ eq_refl)
    as [Hiff Hfail].
  split.
  - intros Hok. destruct (proj1 (proj1 Hiff Hok) _ Hin) as [pid Hpid]. discriminate Hpid.
  - destruct Hfail as [Hframe _]; [eexists; split; [exact Hin|reflexivity]|].
    apply (Hframe (totalOrdersGauge, ["store1"; "Main"; "all"; "USD"])). discriminate.
Defined.

Lemma average_order_value_not_set_witness :
  exists acc : OrderAcc,
    (Client.getAllOrders shop_constructor (cycle_params clock0 0) s_init).1
    = Ok orders_constructor
    /\ process_orders (cycle_today clock0 0) (cycle_thisMonth clock0 0)
                      order_acc0 orders_constructor = Ok acc
    /\ length (completed_orders orders_constructor) = 1%nat
    /\ (collectOrderMetrics clock0 shop_constructor s_init).1 = Throw not_a_number
    /\ gauges (register (collectOrderMetrics clock0 shop_constructor s_init).2)
         !! (averageOrderValueGauge, ["store1"; "Main"; "USD"; "all_time"]) = None
    /\ errors (register (collectOrderMetrics clock0 shop_constructor s_init).2)
              (error_key shop_constructor "orders") = 1%N.
Proof.
  eexists. split; [vm_compute; reflexivity|]. split; [vm_compute; reflexivity|].
  split; [reflexivity|].
  assert (Hex : exists o, o ∈ orders_constructor /\ shadows_member (order_status o) = true).
  { exists (an_order "constructor" "5" [an_item 8 1]).
    split; [apply list_elem_of_further, list_elem_of_here|reflexivity]. }
  destruct (average_order_value_not_set clock0 shop_constructor s_init orders_constructor _
              eq_refl eq_refl Hex) as (Hres & Haverage & Herrors).
  split; [exact Hres|]. split; [etransitivity; [exact Haverage|reflexivity]|].
  etransitivity; [exact Herrors|reflexivity].
Defined.

Lemma other_stores_untouched_witness :
  ~ store_cell store_a (totalOrdersGauge, ["b"; "B"; "all"; "USD"])
  /\ gauges (register (collectStoreMetrics clock0 store_a s_init).2)
       !! (totalOrdersGauge, ["b"; "B"; "all"; "USD"]) = None.
Proof.
  assert (Hk : ~ store_cell store_a (totalOrdersGauge, ["b"; "B"; "all"; "USD"]))
    by (intros [rest Heq]; discriminate Heq).
  split; [exact Hk|].
  destruct (other_stores_untouched clock0 (totalOrdersGauge, ["b"; "B"; "all"; "USD"])
              s_init) as [Hone _].
  exact (proj1 (Hone store_a Hk)).
Defined.

Lemma cycle_reports_no_failed_store_witness :
  three_stores <> []
  /\ (App.collectAllMetrics clock0 three_stores s_init).1 = Ok tt
  /\ exists duration,
       last (logs (App.collectAllMetrics clock0 three_stores s_init).2)
       = Some (Info, "Metrics collection completed: 3 successful, 0 failed in "
                     +:+ duration +:+ "s").
Proof.
  assert (Hne : three_stores <> []) by discriminate.
  split; [exact Hne|].
  destruct (cycle_reports_no_failed_store clock0 three_stores s_init Hne)
    as (Hok & _ & Hlast).
  split; [exact Hok|exact Hlast].
Defined.

Lemma collect_store_by_id_witness :
  NoDup three_stores.*1
  /\ ("d" ∉ three_stores.*1)
  /\ App.collectStoreMetrics clock0 three_stores "d" s_init
     = (Throw {| message := "Store d not found or not initialized" |}, s_init)
  /\ (App.collectStoreMetrics clock0 three_stores "b" s_init).1 = Ok tt.
Proof.
  assert (Hnd : NoDup three_stores.*1)
    by (apply (bool_decide_unpack _); vm_compute; exact I).
  assert (Hd : "d" ∉ (three_stores.*1))
    by (apply (bool_decide_unpack _); vm_compute; exact I).
  split; [exact Hnd|]. split; [exact Hd|].
  destruct (collect_store_by_id clock0 three_stores "d" s_init Hnd) as [Hunknown _].
  destruct (collect_store_by_id clock0 three_stores "b" s_init Hnd) as [_ Hknown].
  split; [exact (Hunknown Hd)|].
  apply (Hknown store_b). apply list_elem_of_further, list_elem_of_here.
Defined.

End FurtherInstances2.

Section FurtherInstances3.
Import Collector Examples MoreExamples ConfigExamples.

Example stores_after_a_gap_are_not_loaded :
  Config.loadStoreConfigurations env_example = Some [store_one; store_two].
Proof. vm_compute. reflexivity. Qed.

Lemma getStoreById_loaded_witness :
  Config.loadStoreConfigurations env_example = Some [store_one; store_two]
  /\ Config.getStoreById [store_one; store_two] "store2" = Some (store_at env_example 2)
  /\ Config.getStoreById [store_one; store_two] "store4" = None.
Proof.
  assert (Hload : Config.loadStoreConfigurations env_example = Some [store_one; store_two])
    by (vm_compute; reflexivity).
  split; [exact Hload|].
  destruct (getStoreById_loaded env_example _ Hload) as [Hfound Hnone].
  split.
  - apply (Hfound 2%nat). cbn. lia.
  - apply Hnone. intros j Hj. cbn in Hj.
    assert (j = 1 \/ j = 2)%nat as [-> | ->] by lia; discriminate.
Defined.

Lemma validateStores_loaded_witness :
  Config.loadStoreConfigurations env_example = Some [store_one; store_two]
  /\ Config.validateStores [store_one; store_two] = [].
Proof.
  assert (Hload : Config.loadStoreConfigurations env_example = Some [store_one; store_two])
    by (vm_compute; reflexivity).
  split; [exact Hload|].
  destruct (validateStores_loaded env_example _ Hload) as [_ Hiff].
  apply Hiff. intros store Hin.
  apply elem_of_cons in Hin as [->|Hin];
    [|apply elem_of_cons in Hin as [->|Hin]; [|inversion Hin]];
    (split; [reflexivity|split; cbn; lia]).
Defined.

Lemma startup_without_clients_witness :
  Config.getEnabledStores [store_two] = []
  /\ (Startup.initializeStores connect_unreachable [store_two] [] s_init).1 = Ok (false, [])
  /\ Config.getEnabledStores [store_one; store_bad_url] <> []
  /\ Config.validateStores [store_one; store_bad_url] <> []
  /\ (Startup.initializeStores connect_unreachable [store_one; store_bad_url] [] s_init).1
     = Throw {| message := "Invalid store configuration" |}.
Proof.
  assert (Hnone : Config.getEnabledStores [store_two] = []) by reflexivity.
  assert (Hsome : Config.getEnabledStores [store_one; store_bad_url] <> [])
    by discriminate.
  assert (Hbad : Config.validateStores [store_one; store_bad_url] <> [])
    by discriminate.
  split; [exact Hnone|].
  destruct (startup_without_clients connect_unreachable [store_two] [] s_init)
    as [Hfalse _].
  destruct (startup_without_clients connect_unreachable [store_one; store_bad_url] []
              s_init) as [_ Hthrow].
  split; [rewrite (Hfalse Hnone); reflexivity|].
  split; [exact Hsome|]. split; [exact Hbad|].
  exact (proj1 (Hthrow Hsome Hbad)).
Defined.

Lemma startup_registers_clients_witness :
  Config.getEnabledStores [store_one; store_two] <> []
  /\ Config.validateStores [store_one; store_two] = []
  /\ NoDup (Config.id <$> [store_one; store_two])
  /\ (Startup.initializeStores connect_unreachable [store_one; store_two] [] s_init).1
     = Ok (true, [("store1", {| storeConfig := Startup.storeInfo store_one;
                                api := api store_b |})]).
Proof.
  assert (Hsome : Config.getEnabledStores [store_one; store_two] <> []) by discriminate.
  assert (Hvalid : Config.validateStores [store_one; store_two] = []) by reflexivity.
  assert (Hnd : NoDup (Config.id <$> [store_one; store_two]))
    by (apply (bool_decide_unpack _); vm_compute; exact I).
  split; [exact Hsome|]. split; [exact Hvalid|]. split; [exact Hnd|].
  exact (proj1 (startup_registers_clients connect_unreachable [store_one; store_two] s_init
                  Hsome Hvalid Hnd)).
Defined.

Lemma customer_count_of_walk_witness :
  get_customers (api shop_140_customers) customers_probe_params = Ok (some_customers 1)
  /\ gauges (register (collectCustomerMetrics clock0 shop_140_customers s_init).2)
       !! (totalCustomersGauge, ["store1"; "Main"]) = Some 140
  /\ length (requests (collectCustomerMetrics clock0 shop_140_customers s_init).2) = 4%nat.
Proof.
  assert (Hprobe : get_customers (api shop_140_customers) customers_probe_params
                   = Ok (some_customers 1)) by reflexivity.
  split; [exact Hprobe|].
  destruct (customer_count_of_walk clock0 shop_140_customers s_init _ Hprobe) as [_ Hwalk].
  destruct (Hwalk 3%nat) as (_ & Hgauge & Hreq); [lia| |reflexivity|].
  - intros j Hj. assert (j = 1 \/ j = 2)%nat as [-> | ->] by lia.
    + eexists. split; [reflexivity|]. split; [discriminate|]. intros _. reflexivity.
    + eexists. split; [reflexivity|]. split; [discriminate|]. intros H. discriminate H.
  - split; [exact Hgauge|]. rewrite Hreq. reflexivity.
Defined.

Lemma clearMetrics_drops_every_cell_witness :
  ~ store_cell store_a (totalOrdersGauge, ["b"; "B"; "all"; "USD"])
  /\ gauges (register (collectStoreMetrics clock0 store_a
                         (clearMetrics (collectStoreMetrics clock0 store_b s_init).2).2).2)
       !! (totalProductsGauge, ["b"; "B"; "all"]) = None.
Proof.
  assert (Hk : ~ store_cell store_a (totalOrdersGauge, ["b"; "B"; "all"; "USD"]))
    by (intros [rest Heq]; discriminate Heq).
  split; [exact Hk|].
  destruct (clearMetrics_drops_every_cell clock0 store_a
              (collectStoreMetrics clock0 store_b s_init).2) as (_ & _ & _ & Hother).
  apply Hother. intros [rest Heq]. discriminate Heq.
Defined.

End FurtherInstances3.

Section FurtherInstances4.
Import Collector Examples MoreExamples ConfigExamples.

Lemma post_collect_store_status_witness :
  NoDup three_stores.*1
  /\ ("d" ∉ three_stores.*1)
  /\ (Routes.post_collect_store clock0 three_stores "d" s_init).1
     = Ok {| Routes.status := 500;
             Routes.body := Routes.Failed "Collection failed"
                              "Store d not found or not initialized" |}
  /\ "b" ∈ three_stores.*1
  /\ exists timestamp,
       (Routes.post_collect_store clock0 three_stores "b" s_init).1
       = Ok {| Routes.status := 200;
               Routes.body := Routes.Completed "Metrics collection completed for store: b"
                                               timestamp |}.
Proof.
  assert (Hnd : NoDup three_stores.*1)
    by (apply (bool_decide_unpack _); vm_compute; exact I).
  assert (Hd : "d" ∉ three_stores.*1)
    by (apply (bool_decide_unpack _); vm_compute; exact I).
  assert (Hb : "b" ∈ three_stores.*1)
    by (apply (bool_decide_unpack _); vm_compute; exact I).
  split; [exact Hnd|]. split; [exact Hd|].
  destruct (post_collect_store_status clock0 three_stores "d" s_init Hnd) as [Hunknown _].
  destruct (post_collect_store_status clock0 three_stores "b" s_init Hnd) as [_ Hknown].
  split; [exact (proj1 (Hunknown Hd))|]. split; [exact Hb|].
  exact (Hknown Hb).
Defined.

Lemma post_test_status_witness :
  NoDup three_stores.*1
  /\ ("d" ∉ three_stores.*1)
  /\ Routes.post_test clock0 three_stores "d" s_init
     = (Ok {| Routes.status := 404; Routes.body := Routes.NotFound "Store not found" "d" |},
        s_init)
  /\ exists timestamp,
       (Routes.post_test clock0 three_stores "b" s_init).1
       = Ok {| Routes.status := 200;
               Routes.body := Routes.Connection "b" false timestamp |}.
Proof.
  assert (Hnd : NoDup three_stores.*1)
    by (apply (bool_decide_unpack _); vm_compute; exact I).
  assert (Hd : "d" ∉ three_stores.*1)
    by (apply (bool_decide_unpack _); vm_compute; exact I).
  split; [exact Hnd|]. split; [exact Hd|].
  destruct (post_test_status clock0 three_stores "d" s_init Hnd) as [Hunknown _].
  destruct (post_test_status clock0 three_stores "b" s_init Hnd) as [_ Hknown].
  split; [exact (Hunknown Hd)|].
  destruct (Hknown store_b) as (timestamp & Hres & _);
    [apply list_elem_of_further, list_elem_of_here|].
  exists timestamp. exact Hres.
Defined.

End FurtherInstances4.
